(** * Diagram-to-model generator: a shallow embedding of [generator/generate.py]

    The development follows the source file top to bottom: Python text
    ([PyStr]), the [ClassDef] and [Edge] data classes, [DrawIOParser],
    [RelationshipClassifier], the model-building half of [CodeGenerator]
    and the text that [JavaGenerator] builds for a class.  Reading the XML
    file, writing the Java files and [main] are not embedded.

    Conventions.
    - Python [str] is modelled twice.  [PyStr] works on [string] and is
      exact on ASCII text: [lower], [upper] and [capitalize] map the letters
      A-Z / a-z and leave every other character alone, and the white space
      of [split] and [strip] is the ASCII white space of [str.isspace]
      (codes 9-13, 28-31 and 32).  [Unicode] works on lists of code points
      with the case mappings and the white space of every script, for
      [sanitize_class_name]; on ASCII text the two agree ([sanitize_ascii]).
      Statements that need the case mappings of [PyStr] to be those of
      Python say that the text is ASCII.
    - Python [float] is modelled by primitive binary64 floats.
    - A Python exception is an explicit [Raise] result.
    - [print] appends a line to the [printed] component of the state. *)

From Stdlib Require Import Ascii String Floats.
From stdpp Require Import gmap strings list fin_maps.

Local Open Scope string_scope.
Local Open Scope list_scope.

(** ** Python text *)

Module PyStr.

Definition is_space (c : ascii) : bool :=
  let n := nat_of_ascii c in
  (((9 <=? n) && (n <=? 13)) || ((28 <=? n) && (n <=? 32)))%nat.

Definition is_upper (c : ascii) : bool :=
  let n := nat_of_ascii c in ((65 <=? n) && (n <=? 90))%nat.

Definition is_lower (c : ascii) : bool :=
  let n := nat_of_ascii c in ((97 <=? n) && (n <=? 122))%nat.

Definition lower_char (c : ascii) : ascii :=
  if is_upper c then ascii_of_nat (nat_of_ascii c + 32)%nat else c.

Definition upper_char (c : ascii) : ascii :=
  if is_lower c then ascii_of_nat (nat_of_ascii c - 32)%nat else c.

(** [s.lower()] and [s.upper()] *)
Fixpoint lower (s : string) : string :=
  match s with
  | "" => ""
  | String c r => String (lower_char c) (lower r)
  end.

Fixpoint upper (s : string) : string :=
  match s with
  | "" => ""
  | String c r => String (upper_char c) (upper r)
  end.

(** [s.capitalize()]: first character upper-cased, the rest lower-cased *)
Definition capitalize (s : string) : string :=
  match s with
  | "" => ""
  | String c r => String (upper_char c) (lower r)
  end.

(** [s[0].upper() + s[1:]] for a non-empty [s] *)
Definition upper_first (s : string) : string :=
  match s with
  | "" => ""
  | String c r => String (upper_char c) r
  end.

(** [s[0].lower() + s[1:]]; indexing the empty string raises IndexError,
    which is [None] here *)
Definition lower_first (s : string) : option string :=
  match s with
  | "" => None
  | String c r => Some (String (lower_char c) r)
  end.

(** [needle in hay] *)
Fixpoint contains (needle hay : string) : bool :=
  String.prefix needle hay ||
  match hay with
  | "" => false
  | String _ r => contains needle r
  end.

(** [s.split()]: the maximal runs of non-space characters, left to right.
    The scan carries whether the rest of the text starts inside a run. *)
Fixpoint split_scan (s : string) : bool * list string :=
  match s with
  | "" => (false, [])
  | String c r =>
      let '(inside, ws) := split_scan r in
      if is_space c then (false, ws)
      else match inside, ws with
           | true, w :: ws' => (true, String c w :: ws')
           | _, _ => (true, String c "" :: ws)
           end
  end.

Definition split (s : string) : list string := snd (split_scan s).

(** [''.join(ws)] *)
Fixpoint join (ws : list string) : string :=
  match ws with
  | [] => ""
  | w :: r => w +:+ join r
  end.

(** [s.strip()] *)
Fixpoint lstrip (s : string) : string :=
  match s with
  | "" => ""
  | String c r => if is_space c then lstrip r else s
  end.

Fixpoint rstrip (s : string) : string :=
  match s with
  | "" => ""
  | String c r =>
      match rstrip r with
      | "" => if is_space c then "" else String c ""
      | r' => String c r'
      end
  end.

Definition strip (s : string) : string := rstrip (lstrip s).

(** Truth value of a [str] and of an optional [str] ([None] is false) *)
Definition truthy (s : string) : bool :=
  match s with "" => false | _ => true end.

Definition truthy_opt (o : option string) : bool :=
  match o with Some s => truthy s | None => false end.

(** Characters of a text, for statements about what a text is made of *)
Fixpoint chars (s : string) : list ascii :=
  match s with
  | "" => []
  | String c r => c :: chars r
  end.

Definition no_space (s : string) : Prop := Forall (λ c, is_space c = false) (chars s).

(** "[needle] occurs in [s] in some letter case": some substring of [s]
    lower-cases to [needle]. *)
Definition occurs_nocase (needle s : string) : Prop :=
  ∃ pre w post, s = pre +:+ w +:+ post ∧ lower w = needle.

End PyStr.

Import PyStr.

(** ** Python text of any script

    [str] as the list of its code points, with the methods that
    [sanitize_class_name] calls: [split], [capitalize] and [upper] of one
    character.  The tables are those of CPython 3.11 (Unicode 14.0.0): the
    white-space characters of [str.isspace], the full lower-case and
    upper-case mappings, the title-case mappings where they differ from the
    upper-case ones, and the two character properties that decide the
    lower-casing of the Greek capital sigma. *)

Module Unicode.

Local Open Scope N_scope.

Definition str : Type := list N.

Definition space_table : list N :=
  [ 9; 10; 11; 12; 13; 28; 29; 30; 31; 32; 133; 160; 5760; 8192; 8193; 8194; 8195; 8196; 8197; 8198;
    8199; 8200; 8201; 8202; 8232; 8233; 8239; 8287; 12288 ].

Definition lower_table_0 : list (N * list N) :=
  [ (65, [97]); (66, [98]); (67, [99]); (68, [100]); (69, [101]); (70, [102]); (71, [103]);
    (72, [104]); (73, [105]); (74, [106]); (75, [107]); (76, [108]); (77, [109]); (78, [110]);
    (79, [111]); (80, [112]); (81, [113]); (82, [114]); (83, [115]); (84, [116]); (85, [117]);
    (86, [118]); (87, [119]); (88, [120]); (89, [121]); (90, [122]); (192, [224]); (193, [225]);
    (194, [226]); (195, [227]); (196, [228]); (197, [229]); (198, [230]); (199, [231]); (200, [232]);
    (201, [233]); (202, [234]); (203, [235]); (204, [236]); (205, [237]); (206, [238]); (207, [239]);
    (208, [240]); (209, [241]); (210, [242]); (211, [243]); (212, [244]); (213, [245]); (214, [246]);
    (216, [248]); (217, [249]); (218, [250]); (219, [251]); (220, [252]); (221, [253]); (222, [254]);
    (256, [257]); (258, [259]); (260, [261]); (262, [263]); (264, [265]); (266, [267]); (268, [269]);
    (270, [271]); (272, [273]); (274, [275]); (276, [277]); (278, [279]); (280, [281]); (282, [283]);
    (284, [285]); (286, [287]); (288, [289]); (290, [291]); (292, [293]); (294, [295]); (296, [297]);
    (298, [299]); (300, [301]); (302, [303]); (304, [105; 775]); (306, [307]); (308, [309]);
    (310, [311]); (313, [314]); (315, [316]); (317, [318]); (319, [320]); (321, [322]); (323, [324]);
    (325, [326]); (327, [328]); (330, [331]); (332, [333]); (334, [335]); (336, [337]) ].

Definition lower_table_1 : list (N * list N) :=
  [ (338, [339]); (340, [341]); (342, [343]); (344, [345]); (346, [347]); (348, [349]); (350, [351]);
    (352, [353]); (354, [355]); (356, [357]); (358, [359]); (360, [361]); (362, [363]); (364, [365]);
    (366, [367]); (368, [369]); (370, [371]); (372, [373]); (374, [375]); (376, [255]); (377, [378]);
    (379, [380]); (381, [382]); (385, [595]); (386, [387]); (388, [389]); (390, [596]); (391, [392]);
    (393, [598]); (394, [599]); (395, [396]); (398, [477]); (399, [601]); (400, [603]); (401, [402]);
    (403, [608]); (404, [611]); (406, [617]); (407, [616]); (408, [409]); (412, [623]); (413, [626]);
    (415, [629]); (416, [417]); (418, [419]); (420, [421]); (422, [640]); (423, [424]); (425, [643]);
    (428, [429]); (430, [648]); (431, [432]); (433, [650]); (434, [651]); (435, [436]); (437, [438]);
    (439, [658]); (440, [441]); (444, [445]); (452, [454]); (453, [454]); (455, [457]); (456, [457]);
    (458, [460]); (459, [460]); (461, [462]); (463, [464]); (465, [466]); (467, [468]); (469, [470]);
    (471, [472]); (473, [474]); (475, [476]); (478, [479]); (480, [481]); (482, [483]); (484, [485]);
    (486, [487]); (488, [489]); (490, [491]); (492, [493]); (494, [495]); (497, [499]); (498, [499]);
    (500, [501]); (502, [405]); (503, [447]); (504, [505]); (506, [507]); (508, [509]); (510, [511]);
    (512, [513]); (514, [515]); (516, [517]); (518, [519]); (520, [521]) ].

Definition lower_table_2 : list (N * list N) :=
  [ (522, [523]); (524, [525]); (526, [527]); (528, [529]); (530, [531]); (532, [533]); (534, [535]);
    (536, [537]); (538, [539]); (540, [541]); (542, [543]); (544, [414]); (546, [547]); (548, [549]);
    (550, [551]); (552, [553]); (554, [555]); (556, [557]); (558, [559]); (560, [561]); (562, [563]);
    (570, [11365]); (571, [572]); (573, [410]); (574, [11366]); (577, [578]); (579, [384]);
    (580, [649]); (581, [652]); (582, [583]); (584, [585]); (586, [587]); (588, [589]); (590, [591]);
    (880, [881]); (882, [883]); (886, [887]); (895, [1011]); (902, [940]); (904, [941]);
    (905, [942]); (906, [943]); (908, [972]); (910, [973]); (911, [974]); (913, [945]); (914, [946]);
    (915, [947]); (916, [948]); (917, [949]); (918, [950]); (919, [951]); (920, [952]); (921, [953]);
    (922, [954]); (923, [955]); (924, [956]); (925, [957]); (926, [958]); (927, [959]); (928, [960]);
    (929, [961]); (931, [963]); (932, [964]); (933, [965]); (934, [966]); (935, [967]); (936, [968]);
    (937, [969]); (938, [970]); (939, [971]); (975, [983]); (984, [985]); (986, [987]); (988, [989]);
    (990, [991]); (992, [993]); (994, [995]); (996, [997]); (998, [999]); (1000, [1001]);
    (1002, [1003]); (1004, [1005]); (1006, [1007]); (1012, [952]); (1015, [1016]); (1017, [1010]);
    (1018, [1019]); (1021, [891]); (1022, [892]); (1023, [893]); (1024, [1104]); (1025, [1105]);
    (1026, [1106]); (1027, [1107]); (1028, [1108]) ].

Definition lower_table_3 : list (N * list N) :=
  [ (1029, [1109]); (1030, [1110]); (1031, [1111]); (1032, [1112]); (1033, [1113]); (1034, [1114]);
    (1035, [1115]); (1036, [1116]); (1037, [1117]); (1038, [1118]); (1039, [1119]); (1040, [1072]);
    (1041, [1073]); (1042, [1074]); (1043, [1075]); (1044, [1076]); (1045, [1077]); (1046, [1078]);
    (1047, [1079]); (1048, [1080]); (1049, [1081]); (1050, [1082]); (1051, [1083]); (1052, [1084]);
    (1053, [1085]); (1054, [1086]); (1055, [1087]); (1056, [1088]); (1057, [1089]); (1058, [1090]);
    (1059, [1091]); (1060, [1092]); (1061, [1093]); (1062, [1094]); (1063, [1095]); (1064, [1096]);
    (1065, [1097]); (1066, [1098]); (1067, [1099]); (1068, [1100]); (1069, [1101]); (1070, [1102]);
    (1071, [1103]); (1120, [1121]); (1122, [1123]); (1124, [1125]); (1126, [1127]); (1128, [1129]);
    (1130, [1131]); (1132, [1133]); (1134, [1135]); (1136, [1137]); (1138, [1139]); (1140, [1141]);
    (1142, [1143]); (1144, [1145]); (1146, [1147]); (1148, [1149]); (1150, [1151]); (1152, [1153]);
    (1162, [1163]); (1164, [1165]); (1166, [1167]); (1168, [1169]); (1170, [1171]); (1172, [1173]);
    (1174, [1175]); (1176, [1177]); (1178, [1179]); (1180, [1181]); (1182, [1183]); (1184, [1185]);
    (1186, [1187]); (1188, [1189]); (1190, [1191]); (1192, [1193]); (1194, [1195]); (1196, [1197]);
    (1198, [1199]); (1200, [1201]); (1202, [1203]); (1204, [1205]); (1206, [1207]); (1208, [1209]);
    (1210, [1211]); (1212, [1213]); (1214, [1215]); (1216, [1231]); (1217, [1218]); (1219, [1220]);
    (1221, [1222]); (1223, [1224]); (1225, [1226]); (1227, [1228]); (1229, [1230]); (1232, [1233]) ].

Definition lower_table_4 : list (N * list N) :=
  [ (1234, [1235]); (1236, [1237]); (1238, [1239]); (1240, [1241]); (1242, [1243]); (1244, [1245]);
    (1246, [1247]); (1248, [1249]); (1250, [1251]); (1252, [1253]); (1254, [1255]); (1256, [1257]);
    (1258, [1259]); (1260, [1261]); (1262, [1263]); (1264, [1265]); (1266, [1267]); (1268, [1269]);
    (1270, [1271]); (1272, [1273]); (1274, [1275]); (1276, [1277]); (1278, [1279]); (1280, [1281]);
    (1282, [1283]); (1284, [1285]); (1286, [1287]); (1288, [1289]); (1290, [1291]); (1292, [1293]);
    (1294, [1295]); (1296, [1297]); (1298, [1299]); (1300, [1301]); (1302, [1303]); (1304, [1305]);
    (1306, [1307]); (1308, [1309]); (1310, [1311]); (1312, [1313]); (1314, [1315]); (1316, [1317]);
    (1318, [1319]); (1320, [1321]); (1322, [1323]); (1324, [1325]); (1326, [1327]); (1329, [1377]);
    (1330, [1378]); (1331, [1379]); (1332, [1380]); (1333, [1381]); (1334, [1382]); (1335, [1383]);
    (1336, [1384]); (1337, [1385]); (1338, [1386]); (1339, [1387]); (1340, [1388]); (1341, [1389]);
    (1342, [1390]); (1343, [1391]); (1344, [1392]); (1345, [1393]); (1346, [1394]); (1347, [1395]);
    (1348, [1396]); (1349, [1397]); (1350, [1398]); (1351, [1399]); (1352, [1400]); (1353, [1401]);
    (1354, [1402]); (1355, [1403]); (1356, [1404]); (1357, [1405]); (1358, [1406]); (1359, [1407]);
    (1360, [1408]); (1361, [1409]); (1362, [1410]); (1363, [1411]); (1364, [1412]); (1365, [1413]);
    (1366, [1414]); (4256, [11520]); (4257, [11521]); (4258, [11522]); (4259, [11523]);
    (4260, [11524]); (4261, [11525]); (4262, [11526]); (4263, [11527]); (4264, [11528]);
    (4265, [11529]); (4266, [11530]) ].

Definition lower_table_5 : list (N * list N) :=
  [ (4267, [11531]); (4268, [11532]); (4269, [11533]); (4270, [11534]); (4271, [11535]);
    (4272, [11536]); (4273, [11537]); (4274, [11538]); (4275, [11539]); (4276, [11540]);
    (4277, [11541]); (4278, [11542]); (4279, [11543]); (4280, [11544]); (4281, [11545]);
    (4282, [11546]); (4283, [11547]); (4284, [11548]); (4285, [11549]); (4286, [11550]);
    (4287, [11551]); (4288, [11552]); (4289, [11553]); (4290, [11554]); (4291, [11555]);
    (4292, [11556]); (4293, [11557]); (4295, [11559]); (4301, [11565]); (5024, [43888]);
    (5025, [43889]); (5026, [43890]); (5027, [43891]); (5028, [43892]); (5029, [43893]);
    (5030, [43894]); (5031, [43895]); (5032, [43896]); (5033, [43897]); (5034, [43898]);
    (5035, [43899]); (5036, [43900]); (5037, [43901]); (5038, [43902]); (5039, [43903]);
    (5040, [43904]); (5041, [43905]); (5042, [43906]); (5043, [43907]); (5044, [43908]);
    (5045, [43909]); (5046, [43910]); (5047, [43911]); (5048, [43912]); (5049, [43913]);
    (5050, [43914]); (5051, [43915]); (5052, [43916]); (5053, [43917]); (5054, [43918]);
    (5055, [43919]); (5056, [43920]); (5057, [43921]); (5058, [43922]); (5059, [43923]);
    (5060, [43924]); (5061, [43925]); (5062, [43926]); (5063, [43927]); (5064, [43928]);
    (5065, [43929]); (5066, [43930]); (5067, [43931]); (5068, [43932]); (5069, [43933]);
    (5070, [43934]); (5071, [43935]); (5072, [43936]); (5073, [43937]); (5074, [43938]);
    (5075, [43939]); (5076, [43940]); (5077, [43941]); (5078, [43942]); (5079, [43943]);
    (5080, [43944]); (5081, [43945]); (5082, [43946]); (5083, [43947]); (5084, [43948]);
    (5085, [43949]); (5086, [43950]); (5087, [43951]); (5088, [43952]); (5089, [43953]);
    (5090, [43954]) ].

Definition lower_table_6 : list (N * list N) :=
  [ (5091, [43955]); (5092, [43956]); (5093, [43957]); (5094, [43958]); (5095, [43959]);
    (5096, [43960]); (5097, [43961]); (5098, [43962]); (5099, [43963]); (5100, [43964]);
    (5101, [43965]); (5102, [43966]); (5103, [43967]); (5104, [5112]); (5105, [5113]);
    (5106, [5114]); (5107, [5115]); (5108, [5116]); (5109, [5117]); (7312, [4304]); (7313, [4305]);
    (7314, [4306]); (7315, [4307]); (7316, [4308]); (7317, [4309]); (7318, [4310]); (7319, [4311]);
    (7320, [4312]); (7321, [4313]); (7322, [4314]); (7323, [4315]); (7324, [4316]); (7325, [4317]);
    (7326, [4318]); (7327, [4319]); (7328, [4320]); (7329, [4321]); (7330, [4322]); (7331, [4323]);
    (7332, [4324]); (7333, [4325]); (7334, [4326]); (7335, [4327]); (7336, [4328]); (7337, [4329]);
    (7338, [4330]); (7339, [4331]); (7340, [4332]); (7341, [4333]); (7342, [4334]); (7343, [4335]);
    (7344, [4336]); (7345, [4337]); (7346, [4338]); (7347, [4339]); (7348, [4340]); (7349, [4341]);
    (7350, [4342]); (7351, [4343]); (7352, [4344]); (7353, [4345]); (7354, [4346]); (7357, [4349]);
    (7358, [4350]); (7359, [4351]); (7680, [7681]); (7682, [7683]); (7684, [7685]); (7686, [7687]);
    (7688, [7689]); (7690, [7691]); (7692, [7693]); (7694, [7695]); (7696, [7697]); (7698, [7699]);
    (7700, [7701]); (7702, [7703]); (7704, [7705]); (7706, [7707]); (7708, [7709]); (7710, [7711]);
    (7712, [7713]); (7714, [7715]); (7716, [7717]); (7718, [7719]); (7720, [7721]); (7722, [7723]);
    (7724, [7725]); (7726, [7727]); (7728, [7729]); (7730, [7731]); (7732, [7733]); (7734, [7735]);
    (7736, [7737]); (7738, [7739]); (7740, [7741]) ].

Definition lower_table_7 : list (N * list N) :=
  [ (7742, [7743]); (7744, [7745]); (7746, [7747]); (7748, [7749]); (7750, [7751]); (7752, [7753]);
    (7754, [7755]); (7756, [7757]); (7758, [7759]); (7760, [7761]); (7762, [7763]); (7764, [7765]);
    (7766, [7767]); (7768, [7769]); (7770, [7771]); (7772, [7773]); (7774, [7775]); (7776, [7777]);
    (7778, [7779]); (7780, [7781]); (7782, [7783]); (7784, [7785]); (7786, [7787]); (7788, [7789]);
    (7790, [7791]); (7792, [7793]); (7794, [7795]); (7796, [7797]); (7798, [7799]); (7800, [7801]);
    (7802, [7803]); (7804, [7805]); (7806, [7807]); (7808, [7809]); (7810, [7811]); (7812, [7813]);
    (7814, [7815]); (7816, [7817]); (7818, [7819]); (7820, [7821]); (7822, [7823]); (7824, [7825]);
    (7826, [7827]); (7828, [7829]); (7838, [223]); (7840, [7841]); (7842, [7843]); (7844, [7845]);
    (7846, [7847]); (7848, [7849]); (7850, [7851]); (7852, [7853]); (7854, [7855]); (7856, [7857]);
    (7858, [7859]); (7860, [7861]); (7862, [7863]); (7864, [7865]); (7866, [7867]); (7868, [7869]);
    (7870, [7871]); (7872, [7873]); (7874, [7875]); (7876, [7877]); (7878, [7879]); (7880, [7881]);
    (7882, [7883]); (7884, [7885]); (7886, [7887]); (7888, [7889]); (7890, [7891]); (7892, [7893]);
    (7894, [7895]); (7896, [7897]); (7898, [7899]); (7900, [7901]); (7902, [7903]); (7904, [7905]);
    (7906, [7907]); (7908, [7909]); (7910, [7911]); (7912, [7913]); (7914, [7915]); (7916, [7917]);
    (7918, [7919]); (7920, [7921]); (7922, [7923]); (7924, [7925]); (7926, [7927]); (7928, [7929]);
    (7930, [7931]); (7932, [7933]); (7934, [7935]); (7944, [7936]); (7945, [7937]); (7946, [7938]) ].

Definition lower_table_8 : list (N * list N) :=
  [ (7947, [7939]); (7948, [7940]); (7949, [7941]); (7950, [7942]); (7951, [7943]); (7960, [7952]);
    (7961, [7953]); (7962, [7954]); (7963, [7955]); (7964, [7956]); (7965, [7957]); (7976, [7968]);
    (7977, [7969]); (7978, [7970]); (7979, [7971]); (7980, [7972]); (7981, [7973]); (7982, [7974]);
    (7983, [7975]); (7992, [7984]); (7993, [7985]); (7994, [7986]); (7995, [7987]); (7996, [7988]);
    (7997, [7989]); (7998, [7990]); (7999, [7991]); (8008, [8000]); (8009, [8001]); (8010, [8002]);
    (8011, [8003]); (8012, [8004]); (8013, [8005]); (8025, [8017]); (8027, [8019]); (8029, [8021]);
    (8031, [8023]); (8040, [8032]); (8041, [8033]); (8042, [8034]); (8043, [8035]); (8044, [8036]);
    (8045, [8037]); (8046, [8038]); (8047, [8039]); (8072, [8064]); (8073, [8065]); (8074, [8066]);
    (8075, [8067]); (8076, [8068]); (8077, [8069]); (8078, [8070]); (8079, [8071]); (8088, [8080]);
    (8089, [8081]); (8090, [8082]); (8091, [8083]); (8092, [8084]); (8093, [8085]); (8094, [8086]);
    (8095, [8087]); (8104, [8096]); (8105, [8097]); (8106, [8098]); (8107, [8099]); (8108, [8100]);
    (8109, [8101]); (8110, [8102]); (8111, [8103]); (8120, [8112]); (8121, [8113]); (8122, [8048]);
    (8123, [8049]); (8124, [8115]); (8136, [8050]); (8137, [8051]); (8138, [8052]); (8139, [8053]);
    (8140, [8131]); (8152, [8144]); (8153, [8145]); (8154, [8054]); (8155, [8055]); (8168, [8160]);
    (8169, [8161]); (8170, [8058]); (8171, [8059]); (8172, [8165]); (8184, [8056]); (8185, [8057]);
    (8186, [8060]); (8187, [8061]); (8188, [8179]); (8486, [969]); (8490, [107]); (8491, [229]) ].

Definition lower_table_9 : list (N * list N) :=
  [ (8498, [8526]); (8544, [8560]); (8545, [8561]); (8546, [8562]); (8547, [8563]); (8548, [8564]);
    (8549, [8565]); (8550, [8566]); (8551, [8567]); (8552, [8568]); (8553, [8569]); (8554, [8570]);
    (8555, [8571]); (8556, [8572]); (8557, [8573]); (8558, [8574]); (8559, [8575]); (8579, [8580]);
    (9398, [9424]); (9399, [9425]); (9400, [9426]); (9401, [9427]); (9402, [9428]); (9403, [9429]);
    (9404, [9430]); (9405, [9431]); (9406, [9432]); (9407, [9433]); (9408, [9434]); (9409, [9435]);
    (9410, [9436]); (9411, [9437]); (9412, [9438]); (9413, [9439]); (9414, [9440]); (9415, [9441]);
    (9416, [9442]); (9417, [9443]); (9418, [9444]); (9419, [9445]); (9420, [9446]); (9421, [9447]);
    (9422, [9448]); (9423, [9449]); (11264, [11312]); (11265, [11313]); (11266, [11314]);
    (11267, [11315]); (11268, [11316]); (11269, [11317]); (11270, [11318]); (11271, [11319]);
    (11272, [11320]); (11273, [11321]); (11274, [11322]); (11275, [11323]); (11276, [11324]);
    (11277, [11325]); (11278, [11326]); (11279, [11327]); (11280, [11328]); (11281, [11329]);
    (11282, [11330]); (11283, [11331]); (11284, [11332]); (11285, [11333]); (11286, [11334]);
    (11287, [11335]); (11288, [11336]); (11289, [11337]); (11290, [11338]); (11291, [11339]);
    (11292, [11340]); (11293, [11341]); (11294, [11342]); (11295, [11343]); (11296, [11344]);
    (11297, [11345]); (11298, [11346]); (11299, [11347]); (11300, [11348]); (11301, [11349]);
    (11302, [11350]); (11303, [11351]); (11304, [11352]); (11305, [11353]); (11306, [11354]);
    (11307, [11355]); (11308, [11356]); (11309, [11357]); (11310, [11358]); (11311, [11359]);
    (11360, [11361]); (11362, [619]); (11363, [7549]); (11364, [637]) ].

Definition lower_table_10 : list (N * list N) :=
  [ (11367, [11368]); (11369, [11370]); (11371, [11372]); (11373, [593]); (11374, [625]);
    (11375, [592]); (11376, [594]); (11378, [11379]); (11381, [11382]); (11390, [575]);
    (11391, [576]); (11392, [11393]); (11394, [11395]); (11396, [11397]); (11398, [11399]);
    (11400, [11401]); (11402, [11403]); (11404, [11405]); (11406, [11407]); (11408, [11409]);
    (11410, [11411]); (11412, [11413]); (11414, [11415]); (11416, [11417]); (11418, [11419]);
    (11420, [11421]); (11422, [11423]); (11424, [11425]); (11426, [11427]); (11428, [11429]);
    (11430, [11431]); (11432, [11433]); (11434, [11435]); (11436, [11437]); (11438, [11439]);
    (11440, [11441]); (11442, [11443]); (11444, [11445]); (11446, [11447]); (11448, [11449]);
    (11450, [11451]); (11452, [11453]); (11454, [11455]); (11456, [11457]); (11458, [11459]);
    (11460, [11461]); (11462, [11463]); (11464, [11465]); (11466, [11467]); (11468, [11469]);
    (11470, [11471]); (11472, [11473]); (11474, [11475]); (11476, [11477]); (11478, [11479]);
    (11480, [11481]); (11482, [11483]); (11484, [11485]); (11486, [11487]); (11488, [11489]);
    (11490, [11491]); (11499, [11500]); (11501, [11502]); (11506, [11507]); (42560, [42561]);
    (42562, [42563]); (42564, [42565]); (42566, [42567]); (42568, [42569]); (42570, [42571]);
    (42572, [42573]); (42574, [42575]); (42576, [42577]); (42578, [42579]); (42580, [42581]);
    (42582, [42583]); (42584, [42585]); (42586, [42587]); (42588, [42589]); (42590, [42591]);
    (42592, [42593]); (42594, [42595]); (42596, [42597]); (42598, [42599]); (42600, [42601]);
    (42602, [42603]); (42604, [42605]); (42624, [42625]); (42626, [42627]); (42628, [42629]);
    (42630, [42631]); (42632, [42633]); (42634, [42635]); (42636, [42637]); (42638, [42639]);
    (42640, [42641]) ].

Definition lower_table_11 : list (N * list N) :=
  [ (42642, [42643]); (42644, [42645]); (42646, [42647]); (42648, [42649]); (42650, [42651]);
    (42786, [42787]); (42788, [42789]); (42790, [42791]); (42792, [42793]); (42794, [42795]);
    (42796, [42797]); (42798, [42799]); (42802, [42803]); (42804, [42805]); (42806, [42807]);
    (42808, [42809]); (42810, [42811]); (42812, [42813]); (42814, [42815]); (42816, [42817]);
    (42818, [42819]); (42820, [42821]); (42822, [42823]); (42824, [42825]); (42826, [42827]);
    (42828, [42829]); (42830, [42831]); (42832, [42833]); (42834, [42835]); (42836, [42837]);
    (42838, [42839]); (42840, [42841]); (42842, [42843]); (42844, [42845]); (42846, [42847]);
    (42848, [42849]); (42850, [42851]); (42852, [42853]); (42854, [42855]); (42856, [42857]);
    (42858, [42859]); (42860, [42861]); (42862, [42863]); (42873, [42874]); (42875, [42876]);
    (42877, [7545]); (42878, [42879]); (42880, [42881]); (42882, [42883]); (42884, [42885]);
    (42886, [42887]); (42891, [42892]); (42893, [613]); (42896, [42897]); (42898, [42899]);
    (42902, [42903]); (42904, [42905]); (42906, [42907]); (42908, [42909]); (42910, [42911]);
    (42912, [42913]); (42914, [42915]); (42916, [42917]); (42918, [42919]); (42920, [42921]);
    (42922, [614]); (42923, [604]); (42924, [609]); (42925, [620]); (42926, [618]); (42928, [670]);
    (42929, [647]); (42930, [669]); (42931, [43859]); (42932, [42933]); (42934, [42935]);
    (42936, [42937]); (42938, [42939]); (42940, [42941]); (42942, [42943]); (42944, [42945]);
    (42946, [42947]); (42948, [42900]); (42949, [642]); (42950, [7566]); (42951, [42952]);
    (42953, [42954]); (42960, [42961]); (42966, [42967]); (42968, [42969]); (42997, [42998]);
    (65313, [65345]); (65314, [65346]); (65315, [65347]); (65316, [65348]); (65317, [65349]) ].

Definition lower_table_12 : list (N * list N) :=
  [ (65318, [65350]); (65319, [65351]); (65320, [65352]); (65321, [65353]); (65322, [65354]);
    (65323, [65355]); (65324, [65356]); (65325, [65357]); (65326, [65358]); (65327, [65359]);
    (65328, [65360]); (65329, [65361]); (65330, [65362]); (65331, [65363]); (65332, [65364]);
    (65333, [65365]); (65334, [65366]); (65335, [65367]); (65336, [65368]); (65337, [65369]);
    (65338, [65370]); (66560, [66600]); (66561, [66601]); (66562, [66602]); (66563, [66603]);
    (66564, [66604]); (66565, [66605]); (66566, [66606]); (66567, [66607]); (66568, [66608]);
    (66569, [66609]); (66570, [66610]); (66571, [66611]); (66572, [66612]); (66573, [66613]);
    (66574, [66614]); (66575, [66615]); (66576, [66616]); (66577, [66617]); (66578, [66618]);
    (66579, [66619]); (66580, [66620]); (66581, [66621]); (66582, [66622]); (66583, [66623]);
    (66584, [66624]); (66585, [66625]); (66586, [66626]); (66587, [66627]); (66588, [66628]);
    (66589, [66629]); (66590, [66630]); (66591, [66631]); (66592, [66632]); (66593, [66633]);
    (66594, [66634]); (66595, [66635]); (66596, [66636]); (66597, [66637]); (66598, [66638]);
    (66599, [66639]); (66736, [66776]); (66737, [66777]); (66738, [66778]); (66739, [66779]);
    (66740, [66780]); (66741, [66781]); (66742, [66782]); (66743, [66783]); (66744, [66784]);
    (66745, [66785]); (66746, [66786]); (66747, [66787]); (66748, [66788]); (66749, [66789]);
    (66750, [66790]); (66751, [66791]); (66752, [66792]); (66753, [66793]); (66754, [66794]);
    (66755, [66795]); (66756, [66796]); (66757, [66797]); (66758, [66798]); (66759, [66799]);
    (66760, [66800]); (66761, [66801]); (66762, [66802]); (66763, [66803]); (66764, [66804]);
    (66765, [66805]); (66766, [66806]); (66767, [66807]); (66768, [66808]); (66769, [66809]);
    (66770, [66810]) ].

Definition lower_table_13 : list (N * list N) :=
  [ (66771, [66811]); (66928, [66967]); (66929, [66968]); (66930, [66969]); (66931, [66970]);
    (66932, [66971]); (66933, [66972]); (66934, [66973]); (66935, [66974]); (66936, [66975]);
    (66937, [66976]); (66938, [66977]); (66940, [66979]); (66941, [66980]); (66942, [66981]);
    (66943, [66982]); (66944, [66983]); (66945, [66984]); (66946, [66985]); (66947, [66986]);
    (66948, [66987]); (66949, [66988]); (66950, [66989]); (66951, [66990]); (66952, [66991]);
    (66953, [66992]); (66954, [66993]); (66956, [66995]); (66957, [66996]); (66958, [66997]);
    (66959, [66998]); (66960, [66999]); (66961, [67000]); (66962, [67001]); (66964, [67003]);
    (66965, [67004]); (68736, [68800]); (68737, [68801]); (68738, [68802]); (68739, [68803]);
    (68740, [68804]); (68741, [68805]); (68742, [68806]); (68743, [68807]); (68744, [68808]);
    (68745, [68809]); (68746, [68810]); (68747, [68811]); (68748, [68812]); (68749, [68813]);
    (68750, [68814]); (68751, [68815]); (68752, [68816]); (68753, [68817]); (68754, [68818]);
    (68755, [68819]); (68756, [68820]); (68757, [68821]); (68758, [68822]); (68759, [68823]);
    (68760, [68824]); (68761, [68825]); (68762, [68826]); (68763, [68827]); (68764, [68828]);
    (68765, [68829]); (68766, [68830]); (68767, [68831]); (68768, [68832]); (68769, [68833]);
    (68770, [68834]); (68771, [68835]); (68772, [68836]); (68773, [68837]); (68774, [68838]);
    (68775, [68839]); (68776, [68840]); (68777, [68841]); (68778, [68842]); (68779, [68843]);
    (68780, [68844]); (68781, [68845]); (68782, [68846]); (68783, [68847]); (68784, [68848]);
    (68785, [68849]); (68786, [68850]); (71840, [71872]); (71841, [71873]); (71842, [71874]);
    (71843, [71875]); (71844, [71876]); (71845, [71877]); (71846, [71878]); (71847, [71879]);
    (71848, [71880]) ].

Definition lower_table_14 : list (N * list N) :=
  [ (71849, [71881]); (71850, [71882]); (71851, [71883]); (71852, [71884]); (71853, [71885]);
    (71854, [71886]); (71855, [71887]); (71856, [71888]); (71857, [71889]); (71858, [71890]);
    (71859, [71891]); (71860, [71892]); (71861, [71893]); (71862, [71894]); (71863, [71895]);
    (71864, [71896]); (71865, [71897]); (71866, [71898]); (71867, [71899]); (71868, [71900]);
    (71869, [71901]); (71870, [71902]); (71871, [71903]); (93760, [93792]); (93761, [93793]);
    (93762, [93794]); (93763, [93795]); (93764, [93796]); (93765, [93797]); (93766, [93798]);
    (93767, [93799]); (93768, [93800]); (93769, [93801]); (93770, [93802]); (93771, [93803]);
    (93772, [93804]); (93773, [93805]); (93774, [93806]); (93775, [93807]); (93776, [93808]);
    (93777, [93809]); (93778, [93810]); (93779, [93811]); (93780, [93812]); (93781, [93813]);
    (93782, [93814]); (93783, [93815]); (93784, [93816]); (93785, [93817]); (93786, [93818]);
    (93787, [93819]); (93788, [93820]); (93789, [93821]); (93790, [93822]); (93791, [93823]);
    (125184, [125218]); (125185, [125219]); (125186, [125220]); (125187, [125221]);
    (125188, [125222]); (125189, [125223]); (125190, [125224]); (125191, [125225]);
    (125192, [125226]); (125193, [125227]); (125194, [125228]); (125195, [125229]);
    (125196, [125230]); (125197, [125231]); (125198, [125232]); (125199, [125233]);
    (125200, [125234]); (125201, [125235]); (125202, [125236]); (125203, [125237]);
    (125204, [125238]); (125205, [125239]); (125206, [125240]); (125207, [125241]);
    (125208, [125242]); (125209, [125243]); (125210, [125244]); (125211, [125245]);
    (125212, [125246]); (125213, [125247]); (125214, [125248]); (125215, [125249]);
    (125216, [125250]); (125217, [125251]) ].

Definition lower_table : list (N * list N) :=
  lower_table_0 ++ lower_table_1 ++ lower_table_2 ++ lower_table_3 ++ lower_table_4
  ++ lower_table_5 ++ lower_table_6 ++ lower_table_7 ++ lower_table_8 ++ lower_table_9
  ++ lower_table_10 ++ lower_table_11 ++ lower_table_12 ++ lower_table_13 ++ lower_table_14.

Definition upper_table_0 : list (N * list N) :=
  [ (97, [65]); (98, [66]); (99, [67]); (100, [68]); (101, [69]); (102, [70]); (103, [71]);
    (104, [72]); (105, [73]); (106, [74]); (107, [75]); (108, [76]); (109, [77]); (110, [78]);
    (111, [79]); (112, [80]); (113, [81]); (114, [82]); (115, [83]); (116, [84]); (117, [85]);
    (118, [86]); (119, [87]); (120, [88]); (121, [89]); (122, [90]); (181, [924]); (223, [83; 83]);
    (224, [192]); (225, [193]); (226, [194]); (227, [195]); (228, [196]); (229, [197]); (230, [198]);
    (231, [199]); (232, [200]); (233, [201]); (234, [202]); (235, [203]); (236, [204]); (237, [205]);
    (238, [206]); (239, [207]); (240, [208]); (241, [209]); (242, [210]); (243, [211]); (244, [212]);
    (245, [213]); (246, [214]); (248, [216]); (249, [217]); (250, [218]); (251, [219]); (252, [220]);
    (253, [221]); (254, [222]); (255, [376]); (257, [256]); (259, [258]); (261, [260]); (263, [262]);
    (265, [264]); (267, [266]); (269, [268]); (271, [270]); (273, [272]); (275, [274]); (277, [276]);
    (279, [278]); (281, [280]); (283, [282]); (285, [284]); (287, [286]); (289, [288]); (291, [290]);
    (293, [292]); (295, [294]); (297, [296]); (299, [298]); (301, [300]); (303, [302]); (305, [73]);
    (307, [306]); (309, [308]); (311, [310]); (314, [313]); (316, [315]); (318, [317]); (320, [319]);
    (322, [321]); (324, [323]); (326, [325]); (328, [327]); (329, [700; 78]) ].

Definition upper_table_1 : list (N * list N) :=
  [ (331, [330]); (333, [332]); (335, [334]); (337, [336]); (339, [338]); (341, [340]); (343, [342]);
    (345, [344]); (347, [346]); (349, [348]); (351, [350]); (353, [352]); (355, [354]); (357, [356]);
    (359, [358]); (361, [360]); (363, [362]); (365, [364]); (367, [366]); (369, [368]); (371, [370]);
    (373, [372]); (375, [374]); (378, [377]); (380, [379]); (382, [381]); (383, [83]); (384, [579]);
    (387, [386]); (389, [388]); (392, [391]); (396, [395]); (402, [401]); (405, [502]); (409, [408]);
    (410, [573]); (414, [544]); (417, [416]); (419, [418]); (421, [420]); (424, [423]); (429, [428]);
    (432, [431]); (436, [435]); (438, [437]); (441, [440]); (445, [444]); (447, [503]); (453, [452]);
    (454, [452]); (456, [455]); (457, [455]); (459, [458]); (460, [458]); (462, [461]); (464, [463]);
    (466, [465]); (468, [467]); (470, [469]); (472, [471]); (474, [473]); (476, [475]); (477, [398]);
    (479, [478]); (481, [480]); (483, [482]); (485, [484]); (487, [486]); (489, [488]); (491, [490]);
    (493, [492]); (495, [494]); (496, [74; 780]); (498, [497]); (499, [497]); (501, [500]);
    (505, [504]); (507, [506]); (509, [508]); (511, [510]); (513, [512]); (515, [514]); (517, [516]);
    (519, [518]); (521, [520]); (523, [522]); (525, [524]); (527, [526]); (529, [528]); (531, [530]);
    (533, [532]); (535, [534]); (537, [536]); (539, [538]); (541, [540]); (543, [542]) ].

Definition upper_table_2 : list (N * list N) :=
  [ (547, [546]); (549, [548]); (551, [550]); (553, [552]); (555, [554]); (557, [556]); (559, [558]);
    (561, [560]); (563, [562]); (572, [571]); (575, [11390]); (576, [11391]); (578, [577]);
    (583, [582]); (585, [584]); (587, [586]); (589, [588]); (591, [590]); (592, [11375]);
    (593, [11373]); (594, [11376]); (595, [385]); (596, [390]); (598, [393]); (599, [394]);
    (601, [399]); (603, [400]); (604, [42923]); (608, [403]); (609, [42924]); (611, [404]);
    (613, [42893]); (614, [42922]); (616, [407]); (617, [406]); (618, [42926]); (619, [11362]);
    (620, [42925]); (623, [412]); (625, [11374]); (626, [413]); (629, [415]); (637, [11364]);
    (640, [422]); (642, [42949]); (643, [425]); (647, [42929]); (648, [430]); (649, [580]);
    (650, [433]); (651, [434]); (652, [581]); (658, [439]); (669, [42930]); (670, [42928]);
    (837, [921]); (881, [880]); (883, [882]); (887, [886]); (891, [1021]); (892, [1022]);
    (893, [1023]); (912, [921; 776; 769]); (940, [902]); (941, [904]); (942, [905]); (943, [906]);
    (944, [933; 776; 769]); (945, [913]); (946, [914]); (947, [915]); (948, [916]); (949, [917]);
    (950, [918]); (951, [919]); (952, [920]); (953, [921]); (954, [922]); (955, [923]); (956, [924]);
    (957, [925]); (958, [926]); (959, [927]); (960, [928]); (961, [929]); (962, [931]); (963, [931]);
    (964, [932]); (965, [933]); (966, [934]); (967, [935]); (968, [936]); (969, [937]); (970, [938]);
    (971, [939]); (972, [908]) ].

Definition upper_table_3 : list (N * list N) :=
  [ (973, [910]); (974, [911]); (976, [914]); (977, [920]); (981, [934]); (982, [928]); (983, [975]);
    (985, [984]); (987, [986]); (989, [988]); (991, [990]); (993, [992]); (995, [994]); (997, [996]);
    (999, [998]); (1001, [1000]); (1003, [1002]); (1005, [1004]); (1007, [1006]); (1008, [922]);
    (1009, [929]); (1010, [1017]); (1011, [895]); (1013, [917]); (1016, [1015]); (1019, [1018]);
    (1072, [1040]); (1073, [1041]); (1074, [1042]); (1075, [1043]); (1076, [1044]); (1077, [1045]);
    (1078, [1046]); (1079, [1047]); (1080, [1048]); (1081, [1049]); (1082, [1050]); (1083, [1051]);
    (1084, [1052]); (1085, [1053]); (1086, [1054]); (1087, [1055]); (1088, [1056]); (1089, [1057]);
    (1090, [1058]); (1091, [1059]); (1092, [1060]); (1093, [1061]); (1094, [1062]); (1095, [1063]);
    (1096, [1064]); (1097, [1065]); (1098, [1066]); (1099, [1067]); (1100, [1068]); (1101, [1069]);
    (1102, [1070]); (1103, [1071]); (1104, [1024]); (1105, [1025]); (1106, [1026]); (1107, [1027]);
    (1108, [1028]); (1109, [1029]); (1110, [1030]); (1111, [1031]); (1112, [1032]); (1113, [1033]);
    (1114, [1034]); (1115, [1035]); (1116, [1036]); (1117, [1037]); (1118, [1038]); (1119, [1039]);
    (1121, [1120]); (1123, [1122]); (1125, [1124]); (1127, [1126]); (1129, [1128]); (1131, [1130]);
    (1133, [1132]); (1135, [1134]); (1137, [1136]); (1139, [1138]); (1141, [1140]); (1143, [1142]);
    (1145, [1144]); (1147, [1146]); (1149, [1148]); (1151, [1150]); (1153, [1152]); (1163, [1162]);
    (1165, [1164]); (1167, [1166]); (1169, [1168]); (1171, [1170]) ].

Definition upper_table_4 : list (N * list N) :=
  [ (1173, [1172]); (1175, [1174]); (1177, [1176]); (1179, [1178]); (1181, [1180]); (1183, [1182]);
    (1185, [1184]); (1187, [1186]); (1189, [1188]); (1191, [1190]); (1193, [1192]); (1195, [1194]);
    (1197, [1196]); (1199, [1198]); (1201, [1200]); (1203, [1202]); (1205, [1204]); (1207, [1206]);
    (1209, [1208]); (1211, [1210]); (1213, [1212]); (1215, [1214]); (1218, [1217]); (1220, [1219]);
    (1222, [1221]); (1224, [1223]); (1226, [1225]); (1228, [1227]); (1230, [1229]); (1231, [1216]);
    (1233, [1232]); (1235, [1234]); (1237, [1236]); (1239, [1238]); (1241, [1240]); (1243, [1242]);
    (1245, [1244]); (1247, [1246]); (1249, [1248]); (1251, [1250]); (1253, [1252]); (1255, [1254]);
    (1257, [1256]); (1259, [1258]); (1261, [1260]); (1263, [1262]); (1265, [1264]); (1267, [1266]);
    (1269, [1268]); (1271, [1270]); (1273, [1272]); (1275, [1274]); (1277, [1276]); (1279, [1278]);
    (1281, [1280]); (1283, [1282]); (1285, [1284]); (1287, [1286]); (1289, [1288]); (1291, [1290]);
    (1293, [1292]); (1295, [1294]); (1297, [1296]); (1299, [1298]); (1301, [1300]); (1303, [1302]);
    (1305, [1304]); (1307, [1306]); (1309, [1308]); (1311, [1310]); (1313, [1312]); (1315, [1314]);
    (1317, [1316]); (1319, [1318]); (1321, [1320]); (1323, [1322]); (1325, [1324]); (1327, [1326]);
    (1377, [1329]); (1378, [1330]); (1379, [1331]); (1380, [1332]); (1381, [1333]); (1382, [1334]);
    (1383, [1335]); (1384, [1336]); (1385, [1337]); (1386, [1338]); (1387, [1339]); (1388, [1340]);
    (1389, [1341]); (1390, [1342]); (1391, [1343]); (1392, [1344]); (1393, [1345]); (1394, [1346]) ].

Definition upper_table_5 : list (N * list N) :=
  [ (1395, [1347]); (1396, [1348]); (1397, [1349]); (1398, [1350]); (1399, [1351]); (1400, [1352]);
    (1401, [1353]); (1402, [1354]); (1403, [1355]); (1404, [1356]); (1405, [1357]); (1406, [1358]);
    (1407, [1359]); (1408, [1360]); (1409, [1361]); (1410, [1362]); (1411, [1363]); (1412, [1364]);
    (1413, [1365]); (1414, [1366]); (1415, [1333; 1362]); (4304, [7312]); (4305, [7313]);
    (4306, [7314]); (4307, [7315]); (4308, [7316]); (4309, [7317]); (4310, [7318]); (4311, [7319]);
    (4312, [7320]); (4313, [7321]); (4314, [7322]); (4315, [7323]); (4316, [7324]); (4317, [7325]);
    (4318, [7326]); (4319, [7327]); (4320, [7328]); (4321, [7329]); (4322, [7330]); (4323, [7331]);
    (4324, [7332]); (4325, [7333]); (4326, [7334]); (4327, [7335]); (4328, [7336]); (4329, [7337]);
    (4330, [7338]); (4331, [7339]); (4332, [7340]); (4333, [7341]); (4334, [7342]); (4335, [7343]);
    (4336, [7344]); (4337, [7345]); (4338, [7346]); (4339, [7347]); (4340, [7348]); (4341, [7349]);
    (4342, [7350]); (4343, [7351]); (4344, [7352]); (4345, [7353]); (4346, [7354]); (4349, [7357]);
    (4350, [7358]); (4351, [7359]); (5112, [5104]); (5113, [5105]); (5114, [5106]); (5115, [5107]);
    (5116, [5108]); (5117, [5109]); (7296, [1042]); (7297, [1044]); (7298, [1054]); (7299, [1057]);
    (7300, [1058]); (7301, [1058]); (7302, [1066]); (7303, [1122]); (7304, [42570]); (7545, [42877]);
    (7549, [11363]); (7566, [42950]); (7681, [7680]); (7683, [7682]); (7685, [7684]); (7687, [7686]);
    (7689, [7688]); (7691, [7690]); (7693, [7692]); (7695, [7694]); (7697, [7696]); (7699, [7698]);
    (7701, [7700]) ].

Definition upper_table_6 : list (N * list N) :=
  [ (7703, [7702]); (7705, [7704]); (7707, [7706]); (7709, [7708]); (7711, [7710]); (7713, [7712]);
    (7715, [7714]); (7717, [7716]); (7719, [7718]); (7721, [7720]); (7723, [7722]); (7725, [7724]);
    (7727, [7726]); (7729, [7728]); (7731, [7730]); (7733, [7732]); (7735, [7734]); (7737, [7736]);
    (7739, [7738]); (7741, [7740]); (7743, [7742]); (7745, [7744]); (7747, [7746]); (7749, [7748]);
    (7751, [7750]); (7753, [7752]); (7755, [7754]); (7757, [7756]); (7759, [7758]); (7761, [7760]);
    (7763, [7762]); (7765, [7764]); (7767, [7766]); (7769, [7768]); (7771, [7770]); (7773, [7772]);
    (7775, [7774]); (7777, [7776]); (7779, [7778]); (7781, [7780]); (7783, [7782]); (7785, [7784]);
    (7787, [7786]); (7789, [7788]); (7791, [7790]); (7793, [7792]); (7795, [7794]); (7797, [7796]);
    (7799, [7798]); (7801, [7800]); (7803, [7802]); (7805, [7804]); (7807, [7806]); (7809, [7808]);
    (7811, [7810]); (7813, [7812]); (7815, [7814]); (7817, [7816]); (7819, [7818]); (7821, [7820]);
    (7823, [7822]); (7825, [7824]); (7827, [7826]); (7829, [7828]); (7830, [72; 817]);
    (7831, [84; 776]); (7832, [87; 778]); (7833, [89; 778]); (7834, [65; 702]); (7835, [7776]);
    (7841, [7840]); (7843, [7842]); (7845, [7844]); (7847, [7846]); (7849, [7848]); (7851, [7850]);
    (7853, [7852]); (7855, [7854]); (7857, [7856]); (7859, [7858]); (7861, [7860]); (7863, [7862]);
    (7865, [7864]); (7867, [7866]); (7869, [7868]); (7871, [7870]); (7873, [7872]); (7875, [7874]);
    (7877, [7876]); (7879, [7878]); (7881, [7880]); (7883, [7882]); (7885, [7884]); (7887, [7886]);
    (7889, [7888]); (7891, [7890]) ].

Definition upper_table_7 : list (N * list N) :=
  [ (7893, [7892]); (7895, [7894]); (7897, [7896]); (7899, [7898]); (7901, [7900]); (7903, [7902]);
    (7905, [7904]); (7907, [7906]); (7909, [7908]); (7911, [7910]); (7913, [7912]); (7915, [7914]);
    (7917, [7916]); (7919, [7918]); (7921, [7920]); (7923, [7922]); (7925, [7924]); (7927, [7926]);
    (7929, [7928]); (7931, [7930]); (7933, [7932]); (7935, [7934]); (7936, [7944]); (7937, [7945]);
    (7938, [7946]); (7939, [7947]); (7940, [7948]); (7941, [7949]); (7942, [7950]); (7943, [7951]);
    (7952, [7960]); (7953, [7961]); (7954, [7962]); (7955, [7963]); (7956, [7964]); (7957, [7965]);
    (7968, [7976]); (7969, [7977]); (7970, [7978]); (7971, [7979]); (7972, [7980]); (7973, [7981]);
    (7974, [7982]); (7975, [7983]); (7984, [7992]); (7985, [7993]); (7986, [7994]); (7987, [7995]);
    (7988, [7996]); (7989, [7997]); (7990, [7998]); (7991, [7999]); (8000, [8008]); (8001, [8009]);
    (8002, [8010]); (8003, [8011]); (8004, [8012]); (8005, [8013]); (8016, [933; 787]);
    (8017, [8025]); (8018, [933; 787; 768]); (8019, [8027]); (8020, [933; 787; 769]); (8021, [8029]);
    (8022, [933; 787; 834]); (8023, [8031]); (8032, [8040]); (8033, [8041]); (8034, [8042]);
    (8035, [8043]); (8036, [8044]); (8037, [8045]); (8038, [8046]); (8039, [8047]); (8048, [8122]);
    (8049, [8123]); (8050, [8136]); (8051, [8137]); (8052, [8138]); (8053, [8139]); (8054, [8154]);
    (8055, [8155]); (8056, [8184]); (8057, [8185]); (8058, [8170]); (8059, [8171]); (8060, [8186]);
    (8061, [8187]); (8064, [7944; 921]); (8065, [7945; 921]); (8066, [7946; 921]);
    (8067, [7947; 921]); (8068, [7948; 921]); (8069, [7949; 921]); (8070, [7950; 921]);
    (8071, [7951; 921]) ].

Definition upper_table_8 : list (N * list N) :=
  [ (8072, [7944; 921]); (8073, [7945; 921]); (8074, [7946; 921]); (8075, [7947; 921]);
    (8076, [7948; 921]); (8077, [7949; 921]); (8078, [7950; 921]); (8079, [7951; 921]);
    (8080, [7976; 921]); (8081, [7977; 921]); (8082, [7978; 921]); (8083, [7979; 921]);
    (8084, [7980; 921]); (8085, [7981; 921]); (8086, [7982; 921]); (8087, [7983; 921]);
    (8088, [7976; 921]); (8089, [7977; 921]); (8090, [7978; 921]); (8091, [7979; 921]);
    (8092, [7980; 921]); (8093, [7981; 921]); (8094, [7982; 921]); (8095, [7983; 921]);
    (8096, [8040; 921]); (8097, [8041; 921]); (8098, [8042; 921]); (8099, [8043; 921]);
    (8100, [8044; 921]); (8101, [8045; 921]); (8102, [8046; 921]); (8103, [8047; 921]);
    (8104, [8040; 921]); (8105, [8041; 921]); (8106, [8042; 921]); (8107, [8043; 921]);
    (8108, [8044; 921]); (8109, [8045; 921]); (8110, [8046; 921]); (8111, [8047; 921]);
    (8112, [8120]); (8113, [8121]); (8114, [8122; 921]); (8115, [913; 921]); (8116, [902; 921]);
    (8118, [913; 834]); (8119, [913; 834; 921]); (8124, [913; 921]); (8126, [921]);
    (8130, [8138; 921]); (8131, [919; 921]); (8132, [905; 921]); (8134, [919; 834]);
    (8135, [919; 834; 921]); (8140, [919; 921]); (8144, [8152]); (8145, [8153]);
    (8146, [921; 776; 768]); (8147, [921; 776; 769]); (8150, [921; 834]); (8151, [921; 776; 834]);
    (8160, [8168]); (8161, [8169]); (8162, [933; 776; 768]); (8163, [933; 776; 769]);
    (8164, [929; 787]); (8165, [8172]); (8166, [933; 834]); (8167, [933; 776; 834]);
    (8178, [8186; 921]); (8179, [937; 921]); (8180, [911; 921]); (8182, [937; 834]);
    (8183, [937; 834; 921]); (8188, [937; 921]); (8526, [8498]); (8560, [8544]); (8561, [8545]);
    (8562, [8546]); (8563, [8547]); (8564, [8548]); (8565, [8549]); (8566, [8550]); (8567, [8551]);
    (8568, [8552]); (8569, [8553]); (8570, [8554]); (8571, [8555]); (8572, [8556]); (8573, [8557]);
    (8574, [8558]); (8575, [8559]); (8580, [8579]); (9424, [9398]); (9425, [9399]); (9426, [9400]) ].

Definition upper_table_9 : list (N * list N) :=
  [ (9427, [9401]); (9428, [9402]); (9429, [9403]); (9430, [9404]); (9431, [9405]); (9432, [9406]);
    (9433, [9407]); (9434, [9408]); (9435, [9409]); (9436, [9410]); (9437, [9411]); (9438, [9412]);
    (9439, [9413]); (9440, [9414]); (9441, [9415]); (9442, [9416]); (9443, [9417]); (9444, [9418]);
    (9445, [9419]); (9446, [9420]); (9447, [9421]); (9448, [9422]); (9449, [9423]); (11312, [11264]);
    (11313, [11265]); (11314, [11266]); (11315, [11267]); (11316, [11268]); (11317, [11269]);
    (11318, [11270]); (11319, [11271]); (11320, [11272]); (11321, [11273]); (11322, [11274]);
    (11323, [11275]); (11324, [11276]); (11325, [11277]); (11326, [11278]); (11327, [11279]);
    (11328, [11280]); (11329, [11281]); (11330, [11282]); (11331, [11283]); (11332, [11284]);
    (11333, [11285]); (11334, [11286]); (11335, [11287]); (11336, [11288]); (11337, [11289]);
    (11338, [11290]); (11339, [11291]); (11340, [11292]); (11341, [11293]); (11342, [11294]);
    (11343, [11295]); (11344, [11296]); (11345, [11297]); (11346, [11298]); (11347, [11299]);
    (11348, [11300]); (11349, [11301]); (11350, [11302]); (11351, [11303]); (11352, [11304]);
    (11353, [11305]); (11354, [11306]); (11355, [11307]); (11356, [11308]); (11357, [11309]);
    (11358, [11310]); (11359, [11311]); (11361, [11360]); (11365, [570]); (11366, [574]);
    (11368, [11367]); (11370, [11369]); (11372, [11371]); (11379, [11378]); (11382, [11381]);
    (11393, [11392]); (11395, [11394]); (11397, [11396]); (11399, [11398]); (11401, [11400]);
    (11403, [11402]); (11405, [11404]); (11407, [11406]); (11409, [11408]); (11411, [11410]);
    (11413, [11412]); (11415, [11414]); (11417, [11416]); (11419, [11418]); (11421, [11420]);
    (11423, [11422]); (11425, [11424]) ].

Definition upper_table_10 : list (N * list N) :=
  [ (11427, [11426]); (11429, [11428]); (11431, [11430]); (11433, [11432]); (11435, [11434]);
    (11437, [11436]); (11439, [11438]); (11441, [11440]); (11443, [11442]); (11445, [11444]);
    (11447, [11446]); (11449, [11448]); (11451, [11450]); (11453, [11452]); (11455, [11454]);
    (11457, [11456]); (11459, [11458]); (11461, [11460]); (11463, [11462]); (11465, [11464]);
    (11467, [11466]); (11469, [11468]); (11471, [11470]); (11473, [11472]); (11475, [11474]);
    (11477, [11476]); (11479, [11478]); (11481, [11480]); (11483, [11482]); (11485, [11484]);
    (11487, [11486]); (11489, [11488]); (11491, [11490]); (11500, [11499]); (11502, [11501]);
    (11507, [11506]); (11520, [4256]); (11521, [4257]); (11522, [4258]); (11523, [4259]);
    (11524, [4260]); (11525, [4261]); (11526, [4262]); (11527, [4263]); (11528, [4264]);
    (11529, [4265]); (11530, [4266]); (11531, [4267]); (11532, [4268]); (11533, [4269]);
    (11534, [4270]); (11535, [4271]); (11536, [4272]); (11537, [4273]); (11538, [4274]);
    (11539, [4275]); (11540, [4276]); (11541, [4277]); (11542, [4278]); (11543, [4279]);
    (11544, [4280]); (11545, [4281]); (11546, [4282]); (11547, [4283]); (11548, [4284]);
    (11549, [4285]); (11550, [4286]); (11551, [4287]); (11552, [4288]); (11553, [4289]);
    (11554, [4290]); (11555, [4291]); (11556, [4292]); (11557, [4293]); (11559, [4295]);
    (11565, [4301]); (42561, [42560]); (42563, [42562]); (42565, [42564]); (42567, [42566]);
    (42569, [42568]); (42571, [42570]); (42573, [42572]); (42575, [42574]); (42577, [42576]);
    (42579, [42578]); (42581, [42580]); (42583, [42582]); (42585, [42584]); (42587, [42586]);
    (42589, [42588]); (42591, [42590]); (42593, [42592]); (42595, [42594]); (42597, [42596]);
    (42599, [42598]) ].

Definition upper_table_11 : list (N * list N) :=
  [ (42601, [42600]); (42603, [42602]); (42605, [42604]); (42625, [42624]); (42627, [42626]);
    (42629, [42628]); (42631, [42630]); (42633, [42632]); (42635, [42634]); (42637, [42636]);
    (42639, [42638]); (42641, [42640]); (42643, [42642]); (42645, [42644]); (42647, [42646]);
    (42649, [42648]); (42651, [42650]); (42787, [42786]); (42789, [42788]); (42791, [42790]);
    (42793, [42792]); (42795, [42794]); (42797, [42796]); (42799, [42798]); (42803, [42802]);
    (42805, [42804]); (42807, [42806]); (42809, [42808]); (42811, [42810]); (42813, [42812]);
    (42815, [42814]); (42817, [42816]); (42819, [42818]); (42821, [42820]); (42823, [42822]);
    (42825, [42824]); (42827, [42826]); (42829, [42828]); (42831, [42830]); (42833, [42832]);
    (42835, [42834]); (42837, [42836]); (42839, [42838]); (42841, [42840]); (42843, [42842]);
    (42845, [42844]); (42847, [42846]); (42849, [42848]); (42851, [42850]); (42853, [42852]);
    (42855, [42854]); (42857, [42856]); (42859, [42858]); (42861, [42860]); (42863, [42862]);
    (42874, [42873]); (42876, [42875]); (42879, [42878]); (42881, [42880]); (42883, [42882]);
    (42885, [42884]); (42887, [42886]); (42892, [42891]); (42897, [42896]); (42899, [42898]);
    (42900, [42948]); (42903, [42902]); (42905, [42904]); (42907, [42906]); (42909, [42908]);
    (42911, [42910]); (42913, [42912]); (42915, [42914]); (42917, [42916]); (42919, [42918]);
    (42921, [42920]); (42933, [42932]); (42935, [42934]); (42937, [42936]); (42939, [42938]);
    (42941, [42940]); (42943, [42942]); (42945, [42944]); (42947, [42946]); (42952, [42951]);
    (42954, [42953]); (42961, [42960]); (42967, [42966]); (42969, [42968]); (42998, [42997]);
    (43859, [42931]); (43888, [5024]); (43889, [5025]); (43890, [5026]); (43891, [5027]);
    (43892, [5028]) ].

Definition upper_table_12 : list (N * list N) :=
  [ (43893, [5029]); (43894, [5030]); (43895, [5031]); (43896, [5032]); (43897, [5033]);
    (43898, [5034]); (43899, [5035]); (43900, [5036]); (43901, [5037]); (43902, [5038]);
    (43903, [5039]); (43904, [5040]); (43905, [5041]); (43906, [5042]); (43907, [5043]);
    (43908, [5044]); (43909, [5045]); (43910, [5046]); (43911, [5047]); (43912, [5048]);
    (43913, [5049]); (43914, [5050]); (43915, [5051]); (43916, [5052]); (43917, [5053]);
    (43918, [5054]); (43919, [5055]); (43920, [5056]); (43921, [5057]); (43922, [5058]);
    (43923, [5059]); (43924, [5060]); (43925, [5061]); (43926, [5062]); (43927, [5063]);
    (43928, [5064]); (43929, [5065]); (43930, [5066]); (43931, [5067]); (43932, [5068]);
    (43933, [5069]); (43934, [5070]); (43935, [5071]); (43936, [5072]); (43937, [5073]);
    (43938, [5074]); (43939, [5075]); (43940, [5076]); (43941, [5077]); (43942, [5078]);
    (43943, [5079]); (43944, [5080]); (43945, [5081]); (43946, [5082]); (43947, [5083]);
    (43948, [5084]); (43949, [5085]); (43950, [5086]); (43951, [5087]); (43952, [5088]);
    (43953, [5089]); (43954, [5090]); (43955, [5091]); (43956, [5092]); (43957, [5093]);
    (43958, [5094]); (43959, [5095]); (43960, [5096]); (43961, [5097]); (43962, [5098]);
    (43963, [5099]); (43964, [5100]); (43965, [5101]); (43966, [5102]); (43967, [5103]);
    (64256, [70; 70]); (64257, [70; 73]); (64258, [70; 76]); (64259, [70; 70; 73]);
    (64260, [70; 70; 76]); (64261, [83; 84]); (64262, [83; 84]); (64275, [1348; 1350]);
    (64276, [1348; 1333]); (64277, [1348; 1339]); (64278, [1358; 1350]); (64279, [1348; 1341]);
    (65345, [65313]); (65346, [65314]); (65347, [65315]); (65348, [65316]); (65349, [65317]);
    (65350, [65318]); (65351, [65319]); (65352, [65320]); (65353, [65321]) ].

Definition upper_table_13 : list (N * list N) :=
  [ (65354, [65322]); (65355, [65323]); (65356, [65324]); (65357, [65325]); (65358, [65326]);
    (65359, [65327]); (65360, [65328]); (65361, [65329]); (65362, [65330]); (65363, [65331]);
    (65364, [65332]); (65365, [65333]); (65366, [65334]); (65367, [65335]); (65368, [65336]);
    (65369, [65337]); (65370, [65338]); (66600, [66560]); (66601, [66561]); (66602, [66562]);
    (66603, [66563]); (66604, [66564]); (66605, [66565]); (66606, [66566]); (66607, [66567]);
    (66608, [66568]); (66609, [66569]); (66610, [66570]); (66611, [66571]); (66612, [66572]);
    (66613, [66573]); (66614, [66574]); (66615, [66575]); (66616, [66576]); (66617, [66577]);
    (66618, [66578]); (66619, [66579]); (66620, [66580]); (66621, [66581]); (66622, [66582]);
    (66623, [66583]); (66624, [66584]); (66625, [66585]); (66626, [66586]); (66627, [66587]);
    (66628, [66588]); (66629, [66589]); (66630, [66590]); (66631, [66591]); (66632, [66592]);
    (66633, [66593]); (66634, [66594]); (66635, [66595]); (66636, [66596]); (66637, [66597]);
    (66638, [66598]); (66639, [66599]); (66776, [66736]); (66777, [66737]); (66778, [66738]);
    (66779, [66739]); (66780, [66740]); (66781, [66741]); (66782, [66742]); (66783, [66743]);
    (66784, [66744]); (66785, [66745]); (66786, [66746]); (66787, [66747]); (66788, [66748]);
    (66789, [66749]); (66790, [66750]); (66791, [66751]); (66792, [66752]); (66793, [66753]);
    (66794, [66754]); (66795, [66755]); (66796, [66756]); (66797, [66757]); (66798, [66758]);
    (66799, [66759]); (66800, [66760]); (66801, [66761]); (66802, [66762]); (66803, [66763]);
    (66804, [66764]); (66805, [66765]); (66806, [66766]); (66807, [66767]); (66808, [66768]);
    (66809, [66769]); (66810, [66770]); (66811, [66771]); (66967, [66928]); (66968, [66929]);
    (66969, [66930]) ].

Definition upper_table_14 : list (N * list N) :=
  [ (66970, [66931]); (66971, [66932]); (66972, [66933]); (66973, [66934]); (66974, [66935]);
    (66975, [66936]); (66976, [66937]); (66977, [66938]); (66979, [66940]); (66980, [66941]);
    (66981, [66942]); (66982, [66943]); (66983, [66944]); (66984, [66945]); (66985, [66946]);
    (66986, [66947]); (66987, [66948]); (66988, [66949]); (66989, [66950]); (66990, [66951]);
    (66991, [66952]); (66992, [66953]); (66993, [66954]); (66995, [66956]); (66996, [66957]);
    (66997, [66958]); (66998, [66959]); (66999, [66960]); (67000, [66961]); (67001, [66962]);
    (67003, [66964]); (67004, [66965]); (68800, [68736]); (68801, [68737]); (68802, [68738]);
    (68803, [68739]); (68804, [68740]); (68805, [68741]); (68806, [68742]); (68807, [68743]);
    (68808, [68744]); (68809, [68745]); (68810, [68746]); (68811, [68747]); (68812, [68748]);
    (68813, [68749]); (68814, [68750]); (68815, [68751]); (68816, [68752]); (68817, [68753]);
    (68818, [68754]); (68819, [68755]); (68820, [68756]); (68821, [68757]); (68822, [68758]);
    (68823, [68759]); (68824, [68760]); (68825, [68761]); (68826, [68762]); (68827, [68763]);
    (68828, [68764]); (68829, [68765]); (68830, [68766]); (68831, [68767]); (68832, [68768]);
    (68833, [68769]); (68834, [68770]); (68835, [68771]); (68836, [68772]); (68837, [68773]);
    (68838, [68774]); (68839, [68775]); (68840, [68776]); (68841, [68777]); (68842, [68778]);
    (68843, [68779]); (68844, [68780]); (68845, [68781]); (68846, [68782]); (68847, [68783]);
    (68848, [68784]); (68849, [68785]); (68850, [68786]); (71872, [71840]); (71873, [71841]);
    (71874, [71842]); (71875, [71843]); (71876, [71844]); (71877, [71845]); (71878, [71846]);
    (71879, [71847]); (71880, [71848]); (71881, [71849]); (71882, [71850]); (71883, [71851]);
    (71884, [71852]) ].

Definition upper_table_15 : list (N * list N) :=
  [ (71885, [71853]); (71886, [71854]); (71887, [71855]); (71888, [71856]); (71889, [71857]);
    (71890, [71858]); (71891, [71859]); (71892, [71860]); (71893, [71861]); (71894, [71862]);
    (71895, [71863]); (71896, [71864]); (71897, [71865]); (71898, [71866]); (71899, [71867]);
    (71900, [71868]); (71901, [71869]); (71902, [71870]); (71903, [71871]); (93792, [93760]);
    (93793, [93761]); (93794, [93762]); (93795, [93763]); (93796, [93764]); (93797, [93765]);
    (93798, [93766]); (93799, [93767]); (93800, [93768]); (93801, [93769]); (93802, [93770]);
    (93803, [93771]); (93804, [93772]); (93805, [93773]); (93806, [93774]); (93807, [93775]);
    (93808, [93776]); (93809, [93777]); (93810, [93778]); (93811, [93779]); (93812, [93780]);
    (93813, [93781]); (93814, [93782]); (93815, [93783]); (93816, [93784]); (93817, [93785]);
    (93818, [93786]); (93819, [93787]); (93820, [93788]); (93821, [93789]); (93822, [93790]);
    (93823, [93791]); (125218, [125184]); (125219, [125185]); (125220, [125186]); (125221, [125187]);
    (125222, [125188]); (125223, [125189]); (125224, [125190]); (125225, [125191]);
    (125226, [125192]); (125227, [125193]); (125228, [125194]); (125229, [125195]);
    (125230, [125196]); (125231, [125197]); (125232, [125198]); (125233, [125199]);
    (125234, [125200]); (125235, [125201]); (125236, [125202]); (125237, [125203]);
    (125238, [125204]); (125239, [125205]); (125240, [125206]); (125241, [125207]);
    (125242, [125208]); (125243, [125209]); (125244, [125210]); (125245, [125211]);
    (125246, [125212]); (125247, [125213]); (125248, [125214]); (125249, [125215]);
    (125250, [125216]); (125251, [125217]) ].

Definition upper_table : list (N * list N) :=
  upper_table_0 ++ upper_table_1 ++ upper_table_2 ++ upper_table_3 ++ upper_table_4
  ++ upper_table_5 ++ upper_table_6 ++ upper_table_7 ++ upper_table_8 ++ upper_table_9
  ++ upper_table_10 ++ upper_table_11 ++ upper_table_12 ++ upper_table_13 ++ upper_table_14
  ++ upper_table_15.

Definition title_table_0 : list (N * list N) :=
  [ (223, [83; 115]); (452, [453]); (453, [453]); (454, [453]); (455, [456]); (456, [456]);
    (457, [456]); (458, [459]); (459, [459]); (460, [459]); (497, [498]); (498, [498]); (499, [498]);
    (1415, [1333; 1410]); (4304, [4304]); (4305, [4305]); (4306, [4306]); (4307, [4307]);
    (4308, [4308]); (4309, [4309]); (4310, [4310]); (4311, [4311]); (4312, [4312]); (4313, [4313]);
    (4314, [4314]); (4315, [4315]); (4316, [4316]); (4317, [4317]); (4318, [4318]); (4319, [4319]);
    (4320, [4320]); (4321, [4321]); (4322, [4322]); (4323, [4323]); (4324, [4324]); (4325, [4325]);
    (4326, [4326]); (4327, [4327]); (4328, [4328]); (4329, [4329]); (4330, [4330]); (4331, [4331]);
    (4332, [4332]); (4333, [4333]); (4334, [4334]); (4335, [4335]); (4336, [4336]); (4337, [4337]);
    (4338, [4338]); (4339, [4339]); (4340, [4340]); (4341, [4341]); (4342, [4342]); (4343, [4343]);
    (4344, [4344]); (4345, [4345]); (4346, [4346]); (4349, [4349]); (4350, [4350]); (4351, [4351]);
    (8064, [8072]); (8065, [8073]); (8066, [8074]); (8067, [8075]); (8068, [8076]); (8069, [8077]);
    (8070, [8078]); (8071, [8079]); (8072, [8072]); (8073, [8073]); (8074, [8074]); (8075, [8075]);
    (8076, [8076]); (8077, [8077]); (8078, [8078]); (8079, [8079]); (8080, [8088]); (8081, [8089]);
    (8082, [8090]); (8083, [8091]); (8084, [8092]); (8085, [8093]); (8086, [8094]); (8087, [8095]);
    (8088, [8088]); (8089, [8089]); (8090, [8090]); (8091, [8091]); (8092, [8092]); (8093, [8093]);
    (8094, [8094]); (8095, [8095]); (8096, [8104]); (8097, [8105]); (8098, [8106]); (8099, [8107]) ].

Definition title_table_1 : list (N * list N) :=
  [ (8100, [8108]); (8101, [8109]); (8102, [8110]); (8103, [8111]); (8104, [8104]); (8105, [8105]);
    (8106, [8106]); (8107, [8107]); (8108, [8108]); (8109, [8109]); (8110, [8110]); (8111, [8111]);
    (8114, [8122; 837]); (8115, [8124]); (8116, [902; 837]); (8119, [913; 834; 837]); (8124, [8124]);
    (8130, [8138; 837]); (8131, [8140]); (8132, [905; 837]); (8135, [919; 834; 837]); (8140, [8140]);
    (8178, [8186; 837]); (8179, [8188]); (8180, [911; 837]); (8183, [937; 834; 837]); (8188, [8188]);
    (64256, [70; 102]); (64257, [70; 105]); (64258, [70; 108]); (64259, [70; 102; 105]);
    (64260, [70; 102; 108]); (64261, [83; 116]); (64262, [83; 116]); (64275, [1348; 1398]);
    (64276, [1348; 1381]); (64277, [1348; 1387]); (64278, [1358; 1398]); (64279, [1348; 1389]) ].

Definition title_table : list (N * list N) :=
  title_table_0 ++ title_table_1.

Definition cased_table_0 : list (N * N) :=
  [ (65, 90); (97, 122); (170, 170); (181, 181); (186, 186); (192, 214); (216, 246); (248, 442);
    (444, 447); (452, 659); (661, 696); (704, 705); (736, 740); (837, 837); (880, 883); (886, 887);
    (890, 893); (895, 895); (902, 902); (904, 906); (908, 908); (910, 929); (931, 1013);
    (1015, 1153); (1162, 1327); (1329, 1366); (1376, 1416); (4256, 4293); (4295, 4295); (4301, 4301);
    (4304, 4346); (4349, 4351); (5024, 5109); (5112, 5117); (7296, 7304); (7312, 7354); (7357, 7359);
    (7424, 7615); (7680, 7957); (7960, 7965); (7968, 8005); (8008, 8013); (8016, 8023); (8025, 8025);
    (8027, 8027); (8029, 8029); (8031, 8061); (8064, 8116); (8118, 8124); (8126, 8126); (8130, 8132);
    (8134, 8140); (8144, 8147); (8150, 8155); (8160, 8172); (8178, 8180); (8182, 8188); (8305, 8305);
    (8319, 8319); (8336, 8348); (8450, 8450); (8455, 8455); (8458, 8467); (8469, 8469); (8473, 8477);
    (8484, 8484); (8486, 8486); (8488, 8488); (8490, 8493); (8495, 8500); (8505, 8505); (8508, 8511);
    (8517, 8521); (8526, 8526); (8544, 8575); (8579, 8580); (9398, 9449); (11264, 11492);
    (11499, 11502); (11506, 11507); (11520, 11557); (11559, 11559); (11565, 11565); (42560, 42605);
    (42624, 42653); (42786, 42887); (42891, 42894); (42896, 42954); (42960, 42961); (42963, 42963);
    (42965, 42969); (42997, 42998); (43000, 43002); (43824, 43866); (43868, 43880); (43888, 43967);
    (64256, 64262); (64275, 64279); (65313, 65338); (65345, 65370); (66560, 66639); (66736, 66771);
    (66776, 66811); (66928, 66938); (66940, 66954); (66956, 66962); (66964, 66965); (66967, 66977);
    (66979, 66993); (66995, 67001); (67003, 67004); (67456, 67456); (67459, 67461); (67463, 67504);
    (67506, 67514); (68736, 68786); (68800, 68850); (71840, 71903); (93760, 93823); (119808, 119892);
    (119894, 119964); (119966, 119967); (119970, 119970); (119973, 119974); (119977, 119980);
    (119982, 119993); (119995, 119995); (119997, 120003) ].

Definition cased_table_1 : list (N * N) :=
  [ (120005, 120069); (120071, 120074); (120077, 120084); (120086, 120092); (120094, 120121);
    (120123, 120126); (120128, 120132); (120134, 120134); (120138, 120144); (120146, 120485);
    (120488, 120512); (120514, 120538); (120540, 120570); (120572, 120596); (120598, 120628);
    (120630, 120654); (120656, 120686); (120688, 120712); (120714, 120744); (120746, 120770);
    (120772, 120779); (122624, 122633); (122635, 122654); (125184, 125251); (127280, 127305);
    (127312, 127337); (127344, 127369) ].

Definition cased_table : list (N * N) :=
  cased_table_0 ++ cased_table_1.

Definition case_ignorable_table_0 : list (N * N) :=
  [ (39, 39); (46, 46); (58, 58); (94, 94); (96, 96); (168, 168); (173, 173); (175, 175); (180, 180);
    (183, 184); (688, 879); (884, 885); (890, 890); (900, 901); (903, 903); (1155, 1161);
    (1369, 1369); (1375, 1375); (1425, 1469); (1471, 1471); (1473, 1474); (1476, 1477); (1479, 1479);
    (1524, 1524); (1536, 1541); (1552, 1562); (1564, 1564); (1600, 1600); (1611, 1631); (1648, 1648);
    (1750, 1757); (1759, 1768); (1770, 1773); (1807, 1807); (1809, 1809); (1840, 1866); (1958, 1968);
    (2027, 2037); (2042, 2042); (2045, 2045); (2070, 2093); (2137, 2139); (2184, 2184); (2192, 2193);
    (2200, 2207); (2249, 2306); (2362, 2362); (2364, 2364); (2369, 2376); (2381, 2381); (2385, 2391);
    (2402, 2403); (2417, 2417); (2433, 2433); (2492, 2492); (2497, 2500); (2509, 2509); (2530, 2531);
    (2558, 2558); (2561, 2562); (2620, 2620); (2625, 2626); (2631, 2632); (2635, 2637); (2641, 2641);
    (2672, 2673); (2677, 2677); (2689, 2690); (2748, 2748); (2753, 2757); (2759, 2760); (2765, 2765);
    (2786, 2787); (2810, 2815); (2817, 2817); (2876, 2876); (2879, 2879); (2881, 2884); (2893, 2893);
    (2901, 2902); (2914, 2915); (2946, 2946); (3008, 3008); (3021, 3021); (3072, 3072); (3076, 3076);
    (3132, 3132); (3134, 3136); (3142, 3144); (3146, 3149); (3157, 3158); (3170, 3171); (3201, 3201);
    (3260, 3260); (3263, 3263); (3270, 3270); (3276, 3277); (3298, 3299); (3328, 3329); (3387, 3388);
    (3393, 3396); (3405, 3405); (3426, 3427); (3457, 3457); (3530, 3530); (3538, 3540); (3542, 3542);
    (3633, 3633); (3636, 3642); (3654, 3662); (3761, 3761); (3764, 3772); (3782, 3782); (3784, 3789);
    (3864, 3865); (3893, 3893); (3895, 3895); (3897, 3897); (3953, 3966); (3968, 3972); (3974, 3975);
    (3981, 3991); (3993, 4028); (4038, 4038); (4141, 4144); (4146, 4151); (4153, 4154); (4157, 4158) ].

Definition case_ignorable_table_1 : list (N * N) :=
  [ (4184, 4185); (4190, 4192); (4209, 4212); (4226, 4226); (4229, 4230); (4237, 4237); (4253, 4253);
    (4348, 4348); (4957, 4959); (5906, 5908); (5938, 5939); (5970, 5971); (6002, 6003); (6068, 6069);
    (6071, 6077); (6086, 6086); (6089, 6099); (6103, 6103); (6109, 6109); (6155, 6159); (6211, 6211);
    (6277, 6278); (6313, 6313); (6432, 6434); (6439, 6440); (6450, 6450); (6457, 6459); (6679, 6680);
    (6683, 6683); (6742, 6742); (6744, 6750); (6752, 6752); (6754, 6754); (6757, 6764); (6771, 6780);
    (6783, 6783); (6823, 6823); (6832, 6862); (6912, 6915); (6964, 6964); (6966, 6970); (6972, 6972);
    (6978, 6978); (7019, 7027); (7040, 7041); (7074, 7077); (7080, 7081); (7083, 7085); (7142, 7142);
    (7144, 7145); (7149, 7149); (7151, 7153); (7212, 7219); (7222, 7223); (7288, 7293); (7376, 7378);
    (7380, 7392); (7394, 7400); (7405, 7405); (7412, 7412); (7416, 7417); (7468, 7530); (7544, 7544);
    (7579, 7679); (8125, 8125); (8127, 8129); (8141, 8143); (8157, 8159); (8173, 8175); (8189, 8190);
    (8203, 8207); (8216, 8217); (8228, 8228); (8231, 8231); (8234, 8238); (8288, 8292); (8294, 8303);
    (8305, 8305); (8319, 8319); (8336, 8348); (8400, 8432); (11388, 11389); (11503, 11505);
    (11631, 11631); (11647, 11647); (11744, 11775); (11823, 11823); (12293, 12293); (12330, 12333);
    (12337, 12341); (12347, 12347); (12441, 12446); (12540, 12542); (40981, 40981); (42232, 42237);
    (42508, 42508); (42607, 42610); (42612, 42621); (42623, 42623); (42652, 42655); (42736, 42737);
    (42752, 42785); (42864, 42864); (42888, 42890); (42994, 42996); (43000, 43001); (43010, 43010);
    (43014, 43014); (43019, 43019); (43045, 43046); (43052, 43052); (43204, 43205); (43232, 43249);
    (43263, 43263); (43302, 43309); (43335, 43345); (43392, 43394); (43443, 43443); (43446, 43449);
    (43452, 43453); (43471, 43471); (43493, 43494); (43561, 43566); (43569, 43570); (43573, 43574);
    (43587, 43587); (43596, 43596); (43632, 43632) ].

Definition case_ignorable_table_2 : list (N * N) :=
  [ (43644, 43644); (43696, 43696); (43698, 43700); (43703, 43704); (43710, 43711); (43713, 43713);
    (43741, 43741); (43756, 43757); (43763, 43764); (43766, 43766); (43867, 43871); (43881, 43883);
    (44005, 44005); (44008, 44008); (44013, 44013); (64286, 64286); (64434, 64450); (65024, 65039);
    (65043, 65043); (65056, 65071); (65106, 65106); (65109, 65109); (65279, 65279); (65287, 65287);
    (65294, 65294); (65306, 65306); (65342, 65342); (65344, 65344); (65392, 65392); (65438, 65439);
    (65507, 65507); (65529, 65531); (66045, 66045); (66272, 66272); (66422, 66426); (67456, 67461);
    (67463, 67504); (67506, 67514); (68097, 68099); (68101, 68102); (68108, 68111); (68152, 68154);
    (68159, 68159); (68325, 68326); (68900, 68903); (69291, 69292); (69446, 69456); (69506, 69509);
    (69633, 69633); (69688, 69702); (69744, 69744); (69747, 69748); (69759, 69761); (69811, 69814);
    (69817, 69818); (69821, 69821); (69826, 69826); (69837, 69837); (69888, 69890); (69927, 69931);
    (69933, 69940); (70003, 70003); (70016, 70017); (70070, 70078); (70089, 70092); (70095, 70095);
    (70191, 70193); (70196, 70196); (70198, 70199); (70206, 70206); (70367, 70367); (70371, 70378);
    (70400, 70401); (70459, 70460); (70464, 70464); (70502, 70508); (70512, 70516); (70712, 70719);
    (70722, 70724); (70726, 70726); (70750, 70750); (70835, 70840); (70842, 70842); (70847, 70848);
    (70850, 70851); (71090, 71093); (71100, 71101); (71103, 71104); (71132, 71133); (71219, 71226);
    (71229, 71229); (71231, 71232); (71339, 71339); (71341, 71341); (71344, 71349); (71351, 71351);
    (71453, 71455); (71458, 71461); (71463, 71467); (71727, 71735); (71737, 71738); (71995, 71996);
    (71998, 71998); (72003, 72003); (72148, 72151); (72154, 72155); (72160, 72160); (72193, 72202);
    (72243, 72248); (72251, 72254); (72263, 72263); (72273, 72278); (72281, 72283); (72330, 72342);
    (72344, 72345); (72752, 72758); (72760, 72765); (72767, 72767); (72850, 72871); (72874, 72880);
    (72882, 72883); (72885, 72886); (73009, 73014); (73018, 73018); (73020, 73021); (73023, 73029);
    (73031, 73031); (73104, 73105) ].

Definition case_ignorable_table_3 : list (N * N) :=
  [ (73109, 73109); (73111, 73111); (73459, 73460); (78896, 78904); (92912, 92916); (92976, 92982);
    (92992, 92995); (94031, 94031); (94095, 94111); (94176, 94177); (94179, 94180); (110576, 110579);
    (110581, 110587); (110589, 110590); (113821, 113822); (113824, 113827); (118528, 118573);
    (118576, 118598); (119143, 119145); (119155, 119170); (119173, 119179); (119210, 119213);
    (119362, 119364); (121344, 121398); (121403, 121452); (121461, 121461); (121476, 121476);
    (121499, 121503); (121505, 121519); (122880, 122886); (122888, 122904); (122907, 122913);
    (122915, 122916); (122918, 122922); (123184, 123197); (123566, 123566); (123628, 123631);
    (125136, 125142); (125252, 125259); (127995, 127999); (917505, 917505); (917536, 917631);
    (917760, 917999) ].

Definition case_ignorable_table : list (N * N) :=
  case_ignorable_table_0 ++ case_ignorable_table_1 ++ case_ignorable_table_2
  ++ case_ignorable_table_3.
Fixpoint assoc (c : N) (t : list (N * list N)) : option (list N) :=
  match t with
  | [] => None
  | (k, v) :: r => if N.eqb k c then Some v else assoc c r
  end.

Definition in_ranges (c : N) (rs : list (N * N)) : bool :=
  existsb (λ r, N.leb r.1 c && N.leb c r.2) rs.

(** [c.isspace()] *)
Definition is_space (c : N) : bool := existsb (N.eqb c) space_table.

(** The full case mappings of one character; a character without an entry
    maps to itself. *)
Definition to_lower (c : N) : list N := default [c] (assoc c lower_table).

Definition to_upper (c : N) : list N := default [c] (assoc c upper_table).

Definition to_title (c : N) : list N :=
  match assoc c title_table with
  | Some t => t
  | None => to_upper c
  end.

Definition cased (c : N) : bool := in_ranges c cased_table.

Definition case_ignorable (c : N) : bool := in_ranges c case_ignorable_table.

(** The capital sigma is lower-cased to the final form when a cased
    character comes before it and none comes after it, case-ignorable
    characters skipped on both sides. *)
Fixpoint skip_ignorable (s : str) : str :=
  match s with
  | [] => []
  | c :: r => if case_ignorable c then skip_ignorable r else s
  end.

Definition final_sigma (before after : str) : bool :=
  match skip_ignorable before with
  | [] => false
  | c :: _ =>
      cased c && match skip_ignorable after with
                 | [] => true
                 | d :: _ => negb (cased d)
                 end
  end.

(** Lower-casing of the rest of a text; [before] holds the characters
    already passed, nearest first. *)
Fixpoint lower_from (before s : str) : str :=
  match s with
  | [] => []
  | c :: r =>
      (if N.eqb c 931
       then [if final_sigma before r then 962 else 963]
       else to_lower c) ++ lower_from (c :: before) r
  end.

(** [s.lower()] *)
Definition lower (s : str) : str := lower_from [] s.

(** [s.capitalize()]: the first character title-cased, the others
    lower-cased *)
Definition capitalize (s : str) : str :=
  match s with
  | [] => []
  | c :: r => to_title c ++ lower_from [c] r
  end.

(** [s[0].upper() + s[1:]] for a non-empty [s] *)
Definition upper_first (s : str) : str :=
  match s with
  | [] => []
  | c :: r => to_upper c ++ r
  end.

(** [s.split()] *)
Fixpoint split_scan (s : str) : bool * list str :=
  match s with
  | [] => (false, [])
  | c :: r =>
      let '(inside, ws) := split_scan r in
      if is_space c then (false, ws)
      else match inside, ws with
           | true, w :: ws' => (true, (c :: w) :: ws')
           | _, _ => (true, [c] :: ws)
           end
  end.

Definition split (s : str) : list str := snd (split_scan s).

Definition no_space (s : str) : Prop := Forall (λ c, is_space c = false) s.

(** [DrawIOParser.sanitize_class_name] *)
Definition sanitize_class_name (name : str) : str :=
  let parts := split name in
  if (1 <? length parts)%nat
  then concat (map capitalize parts)
  else match name with [] => [] | _ => upper_first name end.

End Unicode.

(** An ASCII text as code points *)
Fixpoint of_string (s : string) : Unicode.str :=
  match s with
  | "" => []
  | String c r => N_of_ascii c :: of_string r
  end.

Definition is_ascii (c : ascii) : bool := (nat_of_ascii c <? 128)%nat.

Definition ascii_text (s : string) : Prop := Forall (λ c, is_ascii c = true) (chars s).

(** ** Data classes *)

Definition Field : Type := string * string * bool.

Definition field_type (f : Field) : string := f.1.1.
Definition field_name (f : Field) : string := f.1.2.
Definition field_is_list (f : Field) : bool := f.2.

Record ClassDef := mkClassDef {
  name : string;
  extends : option string;
  fields : list Field
}.

(** [ClassDef(name=n)] *)
Definition new_class (n : string) : ClassDef := mkClassDef n None [].

Definition add_field (cd : ClassDef) (ftype fname : string) (is_list : bool) : ClassDef :=
  if negb (existsb (λ f, String.eqb (field_name f) fname) (fields cd))
  then mkClassDef (name cd) (extends cd) (fields cd ++ [(ftype, fname, is_list)])
  else cd.

Definition set_extends (cd : ClassDef) (parent : string) : ClassDef :=
  mkClassDef (name cd) (Some parent) (fields cd).

Record Edge := mkEdge {
  source_id : string;
  target_id : string;
  label : string;
  style : string
}.

(** ** DrawIOParser.sanitize_class_name *)

Definition sanitize_class_name (name : string) : string :=
  let parts := split name in
  if (1 <? length parts)%nat then join (map capitalize parts)
  else if truthy name then upper_first name else "".

(** ** RelationshipClassifier *)

(** The three style blocks of [classify] fall through to the next block
    when their inner test fails; each [after_*] below is "the code from that
    block on". *)
Definition classify (edge : Edge) : string :=
  let label_lower := lower (label edge) in
  let style_lower := lower (style edge) in
  let after_dashed :=
    if contains "endarrow" style_lower && negb (contains "dashed" style_lower) then
      if contains "endarrow=classic" style_lower || contains "endarrow=block" style_lower
      then "PART_OF" else "UNKNOWN"
    else "UNKNOWN" in
  let after_fill :=
    if contains "dashed=1" style_lower then
      if contains "endarrow=open" style_lower || contains "endarrow=block" style_lower
      then "EXPANDS"
      else if contains "endarrow=classic" style_lower then "DEPENDS"
      else after_dashed
    else after_dashed in
  if contains "expands" label_lower then "EXPANDS"
  else if contains "depends" label_lower then "DEPENDS"
  else if contains "endfill" style_lower || contains "startfill=1" style_lower then
    if contains "endfill=1" style_lower || contains "startarrow=oval" style_lower
    then "HAVE" else after_fill
  else after_fill.

Definition get_multiplicity (edge : Edge) : string :=
  if contains "*" (label edge) then "*" else "1".

Definition has_black_circle (edge : Edge) : bool :=
  let style := lower (style edge) in
  contains "startarrow=oval" style || contains "endarrow=oval" style.

(** ** Exceptions *)

Inductive exn := KeyError (key : string) | IndexError.

Inductive result (A : Type) := Ok (a : A) | Raise (e : exn).
Arguments Ok {A} a.
Arguments Raise {A} e.

(** Sequencing: an exception ends the computation. *)
Global Instance result_bind : MBind result := λ A B k r,
  match r with Ok a => k a | Raise e => Raise e end.

(** [d[key]] on a dict of class definitions *)
Definition getitem (d : gmap string ClassDef) (key : string) : result ClassDef :=
  match d !! key with Some cd => Ok cd | None => Raise (KeyError key) end.

(** [s[0].lower() + s[1:]] as a fallible step *)
Definition lower_camel (s : string) : result string :=
  match lower_first s with Some r => Ok r | None => Raise IndexError end.

(** ** DrawIOParser.parse

    The input is the list of [mxCell] elements in document order, each
    with the attributes the parser reads.  [geometry] is the cell's
    [mxGeometry] child after the four [float(...)] conversions (a missing
    attribute is 0). *)

Record Geometry := mkGeometry { gx : float; gy : float; gwidth : float; gheight : float }.

Record Cell := mkCell {
  cell_id : option string;
  cell_value : option string;
  cell_style : option string;
  cell_geometry : option Geometry;
  cell_source : option string;
  cell_target : option string
}.

(** [cell.get(attr, '')] *)
Definition get_or_empty (o : option string) : string := default "" o.

Record Box := mkBox {
  box_id : option string;
  bx : float; by_ : float; bw : float; bh : float;
  box_value : string
}.

(** [text_labels]: a dict keyed by the pair of floats [(x, y)], kept in
    insertion order.  Two keys are the same key when both coordinates are
    [==]; assigning to a key that is present replaces its value in place. *)
Definition Labels : Type := list ((float * float) * string).

Definition key_eqb (k1 k2 : float * float) : bool :=
  PrimFloat.eqb k1.1 k2.1 && PrimFloat.eqb k1.2 k2.2.

Fixpoint labels_set (d : Labels) (k : float * float) (v : string) : Labels :=
  match d with
  | [] => [(k, v)]
  | (k', v') :: r =>
      if key_eqb k' k then (k', v) :: r else (k', v') :: labels_set r k v
  end.

Definition scan_cell (acc : Labels * list Box) (cell : Cell) : Labels * list Box :=
  let '(text_labels, boxes) := acc in
  let value := get_or_empty (cell_value cell) in
  let style := get_or_empty (cell_style cell) in
  match cell_geometry cell with
  | Some geometry =>
      match cell_source cell, cell_target cell with
      | None, None =>
          if contains "text;" style && truthy (strip value)
          then (labels_set text_labels (gx geometry, gy geometry) (strip value), boxes)
          else if contains "whiteSpace=wrap" style
          then (text_labels,
                boxes ++ [mkBox (cell_id cell) (gx geometry) (gy geometry)
                                (gwidth geometry) (gheight geometry) (strip value)])
          else acc
      | _, _ => acc
      end
  | None => acc
  end.

(** [bx <= tx <= bx + bw and by <= ty <= by + bh] *)
Definition in_box (b : Box) (pos : float * float) : bool :=
  PrimFloat.leb (bx b) pos.1 && PrimFloat.leb pos.1 (PrimFloat.add (bx b) (bw b))
  && (PrimFloat.leb (by_ b) pos.2 && PrimFloat.leb pos.2 (PrimFloat.add (by_ b) (bh b))).

(** The label search of one box: the first label in dict order that lies in
    the box; [None] when the loop ends without [break]. *)
Fixpoint find_label (text_labels : Labels) (b : Box) : option string :=
  match text_labels with
  | [] => None
  | (pos, text) :: r => if in_box b pos then Some text else find_label r b
  end.

(** One iteration of the box loop: the class name recorded for the box, or
    [None] when nothing is recorded. *)
Definition resolve_box (text_labels : Labels) (b : Box) : option string :=
  let class_name := if truthy (box_value b) then Some (box_value b) else None in
  let class_name :=
    if negb (truthy_opt class_name)
    then match find_label text_labels b with
         | Some text => Some text
         | None => class_name
         end
    else class_name in
  match class_name with
  | Some n => if truthy n then Some (sanitize_class_name n) else None
  | None => None
  end.

Definition record_box (text_labels : Labels)
    (id_to_class : gmap (option string) string) (b : Box) : gmap (option string) string :=
  match resolve_box text_labels b with
  | Some class_name => <[box_id b := class_name]> id_to_class
  | None => id_to_class
  end.

Definition scan_edge (edges : list Edge) (cell : Cell) : list Edge :=
  match cell_source cell, cell_target cell with
  | Some source, Some target =>
      if truthy source && truthy target
      then edges ++ [mkEdge source target (strip (get_or_empty (cell_value cell)))
                            (get_or_empty (cell_style cell))]
      else edges
  | _, _ => edges
  end.

Record DrawIOParser := mkParser {
  id_to_class : gmap (option string) string;
  edges : list Edge
}.

(** The first loop of [parse]: the labels and the boxes of the diagram *)
Definition scan_cells (cells : list Cell) : Labels * list Box :=
  foldl scan_cell ([], []) cells.

Definition parse (cells : list Cell) : DrawIOParser :=
  let '(text_labels, boxes) := scan_cells cells in
  mkParser (foldl (record_box text_labels) ∅ boxes) (foldl scan_edge [] cells).

Definition get_classes (p : DrawIOParser) : gset string := map_img (id_to_class p).

(** ** CodeGenerator *)

Record CodeGenerator := mkGen {
  parser : DrawIOParser;
  classes : gmap string ClassDef;
  (** the lines printed by [_process_relationship], oldest first *)
  printed : list string
}.

Definition print (g : CodeGenerator) (line : string) : CodeGenerator :=
  mkGen (parser g) (classes g) (printed g ++ [line]).

Definition set_class (g : CodeGenerator) (key : string) (cd : ClassDef) : CodeGenerator :=
  mkGen (parser g) (<[key := cd]> (classes g)) (printed g).

Definition relationship_line (source_class rel_type target_class multiplicity : string) : string :=
  "  " +:+ source_class +:+ " --[" +:+ rel_type +:+ "]--> " +:+ target_class
  +:+ " (multiplicity: " +:+ multiplicity +:+ ")".

Definition _process_relationship (g : CodeGenerator) (edge : Edge) : result CodeGenerator :=
  match id_to_class (parser g) !! Some (source_id edge),
        id_to_class (parser g) !! Some (target_id edge) with
  | Some source_class, Some target_class =>
      if negb (truthy source_class) || negb (truthy target_class) then Ok g
      else
        let rel_type := classify edge in
        let multiplicity := get_multiplicity edge in
        let g := print g (relationship_line source_class rel_type target_class multiplicity) in
        if String.eqb rel_type "EXPANDS" then
          cd ← getitem (classes g) source_class;
          Ok (set_class g source_class (set_extends cd target_class))
        else if String.eqb rel_type "DEPENDS" then
          field_name ← lower_camel target_class;
          cd ← getitem (classes g) source_class;
          Ok (set_class g source_class (add_field cd target_class field_name false))
        else if String.eqb rel_type "HAVE" then
          let is_list := String.eqb multiplicity "*" in
          field_name ← lower_camel target_class;
          let field_name := if is_list then field_name +:+ "s" else field_name in
          cd ← getitem (classes g) source_class;
          Ok (set_class g source_class (add_field cd target_class field_name is_list))
        else if String.eqb rel_type "PART_OF" then
          let is_list := String.eqb multiplicity "*" in
          field_name ← lower_camel source_class;
          let field_name := if is_list then field_name +:+ "s" else field_name in
          cd ← getitem (classes g) target_class;
          Ok (set_class g target_class (add_field cd source_class field_name is_list))
        else Ok g
  | _, _ => Ok g
  end.

(** The edge loop of [generate] *)
Fixpoint process_all (g : CodeGenerator) (es : list Edge) : result CodeGenerator :=
  match es with
  | [] => Ok g
  | e :: r => g' ← _process_relationship g e; process_all g' r
  end.

(** [generate] up to the hand-over to the emitter: parse, one empty
    [ClassDef] per class name, then every edge in extraction order.  The
    progress lines of [generate] itself are not recorded. *)
Definition init_generator (cells : list Cell) : CodeGenerator :=
  let p := parse cells in
  mkGen p (set_to_map (λ class_name, (class_name, new_class class_name)) (get_classes p)) [].

Definition generate (cells : list Cell) : result CodeGenerator :=
  let g := init_generator cells in
  process_all g (edges (parser g)).

(** ** JavaGenerator

    [_generate_class] up to the file write.  The text of a class is built as
    a list of lines joined with the new-line character; the file is named
    after the class. *)

(** ["\n"] *)
Definition nl : string := String (ascii_of_nat 10) "".

(** [sep.join(l)] *)
Fixpoint join_with (sep : string) (l : list string) : string :=
  match l with
  | [] => ""
  | x :: r => match r with [] => x | _ => x +:+ sep +:+ join_with sep r end
  end.

(** [name[0].upper() + name[1:] if name else ""] *)
Definition _capitalize (name : string) : string :=
  if truthy name then upper_first name else "".

(** The formatted lines of [_generate_class] *)
Definition header_line (class_def : ClassDef) : string :=
  if truthy_opt (extends class_def)
  then "public class " +:+ name class_def +:+ " extends "
       +:+ default "" (extends class_def) +:+ " {"
  else "public class " +:+ name class_def +:+ " {".

Definition declaration_line (f : Field) : string :=
  if field_is_list f
  then "    private List<" +:+ field_type f +:+ "> " +:+ field_name f +:+ ";"
  else "    private " +:+ field_type f +:+ " " +:+ field_name f +:+ ";".

Definition constructor_line (class_def : ClassDef) : string :=
  "    public " +:+ name class_def +:+ "() {".

Definition initialiser_line (f : Field) : string :=
  "        this." +:+ field_name f +:+ " = new ArrayList<>();".

Definition getter_line (f : Field) : string :=
  if field_is_list f
  then "    public List<" +:+ field_type f +:+ "> get" +:+ _capitalize (field_name f)
       +:+ "() {"
  else "    public " +:+ field_type f +:+ " get" +:+ _capitalize (field_name f) +:+ "() {".

Definition return_line (f : Field) : string :=
  "        return " +:+ field_name f +:+ ";".

Definition setter_line (f : Field) : string :=
  if field_is_list f
  then "    public void set" +:+ _capitalize (field_name f) +:+ "(List<" +:+ field_type f
       +:+ "> " +:+ field_name f +:+ ") {"
  else "    public void set" +:+ _capitalize (field_name f) +:+ "(" +:+ field_type f
       +:+ " " +:+ field_name f +:+ ") {".

Definition assign_line (f : Field) : string :=
  "        this." +:+ field_name f +:+ " = " +:+ field_name f +:+ ";".

(** Truth value of a list *)
Definition truthy_list {A} (l : list A) : bool :=
  match l with [] => false | _ => true end.

(** [lines] when the closing brace has been appended *)
Definition class_lines (class_def : ClassDef) : list string :=
  let lines := [] in
  let lines := lines ++ [header_line class_def] in
  let lines := lines ++ [""] in
  let lines :=
    if truthy_list (fields class_def)
    then foldl (λ lines f, lines ++ [declaration_line f]) lines (fields class_def) ++ [""]
    else lines in
  let lines := lines ++ [constructor_line class_def] in
  let lines :=
    foldl (λ lines f, if field_is_list f then lines ++ [initialiser_line f] else lines)
          lines (fields class_def) in
  let lines := lines ++ ["    }"] in
  let lines := lines ++ [""] in
  let lines :=
    if truthy_list (fields class_def)
    then foldl (λ lines f,
                  let lines := lines ++ [getter_line f] in
                  let lines := lines ++ [return_line f] in
                  let lines := lines ++ ["    }"] in
                  let lines := lines ++ [""] in
                  let lines := lines ++ [setter_line f] in
                  let lines := lines ++ [assign_line f] in
                  let lines := lines ++ ["    }"] in
                  lines ++ [""])
               lines (fields class_def)
    else lines in
  lines ++ ["}"].

Definition class_imports (class_def : ClassDef) : list string :=
  let imports := [] in
  if existsb field_is_list (fields class_def)
  then (imports ++ ["import java.util.List;"]) ++ ["import java.util.ArrayList;"]
  else imports.

(** The text written to the file *)
Definition class_content (class_def : ClassDef) : string :=
  let lines := class_lines class_def in
  let imports := class_imports class_def in
  if truthy_list imports
  then join_with nl imports +:+ nl +:+ nl +:+ join_with nl lines
  else join_with nl lines.

(** The file written for a class, as (name inside the output directory,
    text); the directory itself is joined in front by [os.path.join]. *)
Definition _generate_class (class_def : ClassDef) : string * string :=
  (name class_def +:+ ".java", class_content class_def).

(** * Vocabulary of the statements *)

(** ** The precedence table

    The classification rules as an ordered list of (test, kind) pairs read
    with first-match-wins; every test is a case-insensitive substring test
    on the label or on the style. *)

Module Precedence.

Definition in_label (needle : string) (e : Edge) : bool := contains needle (lower (label e)).
Definition in_style (needle : string) (e : Edge) : bool := contains needle (lower (style e)).

Definition label_expands := in_label "expands".
Definition label_depends := in_label "depends".

Definition filled_terminator (e : Edge) : bool :=
  (in_style "endfill" e || in_style "startfill=1" e)
  && (in_style "endfill=1" e || in_style "startarrow=oval" e).

Definition dashed_open_or_block (e : Edge) : bool :=
  in_style "dashed=1" e && (in_style "endarrow=open" e || in_style "endarrow=block" e).

Definition dashed_classic (e : Edge) : bool :=
  in_style "dashed=1" e && in_style "endarrow=classic" e.

Definition solid_classic_or_block (e : Edge) : bool :=
  in_style "endarrow" e && negb (in_style "dashed" e)
  && (in_style "endarrow=classic" e || in_style "endarrow=block" e).

Definition rules : list ((Edge → bool) * string) :=
  [ (label_expands, "EXPANDS");
    (label_depends, "DEPENDS");
    (filled_terminator, "HAVE");
    (dashed_open_or_block, "EXPANDS");
    (dashed_classic, "DEPENDS");
    (solid_classic_or_block, "PART_OF") ].

Fixpoint first_match (rs : list ((Edge → bool) * string)) (e : Edge) : string :=
  match rs with
  | [] => "UNKNOWN"
  | (test, kind) :: rs' => if test e then kind else first_match rs' e
  end.

Definition kinds : list string := ["EXPANDS"; "DEPENDS"; "HAVE"; "PART_OF"; "UNKNOWN"].

End Precedence.

Import Precedence.

(** ** Words of a text *)

(** The text with its white space deleted *)
Fixpoint remove_spaces (s : string) : string :=
  match s with
  | "" => ""
  | String c r => if is_space c then remove_spaces r else String c (remove_spaces r)
  end.

Definition token (w : string) : Prop := w ≠ "" ∧ no_space w.

(** Every upper-case letter of [x] still occurs in [y]: nothing of [x] was
    lower-cased away. *)
Definition keeps_upper (x y : string) : Prop :=
  ∀ c, is_upper c = true → In c (chars x) → In c (chars y).

(** ** Labels in a box *)

(** The labels whose origin lies in the box, in dict order *)
Definition labels_in_box (b : Box) (text_labels : Labels) : Labels :=
  List.filter (λ l, in_box b l.1) text_labels.

Definition nonempty_texts (text_labels : Labels) : Prop :=
  Forall (λ l, truthy l.2 = true) text_labels.

(** ** The class model *)

Definition field_names (cd : ClassDef) : list string := map field_name (fields cd).

Definition resolves (g : CodeGenerator) (e : Edge) (s t : string) : Prop :=
  id_to_class (parser g) !! Some (source_id e) = Some s
  ∧ id_to_class (parser g) !! Some (target_id e) = Some t
  ∧ s ≠ "" ∧ t ≠ "".

Definition unresolved (g : CodeGenerator) (e : Edge) : Prop :=
  truthy_opt (id_to_class (parser g) !! Some (source_id e)) = false
  ∨ truthy_opt (id_to_class (parser g) !! Some (target_id e)) = false.

(** [lower-camel]: the class name with its first character lower-cased *)
Definition lower_camel_name (n : string) : string := default "" (lower_first n).

(** The name of a HAVE or PART_OF field for the class [n] *)
Definition plural_name (multiplicity n : string) : string :=
  if String.eqb multiplicity "*" then lower_camel_name n +:+ "s" else lower_camel_name n.

(** The possible effects of one successful call. *)
Inductive effect (g : CodeGenerator) (e : Edge) (g' : CodeGenerator) : Prop :=
| effect_none :
    (∀ s t, resolves g e s t → classify e ≠ "EXPANDS") →
    classes g' = classes g → effect g e g'
| effect_parent (s t : string) (cs : ClassDef) :
    resolves g e s t → classify e = "EXPANDS" → classes g !! s = Some cs →
    classes g' = <[s := set_extends cs t]> (classes g) → effect g e g'
| effect_field (s t owner other : string) (cd : ClassDef) (fname : string) (is_list : bool) :
    resolves g e s t → classify e ≠ "EXPANDS" →
    (owner = s ∧ other = t) ∨ (owner = t ∧ other = s) →
    classes g !! owner = Some cd →
    classes g' = <[owner := add_field cd other fname is_list]> (classes g) →
    effect g e g'.

(** The (source class, target class) pair of an edge that sets a parent *)
Definition expands_pair (p : DrawIOParser) (e : Edge) : option (string * string) :=
  if String.eqb (classify e) "EXPANDS" then
    match id_to_class p !! Some (source_id e), id_to_class p !! Some (target_id e) with
    | Some s, Some t => if truthy s && truthy t then Some (s, t) else None
    | _, _ => None
    end
  else None.

Definition set_parent (o : option (string * string)) (n : string)
    (cur : option (option string)) : option (option string) :=
  match o with
  | Some (s, t) => if decide (s = n) then Some (Some t) else cur
  | None => cur
  end.

(** The parent and the fields of the class named [n], when it exists *)
Definition parent_of (g : CodeGenerator) (n : string) : option (option string) :=
  extends <$> classes g !! n.

Definition fields_of (g : CodeGenerator) (n : string) : option (list Field) :=
  fields <$> classes g !! n.

Definition known (g : CodeGenerator) (n : string) : Prop := is_Some (classes g !! n).

Definition closed_class (g : CodeGenerator) (cd : ClassDef) : Prop :=
  (∀ p, extends cd = Some p → known g p)
  ∧ (∀ f, f ∈ fields cd → known g (field_type f)).

Definition closed_model (g : CodeGenerator) : Prop :=
  ∀ n cd, classes g !! n = Some cd → closed_class g cd.

(** Every resolved class name has its class definition. *)
Definition names_covered (g : CodeGenerator) : Prop :=
  ∀ k v, id_to_class (parser g) !! k = Some v → known g v.

Definition unique_field_names (g : CodeGenerator) : Prop :=
  ∀ n cd, classes g !! n = Some cd → NoDup (field_names cd).

(** A sequence of [add_field] calls on one class *)
Definition add_fields (cd : ClassDef) (ops : list Field) : ClassDef :=
  foldl (λ cd f, add_field cd (field_type f) (field_name f) (field_is_list f)) cd ops.

(** ** Concrete diagrams and edges *)

Definition depends_edge : Edge := mkEdge "a" "b" "Depends" "dashed=1;endArrow=classic".

Definition solid_arrow_edge : Edge := mkEdge "a" "b" "1" "endArrow=classic;html=1".


Definition account_cells : list Cell :=
  [ mkCell (Some "1") (Some "") (Some "rounded=0;whiteSpace=wrap;html=1")
           (Some (mkGeometry 0 0 100 50)) None None;
    mkCell (Some "2") (Some "user account") (Some "text;html=1")
           (Some (mkGeometry 10 10 0 0)) None None ].

Definition empty_box : Box := mkBox (Some "1") 0 0 100 50 "".

Definition crowded_cells : list Cell :=
  account_cells ++
  [ mkCell (Some "3") (Some "order") (Some "text;html=1")
           (Some (mkGeometry 20 20 0 0)) None None ].

Definition plain_box (id value : string) : Cell :=
  mkCell (Some id) (Some value) (Some "rounded=0;whiteSpace=wrap;html=1")
         (Some (mkGeometry 0 0 120 60)) None None.

Definition connector (source target value style : string) : Cell :=
  mkCell None (Some value) (Some style) None (Some source) (Some target).

Definition have_style : string := "endArrow=none;startArrow=oval;startFill=1".

Definition shop_cells : list Cell :=
  [ plain_box "c" "customer"; plain_box "o" "order";
    plain_box "i" "invoice"; plain_box "d" "document"; plain_box "p" "paper" ].

Definition shop : CodeGenerator := init_generator shop_cells.

Definition have_many : Edge := mkEdge "c" "o" "0..*" have_style.
Definition have_one : Edge := mkEdge "c" "o" "" have_style.
Definition depends_on : Edge := mkEdge "c" "i" "depends" "".
Definition part_of_one : Edge := mkEdge "o" "c" "" "endArrow=classic".
Definition part_of_many : Edge := mkEdge "o" "c" "*" "endArrow=block".
Definition expands_document : Edge := mkEdge "i" "d" "expands" "".
Definition expands_paper : Edge := mkEdge "i" "p" "" "dashed=1;endArrow=block".
Definition dangling : Edge := mkEdge "c" "zz" "" have_style.

Definition two_parents : list Edge := [expands_document; have_one; expands_paper].

Definition shop_after (es : list Edge) : CodeGenerator :=
  match process_all shop es with Ok g => g | Raise _ => shop end.

Definition two_haves : list Edge := [have_one; have_one].

(** ** What the parser stores *)

(** The edge a cell yields, if it yields one *)
Definition edge_of_cell (cell : Cell) : option Edge :=
  match cell_source cell, cell_target cell with
  | Some source, Some target =>
      if truthy source && truthy target
      then Some (mkEdge source target (strip (get_or_empty (cell_value cell)))
                        (get_or_empty (cell_style cell)))
      else None
  | _, _ => None
  end.

(** A cell the first loop of [parse] passes over: no geometry, or a source
    or target attribute *)
Definition not_shape (cell : Cell) : Prop :=
  cell_geometry cell = None ∨ cell_source cell ≠ None ∨ cell_target cell ≠ None.

(** A cell the edge loop of [parse] passes over *)
Definition not_edge (cell : Cell) : Prop :=
  truthy_opt (cell_source cell) && truthy_opt (cell_target cell) = false.

Definition starts_nonspace (s : string) : Prop :=
  match s with "" => True | String c _ => is_space c = false end.

(** No white space at either end *)
Definition stripped (s : string) : Prop := starts_nonspace s ∧ rstrip s = s.

(** The shape of a class name: not empty, no white space, not starting with
    a lower-case letter, unchanged by sanitization *)
Definition class_name_shape (n : string) : Prop :=
  n ≠ "" ∧ no_space n ∧ (∀ c r, n = String c r → is_lower c = false)
  ∧ sanitize_class_name n = n.

(** No key of the dict equals ([==]) a key stored after it. *)
Fixpoint distinct_keys (d : Labels) : Prop :=
  match d with
  | [] => True
  | (k, _) :: r => Forall (λ l, key_eqb k l.1 = false) r ∧ distinct_keys r
  end.

(** A diagram whose cell values are ASCII text *)
Definition ascii_cells (cells : list Cell) : Prop :=
  Forall (λ cell, ascii_text (get_or_empty (cell_value cell))) cells.

(** What [parse] keeps in its label dict and its box list *)
Definition clean_labels (d : Labels) : Prop :=
  Forall (λ l, l.2 ≠ "" ∧ stripped l.2) d.

Definition clean_boxes (bs : list Box) : Prop :=
  Forall (λ b, stripped (box_value b)) bs.

Definition scan_inv (acc : Labels * list Box) : Prop :=
  clean_labels acc.1 ∧ distinct_keys acc.1 ∧ clean_boxes acc.2.

(** A text cell: a shape whose style has the text marker and whose value is
    not blank; [k] is its origin and [v] its stripped value. *)
Definition label_cell (cell : Cell) (k : float * float) (v : string) : Prop :=
  (∃ geometry, cell_geometry cell = Some geometry ∧ k = (gx geometry, gy geometry))
  ∧ cell_source cell = None ∧ cell_target cell = None
  ∧ contains "text;" (get_or_empty (cell_style cell)) = true
  ∧ v = strip (get_or_empty (cell_value cell)) ∧ v ≠ "".

Definition dead_cell : Cell :=
  mkCell (Some "9") (Some "loose end") (Some "text;whiteSpace=wrap")
         (Some (mkGeometry 0 0 10 10)) (Some "") None.

Definition moved_label : Cell :=
  mkCell (Some "4") (Some " customer  ") (Some "text;html=1")
         (Some (mkGeometry 10 10 30 30)) None None.

(** ** What the edge loop prints, raises and keeps *)

(** The line [_process_relationship] prints for an edge, if it prints one *)
Definition line_of (p : DrawIOParser) (e : Edge) : option string :=
  match id_to_class p !! Some (source_id e), id_to_class p !! Some (target_id e) with
  | Some s, Some t =>
      if truthy s && truthy t
      then Some (relationship_line s (classify e) t (get_multiplicity e))
      else None
  | _, _ => None
  end.

(** An edge with an end that names no class, or of kind UNKNOWN *)
Definition inert (p : DrawIOParser) (e : Edge) : bool :=
  negb (truthy_opt (id_to_class p !! Some (source_id e)))
  || negb (truthy_opt (id_to_class p !! Some (target_id e)))
  || String.eqb (classify e) "UNKNOWN".

(** Two generator states with the same parser result and the same classes *)
Definition same_model (g1 g2 : CodeGenerator) : Prop :=
  parser g1 = parser g2 ∧ classes g1 = classes g2.

(** Two runs that end alike: with the same model, or with the same exception *)
Definition same_outcome (r1 r2 : result CodeGenerator) : Prop :=
  match r1, r2 with
  | Ok a, Ok b => same_model a b
  | Raise x, Raise y => x = y
  | _, _ => False
  end.

(** Every class definition sits under its own name. *)
Definition keyed_by_name (g : CodeGenerator) : Prop :=
  ∀ n cd, classes g !! n = Some cd → name cd = n.

Definition shop_diagram : list Cell :=
  shop_cells ++ [ connector "c" "o" "0..*" have_style; connector "i" "d" "expands" "" ].

Definition shop_model : CodeGenerator :=
  match generate shop_diagram with Ok g => g | Raise _ => shop end.

(** ** The emitted class *)

(** The name the model builder gives a field of type [type] *)
Definition field_name_for (type : string) (is_list : bool) : string :=
  if is_list then lower_camel_name type +:+ "s" else lower_camel_name type.

Definition well_named (g : CodeGenerator) : Prop :=
  ∀ n cd f, classes g !! n = Some cd → f ∈ fields cd →
    field_name f = field_name_for (field_type f) (field_is_list f).

(** The eight lines of the two accessors of a field *)
Definition accessor_lines (f : Field) : list string :=
  [ getter_line f; return_line f; "    }"; "";
    setter_line f; assign_line f; "    }"; "" ].

Definition initialiser_lines (f : Field) : list string :=
  if field_is_list f then [initialiser_line f] else [].

Definition customer_class : ClassDef :=
  mkClassDef "Customer" None [("Order", "orders", true)].

(** The box a cell yields, if it yields one *)
Definition box_of_cell (cell : Cell) : option Box :=
  match cell_geometry cell, cell_source cell, cell_target cell with
  | Some geometry, None, None =>
      let value := strip (get_or_empty (cell_value cell)) in
      let style := get_or_empty (cell_style cell) in
      if contains "text;" style && truthy value then None
      else if contains "whiteSpace=wrap" style
      then Some (mkBox (cell_id cell) (gx geometry) (gy geometry)
                       (gwidth geometry) (gheight geometry) value)
      else None
  | _, _, _ => None
  end.

(** A shape with the wrap marker in its style *)
Definition wrap_shape (cell : Cell) : Prop :=
  is_Some (cell_geometry cell) ∧ cell_source cell = None ∧ cell_target cell = None
  ∧ contains "whiteSpace=wrap" (get_or_empty (cell_style cell)) = true.

(** A box with a text of its own: a wrap shape without the text marker
    whose value is not blank; [v] is its stripped value. *)
Definition titled_box (cell : Cell) (v : string) : Prop :=
  wrap_shape cell
  ∧ contains "text;" (get_or_empty (cell_style cell)) = false
  ∧ v = strip (get_or_empty (cell_value cell)) ∧ v ≠ "".

Definition labelled_order : list Cell :=
  [ mkCell (Some "7") (Some "sales") (Some "text;html=1")
           (Some (mkGeometry 5 5 0 0)) None None;
    plain_box "7" " order item " ].

(** * Facts about Python text *)

Lemma app_cons c (a b : string) : String c a +:+ b = String c (a +:+ b).
Proof. reflexivity. Qed.

Lemma app_empty_l (a : string) : "" +:+ a = a.
Proof. reflexivity. Qed.

Lemma app_empty_r (a : string) : a +:+ "" = a.
Proof. induction a as [|c a IH]; [done|]. by rewrite app_cons, IH. Qed.

Lemma app_assoc3 (a b c : string) : (a +:+ b) +:+ c = a +:+ b +:+ c.
Proof. induction a as [|x a IH]; [done|]. by rewrite !app_cons, IH. Qed.

Lemma upper_char_idemp c : upper_char (upper_char c) = upper_char c.
Proof. by destruct c as [[] [] [] [] [] [] [] []]. Qed.

Lemma lower_upper_char c : lower_char (upper_char c) = lower_char c.
Proof. by destruct c as [[] [] [] [] [] [] [] []]. Qed.

Lemma is_space_upper_char c : is_space (upper_char c) = is_space c.
Proof. by destruct c as [[] [] [] [] [] [] [] []]. Qed.

Lemma is_space_lower_char c : is_space (lower_char c) = is_space c.
Proof. by destruct c as [[] [] [] [] [] [] [] []]. Qed.

Lemma lower_app (a b : string) : lower (a +:+ b) = lower a +:+ lower b.
Proof. induction a as [|c a IH]; [done|]. rewrite app_cons. simpl. by rewrite IH. Qed.

Lemma lower_app_inv (s a b : string) :
  lower s = a +:+ b → ∃ s1 s2, s = s1 +:+ s2 ∧ lower s1 = a ∧ lower s2 = b.
Proof.
  revert s. induction a as [|c a IH]; intros s Hs.
  - rewrite app_empty_l in Hs. exists "", s. by repeat split.
  - destruct s as [|d s]; [done|]. rewrite app_cons in Hs. simpl in Hs.
    injection Hs as Hc Hs. destruct (IH _ Hs) as (s1 & s2 & -> & <- & <-).
    exists (String d s1), s2. simpl. by rewrite Hc.
Qed.

Lemma prefix_spec (n h : string) :
  String.prefix n h = true ↔ ∃ post, h = n +:+ post.
Proof.
  revert h. induction n as [|c n IH]; intros h.
  - split; [by exists h | by destruct h].
  - destruct h as [|d h]; simpl.
    + split; [done | by intros [? ?]].
    + destruct (ascii_dec c d) as [->|Hne].
      * rewrite IH. split; intros [post Hp]; exists post.
        -- by rewrite app_cons, Hp.
        -- rewrite app_cons in Hp. by injection Hp.
      * split; [done|]. intros [post Hp]. rewrite app_cons in Hp.
        injection Hp as Hc _. by destruct Hne.
Qed.

Lemma contains_empty (n : string) : contains n "" = String.prefix n "".
Proof. unfold contains. apply orb_false_r. Qed.

Lemma contains_cons (n : string) d (h : string) :
  contains n (String d h) = String.prefix n (String d h) || contains n h.
Proof. reflexivity. Qed.

(** [needle in hay] is the substring test. *)
Lemma contains_spec (n h : string) :
  contains n h = true ↔ ∃ pre post, h = pre +:+ n +:+ post.
Proof.
  induction h as [|d h IH]; [rewrite contains_empty | rewrite contains_cons].
  - rewrite prefix_spec. split.
    + intros [post Hp]. by exists "", post.
    + intros (pre & post & Hp). destruct pre; [by exists post|done].
  - rewrite orb_true_iff, prefix_spec, IH. split.
    + intros [[post Hp] | (pre & post & Hp)].
      * by exists "", post.
      * exists (String d pre), post. by rewrite app_cons, Hp.
    + intros (pre & post & Hp). destruct pre as [|c pre].
      * left. by exists post.
      * right. rewrite app_cons in Hp. injection Hp as _ Hp. by exists pre, post.
Qed.

(** The classifier's test [needle in s.lower()] is the case-insensitive
    substring test. *)
Lemma contains_lower (n s : string) :
  contains n (lower s) = true ↔ occurs_nocase n s.
Proof.
  rewrite contains_spec. split.
  - intros (pre & post & Hs).
    destruct (lower_app_inv _ _ _ Hs) as (s1 & s2 & -> & _ & H2).
    destruct (lower_app_inv _ _ _ H2) as (w & s3 & -> & Hw & _).
    by exists s1, w, s3.
  - intros (pre & w & post & -> & <-).
    exists (lower pre), (lower post). by rewrite !lower_app.
Qed.

Lemma contains_lower_false (n s : string) :
  contains n (lower s) = false ↔ ¬ occurs_nocase n s.
Proof. rewrite <- contains_lower. by destruct (contains n (lower s)). Qed.

(** * The relationship classifier *)

Ltac case_contains :=
  repeat match goal with
         | |- context [contains ?n ?h] => destruct (contains n h); simpl
         end.

Lemma classify_first_match (e : Edge) : classify e = first_match rules e.
Proof.
  unfold classify, rules, first_match, label_expands, label_depends,
    filled_terminator, dashed_open_or_block, dashed_classic,
    solid_classic_or_block, in_label, in_style.
  by case_contains.
Qed.

Lemma classify_kind (e : Edge) : In (classify e) kinds.
Proof. unfold classify, kinds. case_contains; simpl; tauto. Qed.

Lemma classify_label_depends (e : Edge) :
  label_expands e = false → label_depends e = true → classify e = "DEPENDS".
Proof.
  unfold label_expands, label_depends, in_label, classify. by intros -> ->.
Qed.

(** C1, as the code has it.  [classify] is a function of the edge's label
    and style alone; its value is one of the five kinds (which are pairwise
    distinct), it is the first match of the precedence table, and an edge
    whose label contains "depends" in some letter case, and does not contain
    "expands" in any letter case, is DEPENDS whatever its style is. *)
Theorem classify_total_with_precedence (e : Edge) :
  (∀ e', label e' = label e → style e' = style e → classify e' = classify e)
  ∧ In (classify e) kinds ∧ NoDup kinds
  ∧ classify e = first_match rules e
  ∧ (occurs_nocase "depends" (label e) → ¬ occurs_nocase "expands" (label e) →
     ∀ st, classify (mkEdge (source_id e) (target_id e) (label e) st) = "DEPENDS").
Proof.
  split; [|split; [|split; [|split]]].
  - intros e' Hl Hs. unfold classify. by rewrite Hl, Hs.
  - apply classify_kind.
  - unfold kinds. compute_done.
  - apply classify_first_match.
  - intros Hdep Hexp st. apply classify_label_depends.
    + by apply contains_lower_false.
    + by apply contains_lower.
Qed.

Lemma classify_total_with_precedence_witness :
  classify (mkEdge "a" "b" "Depends" "dashed=1;endArrow=classic") = "DEPENDS".
Proof.
  apply (classify_total_with_precedence depends_edge).
  - apply contains_lower. vm_compute. reflexivity.
  - apply contains_lower_false. vm_compute. reflexivity.
Defined.

(** C1 as stated fails: a label may contain both words, and rule 1 comes
    first. *)
Lemma classify_depends_label_counterexample :
  ¬ (∀ e, occurs_nocase "depends" (label e) → classify e = "DEPENDS").
Proof.
  intros H.
  specialize (H (mkEdge "a" "b" "expands, depends on" "dashed=1;endArrow=classic")).
  assert (Hocc : occurs_nocase "depends" "expands, depends on").
  { apply contains_lower. vm_compute. reflexivity. }
  specialize (H Hocc). vm_compute in H. discriminate H.
Qed.

Lemma contains_trans (a b c : string) :
  contains a b = true → contains b c = true → contains a c = true.
Proof.
  rewrite !contains_spec. intros (p1 & q1 & ->) (p2 & q2 & ->).
  exists (p2 +:+ p1), (q1 +:+ q2). by rewrite !app_assoc3.
Qed.

Lemma in_style_endarrow (e : Edge) :
  in_style "endarrow=classic" e || in_style "endarrow=block" e = true →
  in_style "endarrow" e = true.
Proof.
  unfold in_style. intros [H|H]%orb_true_iff;
    (eapply contains_trans; [|exact H]); by vm_compute.
Qed.

(** C2, as the code has it.  When no earlier rule applies, a style that
    contains "endarrow=classic" or "endarrow=block" and does not contain the
    word "dashed" at all (in any letter case) is PART_OF. *)
Theorem classify_part_of (e : Edge) :
  ¬ occurs_nocase "expands" (label e) →
  ¬ occurs_nocase "depends" (label e) →
  filled_terminator e = false →
  dashed_open_or_block e = false →
  dashed_classic e = false →
  ¬ occurs_nocase "dashed" (style e) →
  occurs_nocase "endarrow=classic" (style e) ∨ occurs_nocase "endarrow=block" (style e) →
  classify e = "PART_OF".
Proof.
  intros Hexp Hdep Hfill Hd1 Hd2 Hsolid Harrow.
  apply contains_lower_false in Hexp, Hdep, Hsolid.
  assert (Ha : in_style "endarrow=classic" e || in_style "endarrow=block" e = true).
  { apply orb_true_iff. unfold in_style. rewrite !contains_lower. exact Harrow. }
  rewrite classify_first_match. unfold rules, first_match.
  unfold label_expands, label_depends, in_label. rewrite Hexp, Hdep, Hfill, Hd1, Hd2.
  unfold solid_classic_or_block. rewrite (in_style_endarrow e Ha), Ha.
  unfold in_style. by rewrite Hsolid.
Qed.

Lemma classify_part_of_witness : classify solid_arrow_edge = "PART_OF".
Proof.
  apply classify_part_of.
  - apply contains_lower_false. vm_compute. reflexivity.
  - apply contains_lower_false. vm_compute. reflexivity.
  - vm_compute. reflexivity.
  - vm_compute. reflexivity.
  - vm_compute. reflexivity.
  - apply contains_lower_false. vm_compute. reflexivity.
  - left. apply contains_lower. vm_compute. reflexivity.
Defined.

(** C2 as stated fails: a style that says "dashed=0" is not dashed in the
    sense of rule 4, has a classic end-arrow, and is UNKNOWN. *)
Lemma classify_part_of_counterexample :
  ∃ e, ¬ occurs_nocase "expands" (label e)
     ∧ ¬ occurs_nocase "depends" (label e)
     ∧ filled_terminator e = false
     ∧ dashed_open_or_block e = false
     ∧ dashed_classic e = false
     ∧ occurs_nocase "dashed=0" (style e)
     ∧ ¬ occurs_nocase "dashed=1" (style e)
     ∧ occurs_nocase "endarrow=classic" (style e)
     ∧ classify e = "UNKNOWN"
     ∧ classify e ≠ "PART_OF".
Proof.
  exists (mkEdge "a" "b" "" "dashed=0;endArrow=classic;html=1").
  rewrite <- !contains_lower_false, <- !contains_lower.
  vm_compute. by repeat split.
Qed.

(** * Name sanitization *)

(** ** What [split] returns *)

Lemma split_scan_cons c (r : string) :
  split_scan (String c r) =
    if is_space c then (false, split r)
    else match fst (split_scan r), split r with
         | true, w :: ws => (true, String c w :: ws)
         | _, _ => (true, String c "" :: split r)
         end.
Proof. unfold split. simpl. by destruct (split_scan r) as [[] [|w ws]]. Qed.

Lemma split_scan_inside c (r : string) :
  fst (split_scan (String c r)) = negb (is_space c).
Proof.
  rewrite split_scan_cons.
  by destruct (is_space c), (fst (split_scan r)), (split r).
Qed.

Lemma split_space c (r : string) : is_space c = true → split (String c r) = split r.
Proof. intros Hc. unfold split at 1. by rewrite split_scan_cons, Hc. Qed.

(** A run of non-space characters that ends at white space or at the end of
    the text is the next word. *)
Lemma split_token (w r : string) :
  token w → (r = "" ∨ ∃ c r', r = String c r' ∧ is_space c = true) →
  split (w +:+ r) = w :: split r.
Proof.
  intros [Hne Hw] Hr. induction w as [|c w IH]; [done|].
  apply Forall_cons in Hw as [Hc Hw]. rewrite app_cons.
  unfold split at 1. rewrite split_scan_cons, Hc.
  destruct w as [|d w].
  - rewrite app_empty_l. destruct Hr as [->|(d & r' & -> & Hd)]; [done|].
    by rewrite split_scan_inside, Hd.
  - rewrite IH by done. rewrite app_cons, split_scan_inside.
    apply Forall_cons in Hw as [-> _]. done.
Qed.

Lemma split_tokens (s : string) : Forall token (split s).
Proof.
  induction s as [|c r IH]; [constructor|].
  unfold split at 1. rewrite split_scan_cons.
  destruct (is_space c) eqn:Hc; [done|].
  destruct (fst (split_scan r)), (split r) as [|w ws]; simpl;
    repeat match goal with
           | H : Forall _ (_ :: _) |- _ => apply Forall_cons in H as [[? ?] ?]
           | |- Forall _ (_ :: _) => apply Forall_cons; split
           | |- token _ => split; [done|]
           | |- no_space _ => apply Forall_cons; split
           end; try done; by constructor.
Qed.

Lemma join_split (s : string) : join (split s) = remove_spaces s.
Proof.
  induction s as [|c r IH]; [done|].
  unfold split at 1. rewrite split_scan_cons. simpl.
  destruct (is_space c); [done|].
  destruct (fst (split_scan r)), (split r) as [|w ws]; simpl in *;
    rewrite ?app_cons, ?app_empty_l; by rewrite IH.
Qed.

Lemma split_one_token (s : string) : token s → split s = [s].
Proof.
  intros Hs. rewrite <- (app_empty_r s) at 1. rewrite split_token; auto.
Qed.

Lemma split_upper_first_length (s : string) :
  length (split (upper_first s)) = length (split s).
Proof.
  destruct s as [|c r]; [done|]. unfold split, upper_first.
  rewrite !split_scan_cons, is_space_upper_char.
  by destruct (is_space c), (fst (split_scan r)), (split r).
Qed.

(** ** Capitalised words *)

Lemma no_space_app (a b : string) : no_space a → no_space b → no_space (a +:+ b).
Proof.
  intros Ha Hb. induction a as [|c a IH]; [done|].
  apply Forall_cons in Ha as [Hc Ha]. rewrite app_cons.
  apply Forall_cons. split; [done|]. by apply IH.
Qed.

Lemma no_space_lower (s : string) : no_space s → no_space (lower s).
Proof.
  induction s as [|c s IH]; [done|]. intros [Hc Hs]%Forall_cons.
  apply Forall_cons. rewrite is_space_lower_char. split; [done|]. by apply IH.
Qed.

Lemma token_capitalize (w : string) : token w → token (capitalize w).
Proof.
  intros [Hne Hw]. destruct w as [|c w]; [done|].
  apply Forall_cons in Hw as [Hc Hw]. split; [done|].
  apply Forall_cons. rewrite is_space_upper_char. split; [done|].
  by apply no_space_lower.
Qed.

Lemma no_space_join (ws : list string) : Forall token ws → no_space (join ws).
Proof.
  induction 1 as [|w ws [_ Hw] _ IH]; [constructor|]. by apply no_space_app.
Qed.

Lemma lower_capitalize (w : string) : lower (capitalize w) = lower w.
Proof.
  destruct w as [|c w]; [done|]. simpl. rewrite lower_upper_char. f_equal.
  induction w as [|d w IH]; [done|]. simpl. rewrite IH. f_equal.
  by destruct d as [[] [] [] [] [] [] [] []].
Qed.

Lemma lower_join_capitalize (ws : list string) :
  lower (join (map capitalize ws)) = lower (join ws).
Proof.
  induction ws as [|w ws IH]; [done|]. simpl.
  by rewrite !lower_app, lower_capitalize, IH.
Qed.

Lemma upper_first_capitalize_join (w : string) (ws : list string) :
  w ≠ "" →
  upper_first (join (map capitalize (w :: ws))) = join (map capitalize (w :: ws)).
Proof.
  destruct w as [|c w]; [done|]. intros _. simpl. rewrite app_cons. simpl.
  by rewrite upper_char_idemp.
Qed.

(** ** The sanitization rule *)

Lemma upper_char_of_upper c : is_upper c = true → upper_char c = c.
Proof. by destruct c as [[] [] [] [] [] [] [] []]. Qed.

Lemma keeps_upper_upper_first (x : string) : keeps_upper x (upper_first x).
Proof.
  intros u Hu Hin. destruct x as [|c r]; [done|]. simpl in *.
  destruct Hin as [->|Hin]; [left; by apply upper_char_of_upper | by right].
Qed.

Lemma sanitize_words (x : string) :
  (1 < length (split x))%nat → sanitize_class_name x = join (map capitalize (split x)).
Proof.
  intros H%Nat.ltb_lt. unfold sanitize_class_name. by rewrite H.
Qed.

Lemma sanitize_one_word (x : string) :
  (length (split x) ≤ 1)%nat → sanitize_class_name x = upper_first x.
Proof.
  intros H. unfold sanitize_class_name.
  destruct (Nat.ltb_spec 1 (length (split x))); [lia|]. by destruct x.
Qed.

(** ** Text of any script *)

Lemma assoc_In c (t : list (N * list N)) (l : list N) :
  Unicode.assoc c t = Some l → In (c, l) t.
Proof.
  induction t as [|[k v] t IH]; [done|]. simpl.
  destruct (N.eqb_spec k c) as [->|_]; [intros [= ->]; by left | right; auto].
Qed.

(** Three checks run over the whole tables: no case mapping is defined on,
    or yields, a white-space character; none yields the empty text; and the
    first character of an upper-case mapping is its own upper case. *)
Lemma lower_table_ok :
  forallb (λ e, negb (Unicode.is_space e.1)
                && forallb (λ d, negb (Unicode.is_space d)) e.2)
          Unicode.lower_table = true.
Proof. vm_compute. reflexivity. Qed.

Lemma upper_table_ok :
  forallb (λ e, negb (Unicode.is_space e.1)
                && forallb (λ d, negb (Unicode.is_space d)) e.2
                && match e.2 with
                   | u :: _ => bool_decide (Unicode.to_upper u = [u])
                   | [] => false
                   end)
          Unicode.upper_table = true.
Proof. vm_compute. reflexivity. Qed.

Lemma title_table_ok :
  forallb (λ e, negb (Unicode.is_space e.1)
                && forallb (λ d, negb (Unicode.is_space d)) e.2
                && match e.2 with _ :: _ => true | [] => false end)
          Unicode.title_table = true.
Proof. vm_compute. reflexivity. Qed.

Lemma no_space_forallb (l : list N) :
  forallb (λ d, negb (Unicode.is_space d)) l = true → Unicode.no_space l.
Proof.
  intros H. apply Forall_forall. intros d Hd%list_elem_of_In.
  rewrite forallb_forall in H. specialize (H d Hd). by destruct (Unicode.is_space d).
Qed.

Lemma to_lower_no_space c :
  Unicode.is_space c = false → Unicode.no_space (Unicode.to_lower c).
Proof.
  intros Hc. unfold Unicode.to_lower.
  destruct (Unicode.assoc c Unicode.lower_table) as [l|] eqn:Hl; simpl.
  - apply assoc_In in Hl. pose proof lower_table_ok as Hok.
    rewrite forallb_forall in Hok. specialize (Hok _ Hl). simpl in Hok.
    apply andb_true_iff in Hok as [_ Hok]. by apply no_space_forallb.
  - by apply Forall_singleton.
Qed.

Lemma to_upper_spec c :
  ∃ u r, Unicode.to_upper c = u :: r ∧ Unicode.to_upper u = [u]
    ∧ (Unicode.is_space c = false → Unicode.no_space (u :: r))
    ∧ (Unicode.is_space c = true → Unicode.to_upper c = [c]).
Proof.
  unfold Unicode.to_upper at 1 3.
  destruct (Unicode.assoc c Unicode.upper_table) as [l|] eqn:Hl; simpl.
  - apply assoc_In in Hl. pose proof upper_table_ok as Hok.
    rewrite forallb_forall in Hok. specialize (Hok _ Hl). simpl in Hok.
    apply andb_true_iff in Hok as [[Hkey Hout]%andb_true_iff Hhead].
    destruct l as [|u r]; [done|]. apply bool_decide_eq_true in Hhead.
    exists u, r. split; [done|]. split; [done|]. split.
    + intros _. by apply no_space_forallb.
    + intros Hc. by rewrite Hc in Hkey.
  - exists c, []. split; [done|]. split.
    + unfold Unicode.to_upper. by rewrite Hl.
    + split; [|done]. intros Hc. by apply Forall_singleton.
Qed.

Lemma to_title_spec c :
  ∃ t r, Unicode.to_title c = t :: r
    ∧ (Unicode.is_space c = false → Unicode.no_space (t :: r)).
Proof.
  unfold Unicode.to_title.
  destruct (Unicode.assoc c Unicode.title_table) as [l|] eqn:Hl.
  - apply assoc_In in Hl. pose proof title_table_ok as Hok.
    rewrite forallb_forall in Hok. specialize (Hok _ Hl). simpl in Hok.
    apply andb_true_iff in Hok as [[Hkey Hout]%andb_true_iff Hne].
    destruct l as [|t r]; [done|]. exists t, r. split; [done|].
    intros _. by apply no_space_forallb.
  - destruct (to_upper_spec c) as (u & r & Hu & _ & Hns & _). by exists u, r.
Qed.

Lemma lower_from_no_space (before s : Unicode.str) :
  Unicode.no_space s → Unicode.no_space (Unicode.lower_from before s).
Proof.
  intros Hs. revert before. induction Hs as [|c s Hc Hs IH]; intros before; [constructor|].
  simpl. apply Forall_app. split; [|apply IH].
  destruct (N.eqb c 931); [|by apply to_lower_no_space].
  apply Forall_singleton. by destruct (Unicode.final_sigma before s).
Qed.

(** *** Words *)

Lemma usplit_scan_cons c (r : Unicode.str) :
  Unicode.split_scan (c :: r) =
    if Unicode.is_space c then (false, Unicode.split r)
    else match fst (Unicode.split_scan r), Unicode.split r with
         | true, w :: ws => (true, (c :: w) :: ws)
         | _, _ => (true, [c] :: Unicode.split r)
         end.
Proof.
  unfold Unicode.split. simpl. by destruct (Unicode.split_scan r) as [[] [|w ws]].
Qed.




Lemma usplit_tokens (s : Unicode.str) :
  Forall (λ w, w ≠ [] ∧ Unicode.no_space w) (Unicode.split s).
Proof.
  induction s as [|c r IH]; [constructor|].
  unfold Unicode.split at 1. rewrite usplit_scan_cons.
  destruct (Unicode.is_space c) eqn:Hc; [done|].
  destruct (fst (Unicode.split_scan r)), (Unicode.split r) as [|w ws]; simpl;
    repeat match goal with
           | H : Forall _ (_ :: _) |- _ => apply Forall_cons in H as [[? ?] ?]
           | |- Forall _ (_ :: _) => apply Forall_cons; split
           | |- _ ∧ _ => split; [done|]
           | |- Unicode.no_space (_ :: _) => apply Forall_cons; split
           end; try done; by constructor.
Qed.


Lemma ucapitalize_token (w : Unicode.str) :
  w ≠ [] → Unicode.no_space w →
  Unicode.capitalize w ≠ [] ∧ Unicode.no_space (Unicode.capitalize w).
Proof.
  intros Hne Hw. destruct w as [|c w]; [done|]. apply Forall_cons in Hw as [Hc Hw].
  simpl. destruct (to_title_spec c) as (t & r & -> & Hns). split; [done|].
  apply Forall_app. split; [by apply Hns | by apply lower_from_no_space].
Qed.

Lemma no_space_concat (ws : list Unicode.str) :
  Forall Unicode.no_space ws → Unicode.no_space (concat ws).
Proof. induction 1 as [|w ws Hw _ IH]; [constructor|]. simpl. by apply Forall_app. Qed.

Lemma usanitize_words (x : Unicode.str) :
  (1 < length (Unicode.split x))%nat →
  Unicode.sanitize_class_name x = concat (map Unicode.capitalize (Unicode.split x)).
Proof. intros H%Nat.ltb_lt. unfold Unicode.sanitize_class_name. by rewrite H. Qed.

Lemma usanitize_one_word (x : Unicode.str) :
  (length (Unicode.split x) ≤ 1)%nat →
  Unicode.sanitize_class_name x = Unicode.upper_first x.
Proof.
  intros H. unfold Unicode.sanitize_class_name.
  destruct (Nat.ltb_spec 1 (length (Unicode.split x))); [lia|]. by destruct x.
Qed.

Lemma usanitize_words_token (x : Unicode.str) :
  (1 < length (Unicode.split x))%nat →
  Unicode.sanitize_class_name x ≠ [] ∧ Unicode.no_space (Unicode.sanitize_class_name x).
Proof.
  intros Hlt. rewrite (usanitize_words x Hlt). pose proof (usplit_tokens x) as Htok.
  split.
  - destruct (Unicode.split x) as [|w ws]; [simpl in Hlt; lia|].
    apply Forall_cons in Htok as [[Hne Hw] _].
    destruct (ucapitalize_token w Hne Hw) as [Hc _]. simpl.
    by destruct (Unicode.capitalize w).
  - apply no_space_concat, Forall_fmap. eapply Forall_impl; [exact Htok|].
    intros w [Hne Hw]. by apply ucapitalize_token.
Qed.

(** *** Sanitizing twice *)



(** *** ASCII text *)

Lemma ascii_code c :
  is_ascii c = true →
  Unicode.is_space (N_of_ascii c) = is_space c
  ∧ Unicode.to_upper (N_of_ascii c) = [N_of_ascii (upper_char c)]
  ∧ Unicode.to_title (N_of_ascii c) = [N_of_ascii (upper_char c)]
  ∧ Unicode.to_lower (N_of_ascii c) = [N_of_ascii (lower_char c)]
  ∧ N.eqb (N_of_ascii c) 931 = false
  ∧ is_ascii (upper_char c) = true ∧ is_ascii (lower_char c) = true.
Proof.
  destruct c as [[] [] [] [] [] [] [] []]; intros H; try discriminate H;
    vm_compute; repeat split.
Qed.

Lemma of_string_app (a b : string) : of_string (a +:+ b) = of_string a ++ of_string b.
Proof. induction a as [|c a IH]; [done|]. rewrite app_cons. simpl. by rewrite IH. Qed.

Lemma of_string_join (ws : list string) : of_string (join ws) = concat (map of_string ws).
Proof. induction ws as [|w ws IH]; [done|]. simpl. by rewrite of_string_app, IH. Qed.

Lemma ascii_text_cons c (s : string) :
  ascii_text (String c s) ↔ is_ascii c = true ∧ ascii_text s.
Proof. unfold ascii_text. simpl. apply (Forall_cons (λ d, is_ascii d = true)). Qed.

Lemma ascii_text_app (a b : string) : ascii_text (a +:+ b) ↔ ascii_text a ∧ ascii_text b.
Proof.
  induction a as [|c a IH].
  - rewrite app_empty_l. split; [by split; [constructor|] | by intros [_ ?]].
  - rewrite app_cons, !ascii_text_cons, IH. tauto.
Qed.

Lemma ascii_text_join (ws : list string) : Forall ascii_text ws → ascii_text (join ws).
Proof.
  induction 1 as [|w ws Hw _ IH]; [constructor|]. simpl. by apply ascii_text_app.
Qed.

Lemma ascii_text_lower (s : string) : ascii_text s → ascii_text (lower s).
Proof.
  induction s as [|c s IH]; [done|]. simpl. rewrite !ascii_text_cons.
  intros [Hc Hs]. split; [by apply ascii_code | by apply IH].
Qed.

Lemma ascii_text_capitalize (w : string) : ascii_text w → ascii_text (capitalize w).
Proof.
  destruct w as [|c w]; [done|]. simpl. rewrite !ascii_text_cons.
  intros [Hc Hw]. split; [by apply ascii_code | by apply ascii_text_lower].
Qed.

Lemma ascii_text_upper_first (s : string) : ascii_text s → ascii_text (upper_first s).
Proof.
  destruct s as [|c s]; [done|]. simpl. rewrite !ascii_text_cons.
  intros [Hc Hs]. split; [by apply ascii_code | done].
Qed.

Lemma ascii_text_split (s : string) : ascii_text s → Forall ascii_text (split s).
Proof.
  induction s as [|c r IH]; [constructor|]. intros [Hc Hr]%ascii_text_cons.
  specialize (IH Hr). unfold split at 1. rewrite split_scan_cons.
  destruct (is_space c); [done|].
  destruct (fst (split_scan r)), (split r) as [|w ws]; simpl;
    repeat match goal with
           | H : Forall _ (_ :: _) |- _ => apply Forall_cons in H as [? ?]
           | |- Forall _ (_ :: _) => apply Forall_cons; split
           | |- ascii_text (String _ _) => apply ascii_text_cons; split
           end; try done; by constructor.
Qed.

Lemma ascii_text_sanitize (s : string) :
  ascii_text s → ascii_text (sanitize_class_name s).
Proof.
  intros Hs. unfold sanitize_class_name.
  destruct (1 <? length (split s))%nat.
  - apply ascii_text_join, Forall_fmap.
    eapply Forall_impl; [by apply ascii_text_split|]. apply ascii_text_capitalize.
  - destruct (truthy s); [by apply ascii_text_upper_first|constructor].
Qed.

(** On ASCII text the two models of [split], [capitalize] and of the
    sanitization are the same function. *)
Lemma split_scan_ascii (s : string) :
  ascii_text s →
  Unicode.split_scan (of_string s) = ((split_scan s).1, map of_string (split s)).
Proof.
  induction s as [|c r IH]; [done|]. intros [Hc Hr]%ascii_text_cons.
  specialize (IH Hr). change (of_string (String c r)) with (N_of_ascii c :: of_string r).
  change (split (String c r)) with (snd (split_scan (String c r))).
  rewrite usplit_scan_cons, split_scan_cons. unfold Unicode.split. rewrite IH.
  destruct (ascii_code c Hc) as (-> & _). simpl.
  destruct (is_space c); [done|].
  by destruct (fst (split_scan r)), (split r).
Qed.

Lemma split_ascii (s : string) :
  ascii_text s → Unicode.split (of_string s) = map of_string (split s).
Proof. intros Hs. unfold Unicode.split. by rewrite split_scan_ascii. Qed.

Lemma lower_from_ascii (before : Unicode.str) (s : string) :
  ascii_text s → Unicode.lower_from before (of_string s) = of_string (lower s).
Proof.
  revert before. induction s as [|c r IH]; intros before; [done|].
  intros [Hc Hr]%ascii_text_cons. simpl.
  destruct (ascii_code c Hc) as (_ & _ & _ & -> & -> & _). simpl. by rewrite IH.
Qed.

Lemma capitalize_ascii (w : string) :
  ascii_text w → Unicode.capitalize (of_string w) = of_string (capitalize w).
Proof.
  destruct w as [|c w]; [done|]. intros [Hc Hw]%ascii_text_cons. simpl.
  destruct (ascii_code c Hc) as (_ & _ & -> & _). simpl. by rewrite lower_from_ascii.
Qed.

Lemma capitalize_words_ascii (ws : list string) :
  Forall ascii_text ws →
  concat (map Unicode.capitalize (map of_string ws)) = of_string (join (map capitalize ws)).
Proof.
  induction 1 as [|w ws Hw _ IH]; [done|]. simpl.
  by rewrite of_string_app, capitalize_ascii, IH.
Qed.

Lemma sanitize_ascii (s : string) :
  ascii_text s →
  Unicode.sanitize_class_name (of_string s) = of_string (sanitize_class_name s).
Proof.
  intros Hs. unfold Unicode.sanitize_class_name, sanitize_class_name.
  rewrite (split_ascii s Hs), length_map.
  destruct (1 <? length (split s))%nat.
  - apply capitalize_words_ascii. by apply ascii_text_split.
  - destruct s as [|c r]; [done|]. apply ascii_text_cons in Hs as [Hc _]. simpl.
    by destruct (ascii_code c Hc) as (_ & -> & _).
Qed.

Lemma sanitize_words_token (x : string) :
  (1 < length (split x))%nat → token (sanitize_class_name x).
Proof.
  intros Hlt. rewrite (sanitize_words x Hlt).
  pose proof (split_tokens x) as Htok.
  destruct (split x) as [|w ws]; [simpl in Hlt; lia|]. split.
  - apply Forall_cons in Htok as [[Hw _] _].
    destruct w as [|c w]; [done|]. simpl. by rewrite app_cons.
  - apply no_space_join, Forall_fmap.
    eapply Forall_impl; [exact Htok|]. apply token_capitalize.
Qed.

Lemma sanitize_idemp (x : string) :
  sanitize_class_name (sanitize_class_name x) = sanitize_class_name x.
Proof.
  destruct (Nat.ltb_spec 1 (length (split x))) as [Hlt|Hle].
  - pose proof (sanitize_words_token x Hlt) as Hj.
    rewrite sanitize_one_word by (rewrite (split_one_token _ Hj); simpl; lia).
    rewrite (sanitize_words x Hlt). pose proof (split_tokens x) as Htok.
    destruct (split x) as [|w ws]; [simpl in Hlt; lia|].
    apply upper_first_capitalize_join. by apply Forall_cons in Htok as [[? _] _].
  - rewrite (sanitize_one_word x Hle).
    rewrite sanitize_one_word by (rewrite split_upper_first_length; lia).
    destruct x as [|c r]; [done|]. simpl. by rewrite upper_char_idemp.
Qed.


(** C4, as the code has it.  On any text: with more than one word the
    result is the words, each capitalised as [str.capitalize] does (first
    character title-cased, the others lower-cased), joined without
    separator, and it has no white space; with at most one word the result
    is the input with its first character upper-cased and the rest as it
    is.  The empty text gives the empty text.  On ASCII text the byte model
    computes the same function; there the first character of a capitalised
    word is upper-cased, the result agrees with the input, white space
    deleted, up to letter case, and with at most one word nothing is
    lower-cased. *)
Theorem sanitize_class_name_rule (x : Unicode.str) (s : string) :
  ((1 < length (Unicode.split x))%nat →
     Unicode.sanitize_class_name x = concat (map Unicode.capitalize (Unicode.split x))
     ∧ Unicode.no_space (Unicode.sanitize_class_name x))
  ∧ (∀ c w, Unicode.capitalize (c :: w) = Unicode.to_title c ++ Unicode.lower_from [c] w)
  ∧ (length (Unicode.split x) = 1%nat →
     ∃ c r, x = c :: r ∧ Unicode.sanitize_class_name x = Unicode.to_upper c ++ r)
  ∧ ((length (Unicode.split x) ≤ 1)%nat →
     Unicode.sanitize_class_name x = Unicode.upper_first x)
  ∧ Unicode.sanitize_class_name [] = []
  ∧ (ascii_text s →
     Unicode.sanitize_class_name (of_string s) = of_string (sanitize_class_name s)
     ∧ ((1 < length (split s))%nat →
          sanitize_class_name s = join (map capitalize (split s))
          ∧ no_space (sanitize_class_name s)
          ∧ lower (sanitize_class_name s) = lower (remove_spaces s))
     ∧ (length (split s) = 1%nat →
          ∃ c r, s = String c r ∧ sanitize_class_name s = String (upper_char c) r)
     ∧ ((length (split s) ≤ 1)%nat →
          sanitize_class_name s = upper_first s ∧ keeps_upper s (sanitize_class_name s)))
  ∧ Unicode.sanitize_class_name (of_string "order item") = of_string "OrderItem"
  ∧ Unicode.sanitize_class_name (of_string "order") = of_string "Order"
  ∧ Unicode.sanitize_class_name (of_string "iPhone") = of_string "IPhone".
Proof.
  split; [|split; [done|split; [|split; [|split; [done|split]]]]].
  - intros H. split; [by apply usanitize_words | by apply usanitize_words_token].
  - intros H. rewrite usanitize_one_word by lia.
    destruct x as [|c r]; [done|]. by exists c, r.
  - apply usanitize_one_word.
  - intros Hs. split; [by apply sanitize_ascii|]. split; [|split].
    + intros H. rewrite (sanitize_words s H). split; [done|]. split.
      * apply no_space_join, Forall_fmap.
        eapply Forall_impl; [apply split_tokens|]. apply token_capitalize.
      * by rewrite lower_join_capitalize, join_split.
    + intros H. rewrite sanitize_one_word by lia.
      destruct s as [|c r]; [done|]. by exists c, r.
    + intros H. rewrite (sanitize_one_word s H). split; [done|].
      apply keeps_upper_upper_first.
  - by vm_compute.
Qed.

Lemma sanitize_class_name_rule_witness :
  Unicode.sanitize_class_name (of_string "order item")
  = concat (map Unicode.capitalize (Unicode.split (of_string "order item")))
  ∧ sanitize_class_name "iPhone" = upper_first "iPhone".
Proof.
  pose proof (sanitize_class_name_rule (of_string "order item") "iPhone")
    as (Hwords & _ & _ & _ & _ & Hascii & _).
  split.
  - apply Hwords. vm_compute. lia.
  - assert (Hs : ascii_text "iPhone") by (repeat constructor).
    destruct (Hascii Hs) as (_ & _ & _ & Hone). apply Hone. vm_compute. lia.
Defined.

(** C4 as stated fails in its "never lower-cases" clause: with more than one
    word the letters after the first of each word are lower-cased. *)
Lemma sanitize_never_lowers_counterexample :
  ¬ (∀ x, keeps_upper x (sanitize_class_name x)).
Proof.
  intros H. specialize (H "iPhone case" "P"%char).
  vm_compute in H.
  specialize (H eq_refl (or_intror (or_introl eq_refl))).
  repeat (destruct H as [H|H]; [discriminate H|]). exact H.
Qed.




(** * Naming a box from a text label *)

Lemma labels_set_nonempty (d : Labels) k (v : string) :
  nonempty_texts d → truthy v = true → nonempty_texts (labels_set d k v).
Proof.
  intros Hd Hv. induction Hd as [|[k' v'] d Hk' Hd IH]; simpl.
  - by repeat constructor.
  - destruct (key_eqb k' k); by constructor.
Qed.

Lemma scan_cell_nonempty acc (cell : Cell) :
  nonempty_texts acc.1 → nonempty_texts (scan_cell acc cell).1.
Proof.
  destruct acc as [d bs]. unfold scan_cell. simpl. intros Hd.
  destruct (cell_geometry cell); [|done].
  destruct (cell_source cell), (cell_target cell); try done.
  destruct (contains "text;" _); simpl.
  - destruct (truthy (strip _)) eqn:Hv; simpl; [by apply labels_set_nonempty|].
    by destruct (contains "whiteSpace=wrap" _).
  - by destruct (contains "whiteSpace=wrap" _).
Qed.

(** [parse] only stores labels with a non-empty text. *)
Lemma scan_cells_nonempty (cells : list Cell) : nonempty_texts (scan_cells cells).1.
Proof.
  unfold scan_cells.
  assert (H : ∀ acc, nonempty_texts acc.1 → nonempty_texts (foldl scan_cell acc cells).1).
  { induction cells as [|c cells IH]; intros acc Hacc; [done|].
    simpl. apply IH. by apply scan_cell_nonempty. }
  apply H. constructor.
Qed.

Lemma find_label_first (text_labels : Labels) (b : Box) :
  find_label text_labels b = snd <$> head (labels_in_box b text_labels).
Proof.
  induction text_labels as [|[pos text] r IH]; [done|].
  unfold labels_in_box. simpl. by destruct (in_box b pos).
Qed.

Lemma resolve_box_by_label (text_labels : Labels) (b : Box) :
  nonempty_texts text_labels → box_value b = "" →
  resolve_box text_labels b =
    (λ l, sanitize_class_name l.2) <$> head (labels_in_box b text_labels).
Proof.
  intros Hd Hv. unfold resolve_box. rewrite Hv. simpl.
  rewrite find_label_first.
  assert (Hin : nonempty_texts (labels_in_box b text_labels)).
  { unfold nonempty_texts, labels_in_box in *. rewrite Forall_forall in *.
    intros l [Hl _]%list_elem_of_In%filter_In. by apply Hd, list_elem_of_In. }
  destruct (labels_in_box b text_labels) as [|[pos text] r]; [done|].
  apply Forall_cons in Hin as [Ht _]. simpl in *. by rewrite Ht.
Qed.

(** C5, as the code has it.  A box whose inline value is empty is named
    exactly when at least one label's origin lies in the box, and the name
    is the sanitized text of the first such label in dict order.  With the
    box (0, 0, 100, 50) and the single label "user account" at (10, 10) the
    name is UserAccount. *)
Theorem resolve_box_empty_value (cells : list Cell) (b : Box) :
  box_value b = "" →
  resolve_box (scan_cells cells).1 b =
    (λ l, sanitize_class_name l.2) <$> head (labels_in_box b (scan_cells cells).1)
  ∧ (is_Some (resolve_box (scan_cells cells).1 b) ↔
     (1 ≤ length (labels_in_box b (scan_cells cells).1))%nat)
  ∧ scan_cells account_cells = ([((10%float, 10%float), "user account")], [empty_box])
  ∧ id_to_class (parse account_cells) !! Some "1" = Some "UserAccount".
Proof.
  intros Hv.
  pose proof (resolve_box_by_label _ b (scan_cells_nonempty cells) Hv) as Hr.
  split; [exact Hr|]. split; [|by vm_compute].
  rewrite Hr. destruct (labels_in_box b (scan_cells cells).1); simpl.
  - split; [by intros [? ?] | lia].
  - split; [lia | by eexists].
Qed.

Lemma resolve_box_empty_value_witness :
  resolve_box (scan_cells account_cells).1 empty_box = Some "UserAccount".
Proof.
  pose proof (resolve_box_empty_value account_cells empty_box eq_refl) as [H _].
  rewrite H. vm_compute. reflexivity.
Defined.

(** C5 as stated fails in its "exactly one": two labels lie in the box and
    the box is named all the same, from the first of them. *)
Lemma resolve_box_exactly_one_counterexample :
  ¬ (∀ cells b, box_value b = "" →
       (is_Some (resolve_box (scan_cells cells).1 b) ↔
        length (labels_in_box b (scan_cells cells).1) = 1%nat)).
Proof.
  intros H. specialize (H crowded_cells empty_box eq_refl) as [H _].
  assert (Hres : is_Some (resolve_box (scan_cells crowded_cells).1 empty_box)).
  { vm_compute. by eexists. }
  specialize (H Hres). vm_compute in H. discriminate H.
Qed.

(** * The class model builder *)

(** ** Adding a field *)

Lemma existsb_field_name (fs : list Field) (fname : string) :
  existsb (λ f, String.eqb (field_name f) fname) fs = true ↔ fname ∈ map field_name fs.
Proof.
  rewrite existsb_exists, list_elem_of_fmap. split.
  - intros (f & Hin%list_elem_of_In & Heq%String.eqb_eq). by exists f.
  - intros (f & -> & Hin%list_elem_of_In). exists f. split; [done|]. apply String.eqb_refl.
Qed.

Lemma add_field_present (cd : ClassDef) (ftype fname : string) (is_list : bool) :
  fname ∈ field_names cd → add_field cd ftype fname is_list = cd.
Proof.
  intros H%existsb_field_name. unfold add_field. by rewrite H.
Qed.

Lemma add_field_fresh (cd : ClassDef) (ftype fname : string) (is_list : bool) :
  fname ∉ field_names cd →
  fields (add_field cd ftype fname is_list) = fields cd ++ [(ftype, fname, is_list)].
Proof.
  intros H. unfold add_field.
  destruct (existsb _ (fields cd)) eqn:He; [|done].
  by apply existsb_field_name in He.
Qed.

Lemma add_field_name (cd : ClassDef) (ftype fname : string) (is_list : bool) :
  name (add_field cd ftype fname is_list) = name cd.
Proof. unfold add_field. by destruct (negb _). Qed.

Lemma add_field_extends (cd : ClassDef) (ftype fname : string) (is_list : bool) :
  extends (add_field cd ftype fname is_list) = extends cd.
Proof. unfold add_field. by destruct (negb _). Qed.

Lemma add_field_fields (cd : ClassDef) (ftype fname : string) (is_list : bool) :
  fields (add_field cd ftype fname is_list) = fields cd
  ∨ fields (add_field cd ftype fname is_list) = fields cd ++ [(ftype, fname, is_list)].
Proof. unfold add_field. destruct (negb _); auto. Qed.

Lemma add_field_NoDup (cd : ClassDef) (ftype fname : string) (is_list : bool) :
  NoDup (field_names cd) → NoDup (field_names (add_field cd ftype fname is_list)).
Proof.
  intros Hnd. destruct (decide (fname ∈ field_names cd)) as [Hin|Hout].
  - by rewrite add_field_present.
  - unfold field_names. rewrite add_field_fresh by done.
    rewrite map_app. apply NoDup_app. split; [done|]. split.
    + simpl. intros x Hx ->%list_elem_of_singleton. by apply Hout.
    + apply NoDup_singleton.
Qed.

(** ** One edge *)

Lemma truthy_ne (s : string) : s ≠ "" → truthy s = true.
Proof. by destruct s. Qed.

Lemma lower_camel_ok (n : string) : n ≠ "" → lower_camel n = Ok (lower_camel_name n).
Proof. by destruct n. Qed.

Lemma getitem_ok (d : gmap string ClassDef) (key : string) (cd : ClassDef) :
  d !! key = Some cd → getitem d key = Ok cd.
Proof. unfold getitem. by intros ->. Qed.

(** What one call does to the model, by the kind of the edge. *)
Lemma process_resolved (g : CodeGenerator) (e : Edge) (s t : string) (cs ct : ClassDef) :
  resolves g e s t → classes g !! s = Some cs → classes g !! t = Some ct →
  let g1 := print g (relationship_line s (classify e) t (get_multiplicity e)) in
  let m := get_multiplicity e in
  _process_relationship g e = Ok
    (if String.eqb (classify e) "EXPANDS" then set_class g1 s (set_extends cs t)
     else if String.eqb (classify e) "DEPENDS"
     then set_class g1 s (add_field cs t (lower_camel_name t) false)
     else if String.eqb (classify e) "HAVE"
     then set_class g1 s (add_field cs t (plural_name m t) (String.eqb m "*"))
     else if String.eqb (classify e) "PART_OF"
     then set_class g1 t (add_field ct s (plural_name m s) (String.eqb m "*"))
     else g1).
Proof.
  intros (Hs & Ht & Hsne & Htne) Hcs Hct. unfold _process_relationship, plural_name.
  rewrite Hs, Ht, (truthy_ne s Hsne), (truthy_ne t Htne). simpl.
  rewrite !(lower_camel_ok s Hsne), !(lower_camel_ok t Htne).
  rewrite (getitem_ok _ _ _ Hcs), (getitem_ok _ _ _ Hct). simpl.
  repeat (destruct (String.eqb _ _); [done|]). done.
Qed.

Lemma process_unresolved (g : CodeGenerator) (e : Edge) :
  unresolved g e → _process_relationship g e = Ok g.
Proof.
  unfold unresolved, _process_relationship.
  destruct (id_to_class (parser g) !! Some (source_id e)) as [s|],
           (id_to_class (parser g) !! Some (target_id e)) as [t|]; simpl; try done.
  intros [-> | ->]; simpl; [done|]. by rewrite orb_true_r.
Qed.

Lemma truthy_true (s : string) : truthy s = true → s ≠ "".
Proof. by destruct s. Qed.

Lemma process_parser (g g' : CodeGenerator) (e : Edge) :
  _process_relationship g e = Ok g' → parser g' = parser g.
Proof.
  unfold _process_relationship.
  destruct (id_to_class (parser g) !! Some (source_id e)) as [s|];
    [|by intros [= <-]].
  destruct (id_to_class (parser g) !! Some (target_id e)) as [t|];
    [|by intros [= <-]].
  destruct (negb (truthy s) || negb (truthy t)); [by intros [= <-]|].
  unfold getitem, lower_camel, mbind, result_bind. simpl.
  repeat case_match; by intros [= <-].
Qed.

Lemma truthy_false (s : string) : truthy s = false → s = "".
Proof. by destruct s. Qed.

Lemma process_effect (g g' : CodeGenerator) (e : Edge) :
  _process_relationship g e = Ok g' → effect g e g'.
Proof.
  unfold _process_relationship.
  destruct (id_to_class (parser g) !! Some (source_id e)) as [s|] eqn:Hs;
    [|intros [= <-]; apply effect_none; [|done];
      intros s' t' (Hs' & _); congruence].
  destruct (id_to_class (parser g) !! Some (target_id e)) as [t|] eqn:Ht;
    [|intros [= <-]; apply effect_none; [|done];
      intros s' t' (_ & Ht' & _); congruence].
  destruct (truthy s) eqn:Hts; simpl;
    [|intros [= <-]; apply effect_none; [|done];
      intros s' t' (Hs' & _ & Hne & _); apply truthy_false in Hts; congruence].
  destruct (truthy t) eqn:Htt; simpl;
    [|intros [= <-]; apply effect_none; [|done];
      intros s' t' (_ & Ht' & _ & Hne); apply truthy_false in Htt; congruence].
  assert (Hres : resolves g e s t) by (repeat split; auto using truthy_true).
  unfold getitem, lower_camel, mbind, result_bind. simpl.
  destruct (String.eqb_spec (classify e) "EXPANDS") as [Hk|Hk].
  { destruct (classes g !! s) as [cs|] eqn:Hcs; [|done]. intros [= <-].
    by eapply effect_parent. }
  destruct (String.eqb (classify e) "DEPENDS").
  { destruct (lower_first t); [|done].
    destruct (classes g !! s) as [cs|] eqn:Hcs; [|done]. intros [= <-].
    eapply (effect_field _ _ _ s t s t); eauto. }
  destruct (String.eqb (classify e) "HAVE").
  { destruct (lower_first t); [|done].
    destruct (classes g !! s) as [cs|] eqn:Hcs; [|done]. intros [= <-].
    eapply (effect_field _ _ _ s t s t); eauto. }
  destruct (String.eqb (classify e) "PART_OF").
  { destruct (lower_first s); [|done].
    destruct (classes g !! t) as [ct|] eqn:Hct; [|done]. intros [= <-].
    eapply (effect_field _ _ _ s t t s); eauto. }
  intros [= <-]. by apply effect_none.
Qed.

(** ** C3: where a field lands *)

Lemma add_field_elem (cd : ClassDef) (other fname : string) (is_list : bool) (f : Field) :
  f ∈ fields (add_field cd other fname is_list) →
  f ∈ fields cd ∨ f = (other, fname, is_list).
Proof.
  destruct (add_field_fields cd other fname is_list) as [-> | ->]; [by left|].
  rewrite elem_of_app, list_elem_of_singleton. tauto.
Qed.

Lemma get_multiplicity_cases (e : Edge) :
  get_multiplicity e = "1" ∨ get_multiplicity e = "*".
Proof. unfold get_multiplicity. destruct (contains "*" (label e)); auto. Qed.

Lemma plural_name_one (m n : string) : m = "1" → plural_name m n = lower_camel_name n.
Proof. by intros ->. Qed.

Lemma plural_name_many (m n : string) :
  m = "*" → plural_name m n = lower_camel_name n +:+ "s".
Proof. by intros ->. Qed.

(** C3.  For an edge whose two ends resolve to classes of the model, the
    call succeeds and its only change to the model is one [add_field] call:
    for DEPENDS and HAVE on the source class with the target's name as
    field type, for PART_OF on the target class with the source's name as
    field type, named lower-camel(source) for multiplicity 1 and
    lower-camel(source)+"s", as a collection, for multiplicity "*".
    [add_field] appends exactly that field when the name is free, and any
    field it adds has the other end's class name as its type. *)
Theorem process_relationship_field (g : CodeGenerator) (e : Edge) (s t : string)
    (cs ct : ClassDef) :
  resolves g e s t → classes g !! s = Some cs → classes g !! t = Some ct →
  ∃ g', _process_relationship g e = Ok g'
    ∧ (classify e = "DEPENDS" →
       classes g' = <[s := add_field cs t (lower_camel_name t) false]> (classes g))
    ∧ (classify e = "HAVE" → get_multiplicity e = "1" →
       classes g' = <[s := add_field cs t (lower_camel_name t) false]> (classes g))
    ∧ (classify e = "HAVE" → get_multiplicity e = "*" →
       classes g' = <[s := add_field cs t (lower_camel_name t +:+ "s") true]> (classes g))
    ∧ (classify e = "PART_OF" → get_multiplicity e = "1" →
       classes g' = <[t := add_field ct s (lower_camel_name s) false]> (classes g))
    ∧ (classify e = "PART_OF" → get_multiplicity e = "*" →
       classes g' = <[t := add_field ct s (lower_camel_name s +:+ "s") true]> (classes g))
    ∧ (∀ cd other fname is_list,
         (fname ∉ field_names cd →
          fields (add_field cd other fname is_list) = fields cd ++ [(other, fname, is_list)])
         ∧ (∀ f, f ∈ fields (add_field cd other fname is_list) → f ∉ fields cd →
              field_type f = other ∧ field_name f = fname ∧ field_is_list f = is_list)).
Proof.
  intros Hres Hcs Hct. eexists. split; [by apply (process_resolved g e s t cs ct)|].
  repeat split.
  - by intros ->.
  - by intros -> ->.
  - by intros -> ->.
  - by intros -> ->.
  - by intros -> ->.
  - apply add_field_fresh.
  - by destruct (add_field_elem _ _ _ _ _ H) as [?| ->].
  - by destruct (add_field_elem _ _ _ _ _ H) as [?| ->].
  - by destruct (add_field_elem _ _ _ _ _ H) as [?| ->].
Qed.

Lemma process_relationship_field_witness :
  ∃ g', _process_relationship shop part_of_many = Ok g'
      ∧ classes g' = <[ "Customer" := add_field (new_class "Customer") "Order" "orders" true ]>
                       (classes shop).
Proof.
  destruct (process_relationship_field shop part_of_many "Order" "Customer"
              (new_class "Order") (new_class "Customer"))
    as (g' & Hrun & _ & _ & _ & _ & Hmany & _).
  - by vm_compute.
  - by vm_compute.
  - by vm_compute.
  - exists g'. split; [exact Hrun|]. apply Hmany; by vm_compute.
Defined.

(** ** C8: edges that do not resolve *)

(** C8, as the code has it.  When the source or the target identifier does
    not resolve to a class name, the call returns normally and leaves the
    whole state as it was: no class definition changes and nothing is
    printed for the edge. *)
Theorem process_relationship_unresolved (g : CodeGenerator) (e : Edge) :
  unresolved g e →
  ∃ g', _process_relationship g e = Ok g'
      ∧ classes g' = classes g ∧ printed g' = printed g ∧ g' = g.
Proof. intros H. exists g. by rewrite (process_unresolved g e H). Qed.

Lemma process_relationship_unresolved_witness :
  ∃ g', _process_relationship shop dangling = Ok g'
      ∧ classes g' = classes shop ∧ printed g' = printed shop ∧ g' = shop.
Proof. apply process_relationship_unresolved. right. by vm_compute. Defined.

(** An edge that resolves does print its line. *)
Lemma process_resolved_printed (g g' : CodeGenerator) (e : Edge) (s t : string) :
  resolves g e s t → _process_relationship g e = Ok g' →
  printed g' = printed g ++ [relationship_line s (classify e) t (get_multiplicity e)].
Proof.
  intros (Hs & Ht & Hsne & Htne). unfold _process_relationship.
  rewrite Hs, Ht, (truthy_ne s Hsne), (truthy_ne t Htne). simpl.
  unfold getitem, lower_camel, mbind, result_bind. simpl.
  repeat case_match; by intros [= <-].
Qed.

(** C8 as stated fails in "the edge is reported": the skipped edge leaves
    the output as it was. *)
Lemma process_relationship_unresolved_counterexample :
  ¬ (∀ g e, unresolved g e →
       ∃ g', _process_relationship g e = Ok g'
           ∧ classes g' = classes g ∧ printed g' ≠ printed g).
Proof.
  intros H. destruct (H shop dangling) as (g' & Hrun & _ & Hout).
  - right. by vm_compute.
  - rewrite process_unresolved in Hrun by (right; by vm_compute).
    injection Hrun as <-. by apply Hout.
Qed.

(** ** C7: parents *)

Lemma expands_pair_Some (g : CodeGenerator) (e : Edge) (s t : string) :
  expands_pair (parser g) e = Some (s, t) ↔ classify e = "EXPANDS" ∧ resolves g e s t.
Proof.
  unfold expands_pair, resolves.
  destruct (String.eqb_spec (classify e) "EXPANDS") as [Hk|Hk];
    [|split; [done | by intros [? _]]].
  destruct (id_to_class (parser g) !! Some (source_id e)) as [s'|];
    [|split; [done | by intros (_ & ? & _)]].
  destruct (id_to_class (parser g) !! Some (target_id e)) as [t'|];
    [|split; [done | by intros (_ & _ & ? & _)]].
  destruct s' as [|a s'], t' as [|b t']; simpl;
    (split;
     [intros H; try discriminate H; injection H as <- <-; by repeat split
     |intros (_ & [= <-] & [= <-] & Hs & Ht); done]).
Qed.

Lemma expands_pair_other_kind (p : DrawIOParser) (e : Edge) :
  classify e ≠ "EXPANDS" → expands_pair p e = None.
Proof.
  intros Hk. unfold expands_pair. by destruct (String.eqb_spec (classify e) "EXPANDS").
Qed.

Lemma process_parent (g g' : CodeGenerator) (e : Edge) (n : string) :
  _process_relationship g e = Ok g' →
  parent_of g' n = set_parent (expands_pair (parser g) e) n (parent_of g n).
Proof.
  intros Hrun. unfold parent_of.
  destruct (process_effect _ _ _ Hrun)
    as [Hno Hcl | s t cs Hres Hk Hcs Hcl | s t owner other cd fname l Hres Hk Hown Hcd Hcl].
  - rewrite Hcl. destruct (expands_pair (parser g) e) as [[s t]|] eqn:Hp; [|done].
    apply expands_pair_Some in Hp as [Hk Hres]. by destruct (Hno s t Hres).
  - rewrite (proj2 (expands_pair_Some g e s t)) by done. simpl.
    rewrite Hcl, lookup_insert. by case_decide.
  - rewrite (expands_pair_other_kind _ _ Hk). simpl.
    rewrite Hcl, lookup_insert. case_decide as Hn; [|done].
    subst n. rewrite Hcd. simpl. by rewrite add_field_extends.
Qed.

Lemma process_fields_expands (g g' : CodeGenerator) (e : Edge) (n : string) :
  _process_relationship g e = Ok g' → classify e = "EXPANDS" →
  fields_of g' n = fields_of g n.
Proof.
  intros Hrun Hk. unfold fields_of.
  destruct (process_effect _ _ _ Hrun)
    as [Hno Hcl | s t cs Hres _ Hcs Hcl | s t owner other cd fname l Hres Hk' _ _ _];
    [by rewrite Hcl| |done].
  rewrite Hcl, lookup_insert. case_decide as Hn; [|done]. subst n. by rewrite Hcs.
Qed.

Lemma process_all_cons (g g' : CodeGenerator) (e : Edge) (es : list Edge) :
  process_all g (e :: es) = Ok g' ↔
  ∃ g1, _process_relationship g e = Ok g1 ∧ process_all g1 es = Ok g'.
Proof.
  simpl. unfold mbind, result_bind.
  destruct (_process_relationship g e) as [g1|x]; split.
  - intros H. by exists g1.
  - by intros (g1' & [= <-] & H).
  - done.
  - by intros (g1' & ? & _).
Qed.

Lemma process_all_parser (g g' : CodeGenerator) (es : list Edge) :
  process_all g es = Ok g' → parser g' = parser g.
Proof.
  revert g. induction es as [|e es IH]; intros g; [by intros [= <-]|].
  intros (g1 & H1 & Hrest)%process_all_cons.
  rewrite (IH _ Hrest). by apply process_parser in H1.
Qed.

Lemma process_all_parent (g g' : CodeGenerator) (es : list Edge) (n : string) :
  process_all g es = Ok g' →
  parent_of g' n =
    foldl (λ cur e, set_parent (expands_pair (parser g) e) n cur) (parent_of g n) es.
Proof.
  revert g. induction es as [|e es IH]; intros g; [by intros [= <-]|].
  intros (g1 & H1 & Hrest)%process_all_cons. simpl.
  rewrite (IH _ Hrest), (process_parser _ _ _ H1). by rewrite (process_parent _ _ _ n H1).
Qed.

Lemma foldl_set_parent_keep (p : DrawIOParser) (es : list Edge) (n : string) cur :
  (∀ e t, e ∈ es → expands_pair p e ≠ Some (n, t)) →
  foldl (λ cur e, set_parent (expands_pair p e) n cur) cur es = cur.
Proof.
  revert cur. induction es as [|e es IH]; intros cur Hes; [done|]. simpl.
  rewrite IH by (intros e' t' Hin; apply Hes; by right).
  destruct (expands_pair p e) as [[s t]|] eqn:Hp; [|done]. simpl.
  case_decide as Hn; [|done]. subst s. destruct (Hes e t); [by left|done].
Qed.

(** C7.  Along any run of the edge loop, the parent of a class is decided
    by the EXPANDS edges alone, the last one whose source is that class
    winning: an EXPANDS edge sets the parent of its source class to its
    target class and leaves all field lists alone, and the other edges
    leave all parents alone. *)
Theorem parent_last_writer_wins (g g' : CodeGenerator) (es : list Edge) :
  process_all g es = Ok g' →
  (∀ n, parent_of g' n =
        foldl (λ cur e, set_parent (expands_pair (parser g) e) n cur) (parent_of g n) es)
  ∧ (∀ es1 e es2 n t,
       es = es1 ++ e :: es2 → classify e = "EXPANDS" → resolves g e n t →
       (∀ e' t', e' ∈ es2 → ¬ (classify e' = "EXPANDS" ∧ resolves g e' n t')) →
       parent_of g' n = Some (Some t))
  ∧ ((∀ e, e ∈ es → classify e ≠ "EXPANDS") → ∀ n, parent_of g' n = parent_of g n)
  ∧ ((∀ e, e ∈ es → classify e = "EXPANDS") → ∀ n, fields_of g' n = fields_of g n).
Proof.
  intros Hrun. repeat split.
  - intros n. by apply process_all_parent.
  - intros es1 e es2 n t -> Hk Hres Hlast.
    rewrite (process_all_parent _ _ _ n Hrun), foldl_app. simpl.
    rewrite foldl_set_parent_keep.
    + rewrite (proj2 (expands_pair_Some g e n t)) by done. simpl. by case_decide.
    + intros e' t' Hin Hp%expands_pair_Some. by apply (Hlast e' t').
  - intros Hes n. rewrite (process_all_parent _ _ _ n Hrun).
    apply foldl_set_parent_keep. intros e t Hin.
    by rewrite (expands_pair_other_kind _ _ (Hes e Hin)).
  - intros Hes n. revert g Hrun Hes.
    induction es as [|e es IH]; intros g; [by intros [= <-]|].
    intros (g1 & H1 & Hrest)%process_all_cons Hes.
    rewrite (IH g1 Hrest) by (intros e' Hin; apply Hes; by right).
    apply (process_fields_expands _ _ _ _ H1). apply Hes. by left.
Qed.

Lemma parent_last_writer_wins_witness :
  parent_of (shop_after two_parents) "Invoice" = Some (Some "Paper").
Proof.
  assert (Hrun : process_all shop two_parents = Ok (shop_after two_parents))
    by (by vm_compute).
  destruct (parent_last_writer_wins shop _ two_parents Hrun) as (_ & Hlast & _).
  clear Hrun. apply (Hlast [expands_document; have_one] expands_paper []).
  - reflexivity.
  - by vm_compute.
  - by vm_compute.
  - intros e' t' Hin. by apply elem_of_nil in Hin.
Defined.

(** ** C10: the model only names classes it contains *)

Lemma known_insert (m : gmap string ClassDef) (k n : string) (old new : ClassDef) :
  m !! k = Some old → is_Some (<[k := new]> m !! n) ↔ is_Some (m !! n).
Proof.
  intros Hk. rewrite lookup_insert. case_decide as Hn; [|done]. subst n.
  rewrite Hk. split; by eexists.
Qed.

Lemma process_known (g g' : CodeGenerator) (e : Edge) (n : string) :
  _process_relationship g e = Ok g' → known g' n ↔ known g n.
Proof.
  intros Hrun. unfold known.
  destruct (process_effect _ _ _ Hrun)
    as [_ Hcl | s t cs _ _ Hcs Hcl | s t owner other cd fname l _ _ _ Hcd Hcl];
    rewrite Hcl; [done| |]; by eapply known_insert.
Qed.

Lemma resolves_known (g : CodeGenerator) (e : Edge) (s t : string) :
  names_covered g → resolves g e s t → known g s ∧ known g t.
Proof. intros Hcov (Hs & Ht & _). split; by eapply Hcov. Qed.

Lemma process_total (g : CodeGenerator) (e : Edge) :
  names_covered g → ∃ g', _process_relationship g e = Ok g'.
Proof.
  intros Hcov.
  destruct (truthy_opt (id_to_class (parser g) !! Some (source_id e))) eqn:Hs;
    [|eexists; apply process_unresolved; by left].
  destruct (truthy_opt (id_to_class (parser g) !! Some (target_id e))) eqn:Ht;
    [|eexists; apply process_unresolved; by right].
  destruct (id_to_class (parser g) !! Some (source_id e)) as [s|] eqn:Hs'; [|done].
  destruct (id_to_class (parser g) !! Some (target_id e)) as [t|] eqn:Ht'; [|done].
  assert (Hres : resolves g e s t) by (repeat split; auto using truthy_true).
  destruct (resolves_known g e s t Hcov Hres) as [[cs Hcs] [ct Hct]].
  eexists. by apply (process_resolved g e s t cs ct).
Qed.

Lemma process_closed (g g' : CodeGenerator) (e : Edge) :
  _process_relationship g e = Ok g' → names_covered g → closed_model g →
  names_covered g' ∧ closed_model g'.
Proof.
  intros Hrun Hcov Hclosed.
  pose proof (λ n, process_known g g' e n Hrun) as Hknown.
  split.
  { intros k v Hkv. apply Hknown. rewrite (process_parser _ _ _ Hrun) in Hkv.
    by eapply Hcov. }
  assert (Hkeep : ∀ cd, closed_class g cd → closed_class g' cd).
  { intros cd [Hp Hf]. split; [intros p Hp'|intros f Hf']; apply Hknown; auto. }
  intros n cd' Hn.
  destruct (process_effect _ _ _ Hrun)
    as [_ Hcl | s t cs Hres _ Hcs Hcl | s t owner other cd fname l Hres _ Hown Hcd Hcl];
    rewrite Hcl in Hn.
  - by eapply Hkeep, Hclosed.
  - rewrite lookup_insert in Hn. case_decide; [|by eapply Hkeep, Hclosed].
    injection Hn as <-. destruct (Hkeep cs (Hclosed _ _ Hcs)) as [_ Hf].
    split; [|done]. intros p [= <-]. apply Hknown.
    by destruct (resolves_known g e s t Hcov Hres).
  - rewrite lookup_insert in Hn. case_decide; [|by eapply Hkeep, Hclosed].
    injection Hn as <-. destruct (Hkeep cd (Hclosed _ _ Hcd)) as [Hp Hf].
    split; [by rewrite add_field_extends|].
    intros f [Hold| ->]%add_field_elem; [by apply Hf|].
    apply Hknown. destruct (resolves_known g e s t Hcov Hres) as [Hks Hkt].
    by destruct Hown as [[-> ->]|[-> ->]].
Qed.

Lemma process_all_closed (g : CodeGenerator) (es : list Edge) :
  names_covered g → closed_model g →
  ∃ g', process_all g es = Ok g' ∧ closed_model g' ∧ names_covered g'
      ∧ (∀ n, known g' n ↔ known g n).
Proof.
  revert g. induction es as [|e es IH]; intros g Hcov Hclosed.
  - by exists g.
  - destruct (process_total g e Hcov) as [g1 H1].
    destruct (process_closed _ _ _ H1 Hcov Hclosed) as [Hcov1 Hclosed1].
    destruct (IH g1 Hcov1 Hclosed1) as (g' & Hrest & Hc & Hn & Hk).
    exists g'. split; [apply process_all_cons; by exists g1|].
    split; [done|]. split; [done|]. intros n.
    rewrite (Hk n). apply (process_known _ _ _ n H1).
Qed.

Lemma init_generator_lookup (cells : list Cell) (n : string) (cd : ClassDef) :
  classes (init_generator cells) !! n = Some cd ↔
  n ∈ get_classes (parse cells) ∧ cd = new_class n.
Proof.
  unfold init_generator. simpl. rewrite lookup_set_to_map by (by intros ?? _ _ [= ->]).
  split.
  - by intros (y & Hy & [= -> <-]).
  - intros [Hn ->]. by exists n.
Qed.

Lemma init_generator_known (cells : list Cell) (n : string) :
  known (init_generator cells) n ↔ n ∈ get_classes (parse cells).
Proof.
  unfold known. split.
  - by intros [cd [Hn _]%init_generator_lookup].
  - intros Hn. exists (new_class n). by apply init_generator_lookup.
Qed.

Lemma init_generator_closed (cells : list Cell) :
  names_covered (init_generator cells) ∧ closed_model (init_generator cells).
Proof.
  split.
  - intros k v Hkv. apply init_generator_known. unfold get_classes.
    apply elem_of_map_img. by exists k.
  - intros n cd [_ ->]%init_generator_lookup. split; [done|].
    intros f Hf. by apply elem_of_nil in Hf.
Qed.

(** C10.  On every diagram [generate] runs through the edge loop without an
    exception, and in the model it ends with the classes are exactly the
    discovered class names, every parent that is set is one of them, and so
    is the type of every field. *)
Theorem generate_closed_model (cells : list Cell) :
  ∃ g, generate cells = Ok g
     ∧ parser g = parse cells
     ∧ (∀ n, is_Some (classes g !! n) ↔ n ∈ get_classes (parse cells))
     ∧ (∀ n cd, classes g !! n = Some cd →
          (∀ p, extends cd = Some p → is_Some (classes g !! p))
          ∧ (∀ f, f ∈ fields cd → is_Some (classes g !! field_type f))).
Proof.
  destruct (init_generator_closed cells) as [Hcov Hclosed].
  destruct (process_all_closed _ (edges (parser (init_generator cells))) Hcov Hclosed)
    as (g & Hrun & Hc & _ & Hk).
  exists g. split; [exact Hrun|]. split; [by apply process_all_parser in Hrun|].
  split; [|exact Hc].
  intros n. etrans; [apply Hk|]. apply init_generator_known.
Qed.

(** ** C6: field names are unique *)

Lemma add_fields_NoDup (cd : ClassDef) (ops : list Field) :
  NoDup (field_names cd) → NoDup (field_names (add_fields cd ops)).
Proof.
  revert cd. induction ops as [|f ops IH]; intros cd Hcd; [done|].
  apply IH. by apply add_field_NoDup.
Qed.

Lemma process_unique (g g' : CodeGenerator) (e : Edge) :
  _process_relationship g e = Ok g' → unique_field_names g → unique_field_names g'.
Proof.
  intros Hrun Hu n cd' Hn.
  destruct (process_effect _ _ _ Hrun)
    as [_ Hcl | s t cs _ _ Hcs Hcl | s t owner other cd fname l _ _ _ Hcd Hcl];
    rewrite Hcl in Hn; [by eapply Hu| |];
    rewrite lookup_insert in Hn; (case_decide; [|by eapply Hu]); injection Hn as <-.
  - by apply (Hu _ _ Hcs).
  - apply add_field_NoDup. by apply (Hu _ _ Hcd).
Qed.

Lemma process_all_unique (g g' : CodeGenerator) (es : list Edge) :
  process_all g es = Ok g' → unique_field_names g → unique_field_names g'.
Proof.
  revert g. induction es as [|e es IH]; intros g; [by intros [= <-]|].
  intros (g1 & H1 & Hrest)%process_all_cons Hu.
  apply (IH g1 Hrest). by apply (process_unique g g1 e).
Qed.

Lemma process_have_one (g : CodeGenerator) (e : Edge) (a b : string) (ca cb : ClassDef) :
  classify e = "HAVE" → get_multiplicity e = "1" →
  resolves g e a b → classes g !! a = Some ca → classes g !! b = Some cb →
  ∃ g', _process_relationship g e = Ok g' ∧ parser g' = parser g
      ∧ classes g' = <[a := add_field ca b (lower_camel_name b) false]> (classes g).
Proof.
  intros Hk Hm Hres Ha Hb. eexists. split; [by apply (process_resolved g e a b ca cb)|].
  rewrite Hk, Hm. by simpl.
Qed.

Lemma two_have_edges (g g' : CodeGenerator) (e1 e2 : Edge) (a b : string)
    (ca cb : ClassDef) :
  process_all g [e1; e2] = Ok g' →
  classify e1 = "HAVE" → classify e2 = "HAVE" →
  get_multiplicity e1 = "1" → get_multiplicity e2 = "1" →
  resolves g e1 a b → resolves g e2 a b →
  classes g !! a = Some ca → classes g !! b = Some cb → fields ca = [] →
  ∃ ca', classes g' !! a = Some ca' ∧ fields ca' = [(b, lower_camel_name b, false)].
Proof.
  intros Hrun Hk1 Hk2 Hm1 Hm2 Hr1 Hr2 Ha Hb Hempty.
  apply process_all_cons in Hrun as (g1 & H1 & Hrun).
  apply process_all_cons in Hrun as (g2 & H2 & [= <-]).
  destruct (process_have_one g e1 a b ca cb) as (g1' & H1' & Hp1 & Hc1); try done.
  rewrite H1 in H1'. injection H1' as <-.
  set (ca1 := add_field ca b (lower_camel_name b) false) in *.
  assert (Hf1 : fields ca1 = [(b, lower_camel_name b, false)]).
  { unfold ca1. rewrite add_field_fresh; [by rewrite Hempty|].
    unfold field_names. rewrite Hempty. apply not_elem_of_nil. }
  assert (Ha1 : classes g1 !! a = Some ca1) by (rewrite Hc1; apply lookup_insert_eq).
  assert (Hb1 : ∃ cb1, classes g1 !! b = Some cb1).
  { apply (process_known g g1 e1 b H1). by exists cb. }
  destruct Hb1 as [cb1 Hb1].
  assert (Hr2' : resolves g1 e2 a b) by (unfold resolves; by rewrite Hp1).
  destruct (process_have_one g1 e2 a b ca1 cb1) as (g2' & H2' & _ & Hc2); try done.
  rewrite H2 in H2'. injection H2' as <-.
  exists ca1. split; [|done].
  rewrite Hc2, lookup_insert_eq. f_equal. apply add_field_present.
  unfold field_names. rewrite Hf1. simpl. by left.
Qed.

(** C6.  Along any run of the edge loop the field names of every class stay
    pairwise distinct; [add_field] keeps them so, does nothing when the name
    is taken (the field that was there first stays), and so does any sequence
    of [add_field] calls on a new class.  Two HAVE edges A -> B with
    multiplicity 1 leave class A, empty before, with the single field
    (B, lower-camel(B), scalar); every model [generate] ends with has
    distinct field names in every class. *)
Theorem field_names_unique (g g' : CodeGenerator) (es : list Edge) :
  process_all g es = Ok g' → unique_field_names g →
  unique_field_names g'
  ∧ (∀ cd ftype fname is_list,
       (NoDup (field_names cd) → NoDup (field_names (add_field cd ftype fname is_list)))
       ∧ (fname ∈ field_names cd → add_field cd ftype fname is_list = cd))
  ∧ (∀ n ops, NoDup (field_names (add_fields (new_class n) ops)))
  ∧ (∀ e1 e2 a b ca cb,
       es = [e1; e2] →
       classify e1 = "HAVE" → classify e2 = "HAVE" →
       get_multiplicity e1 = "1" → get_multiplicity e2 = "1" →
       resolves g e1 a b → resolves g e2 a b →
       classes g !! a = Some ca → classes g !! b = Some cb → fields ca = [] →
       ∃ ca', classes g' !! a = Some ca'
            ∧ fields ca' = [(b, lower_camel_name b, false)])
  ∧ (∀ cells gf, generate cells = Ok gf → unique_field_names gf).
Proof.
  intros Hrun Hu. split; [by apply (process_all_unique g g' es)|].
  split; [|split; [|split]].
  - intros cd ftype fname is_list. split; [apply add_field_NoDup|apply add_field_present].
  - intros n ops. apply add_fields_NoDup. constructor.
  - intros e1 e2 a b ca cb ->. by apply two_have_edges.
  - intros cells gf Hgen. apply (process_all_unique _ _ _ Hgen).
    intros n cd [_ ->]%init_generator_lookup. constructor.
Qed.

Lemma field_names_unique_witness :
  ∃ ca', classes (shop_after two_haves) !! "Customer" = Some ca'
       ∧ fields ca' = [("Order", "order", false)].
Proof.
  assert (Hrun : process_all shop two_haves = Ok (shop_after two_haves))
    by (vm_compute; reflexivity).
  assert (Hu : unique_field_names shop).
  { intros n cd [_ ->]%init_generator_lookup. constructor. }
  destruct (field_names_unique shop _ two_haves Hrun Hu) as (_ & _ & _ & Htwo & _).
  clear Hrun Hu.
  apply (Htwo have_one have_one "Customer" "Order" (new_class "Customer") (new_class "Order"));
    vm_compute; repeat split; intros H; discriminate H.
Defined.

(** * More on the relationship classifier *)

Lemma prefix_empty (h : string) : String.prefix "" h = true.
Proof. by destruct h. Qed.

Lemma contains_char c (h : string) :
  contains (String c "") h = true ↔ In c (chars h).
Proof.
  induction h as [|d h IH]; [by rewrite contains_empty|].
  rewrite contains_cons, orb_true_iff, IH. simpl.
  destruct (ascii_dec c d) as [->|Hne].
  - rewrite prefix_empty. tauto.
  - split; [intros [?|?]; [done|by right] | intros [?|?]; [congruence|by right]].
Qed.

(** The multiplicity of an edge is "*" exactly when the character "*"
    occurs somewhere in its label, and "1" exactly when it does not. *)
Lemma get_multiplicity_star (e : Edge) :
  (get_multiplicity e = "*" ↔ In "*"%char (chars (label e)))
  ∧ (get_multiplicity e = "1" ↔ ¬ In "*"%char (chars (label e))).
Proof.
  unfold get_multiplicity. rewrite <- (contains_char "*" (label e)).
  destruct (contains "*" (label e)); split; split; try done; by intros [].
Qed.

Lemma lower_char_idemp c : lower_char (lower_char c) = lower_char c.
Proof. by destruct c as [[] [] [] [] [] [] [] []]. Qed.

Lemma lower_char_upper_char c : lower_char (upper_char c) = lower_char c.
Proof. by destruct c as [[] [] [] [] [] [] [] []]. Qed.

Lemma lower_lower (s : string) : lower (lower s) = lower s.
Proof. induction s as [|c s IH]; [done|]. simpl. by rewrite lower_char_idemp, IH. Qed.

Lemma lower_upper (s : string) : lower (upper s) = lower s.
Proof. induction s as [|c s IH]; [done|]. simpl. by rewrite lower_char_upper_char, IH. Qed.

Lemma star_upper_char c : upper_char c = "*"%char ↔ c = "*"%char.
Proof. destruct c as [[] [] [] [] [] [] [] []]; by vm_compute. Qed.

Lemma star_lower_char c : lower_char c = "*"%char ↔ c = "*"%char.
Proof. destruct c as [[] [] [] [] [] [] [] []]; by vm_compute. Qed.

Lemma star_in_upper (s : string) : In "*"%char (chars (upper s)) ↔ In "*"%char (chars s).
Proof.
  induction s as [|c s IH]; [done|]. simpl. rewrite IH, star_upper_char. tauto.
Qed.

Lemma star_in_lower (s : string) : In "*"%char (chars (lower s)) ↔ In "*"%char (chars s).
Proof.
  induction s as [|c s IH]; [done|]. simpl. rewrite IH, star_lower_char. tauto.
Qed.

Lemma get_multiplicity_by_star (e e' : Edge) :
  (In "*"%char (chars (label e')) ↔ In "*"%char (chars (label e))) →
  get_multiplicity e' = get_multiplicity e.
Proof.
  unfold get_multiplicity. rewrite <- !(contains_char "*").
  destruct (contains "*" (label e')), (contains "*" (label e)); try done.
  - intros [H _]. by specialize (H eq_refl).
  - intros [_ H]. by specialize (H eq_refl).
Qed.

(** X1.  On an edge whose label and style are ASCII text, the three queries
    of the classifier do not see letter case, nor the identifiers of the
    edge: upper-casing or lower-casing the label and the style changes
    neither its kind, nor its multiplicity, nor its black-circle flag. *)
Theorem classifier_ignores_case (e : Edge) (a b : string) :
  ascii_text (label e) → ascii_text (style e) →
  let up := mkEdge a b (upper (label e)) (upper (style e)) in
  let low := mkEdge a b (lower (label e)) (lower (style e)) in
  classify up = classify e ∧ classify low = classify e
  ∧ get_multiplicity up = get_multiplicity e ∧ get_multiplicity low = get_multiplicity e
  ∧ has_black_circle up = has_black_circle e ∧ has_black_circle low = has_black_circle e.
Proof.
  intros _ _. simpl. repeat split.
  - unfold classify. simpl. by rewrite !lower_upper.
  - unfold classify. simpl. by rewrite !lower_lower.
  - apply get_multiplicity_by_star. simpl. apply star_in_upper.
  - apply get_multiplicity_by_star. simpl. apply star_in_lower.
  - unfold has_black_circle. simpl. by rewrite lower_upper.
  - unfold has_black_circle. simpl. by rewrite lower_lower.
Qed.

Lemma classifier_ignores_case_witness :
  classify (mkEdge "x" "y" (upper (label depends_edge)) (upper (style depends_edge)))
  = classify depends_edge.
Proof.
  assert (Hl : ascii_text (label depends_edge)) by (repeat constructor).
  assert (Hs : ascii_text (style depends_edge)) by (repeat constructor).
  pose proof (classifier_ignores_case depends_edge "x" "y" Hl Hs) as (H & _).
  exact H.
Defined.

Ltac case_rules e :=
  destruct (label_expands e), (label_depends e), (filled_terminator e),
    (dashed_open_or_block e), (dashed_classic e), (solid_classic_or_block e); simpl.

(** X2.  Which edges get which kind: HAVE needs a filled terminator and a
    label with neither keyword; PART_OF and UNKNOWN are reached only when no
    label keyword, no filled terminator and no dashed rule applies; a style
    that mentions "dashed" in any letter case is never PART_OF. *)
Theorem classify_kind_iff (e : Edge) :
  (classify e = "HAVE" ↔
     label_expands e = false ∧ label_depends e = false ∧ filled_terminator e = true)
  ∧ (classify e = "EXPANDS" ↔
     label_expands e = true
     ∨ (label_depends e = false ∧ filled_terminator e = false
        ∧ dashed_open_or_block e = true))
  ∧ (classify e = "DEPENDS" ↔
     label_expands e = false
     ∧ (label_depends e = true
        ∨ (filled_terminator e = false ∧ dashed_open_or_block e = false
           ∧ dashed_classic e = true)))
  ∧ (classify e = "PART_OF" ↔
     label_expands e = false ∧ label_depends e = false ∧ filled_terminator e = false
     ∧ dashed_open_or_block e = false ∧ dashed_classic e = false
     ∧ solid_classic_or_block e = true)
  ∧ (classify e = "UNKNOWN" ↔
     label_expands e = false ∧ label_depends e = false ∧ filled_terminator e = false
     ∧ dashed_open_or_block e = false ∧ dashed_classic e = false
     ∧ solid_classic_or_block e = false)
  ∧ (occurs_nocase "dashed" (style e) → classify e ≠ "PART_OF").
Proof.
  assert (Hd : occurs_nocase "dashed" (style e) → solid_classic_or_block e = false).
  { intros H%contains_lower. unfold solid_classic_or_block, in_style. rewrite H.
    by rewrite andb_false_r. }
  rewrite classify_first_match. unfold rules, first_match.
  repeat split; try (intros Hocc; specialize (Hd Hocc); revert Hd);
    case_rules e; try done; try tauto; try (intros; intuition discriminate).
Qed.

Lemma classify_have_iff (e : Edge) :
  classify e = "HAVE" ↔
  label_expands e = false ∧ label_depends e = false ∧ filled_terminator e = true.
Proof.
  rewrite classify_first_match. unfold rules, first_match.
  case_rules e; split; try done; intros (? & ? & ?); done.
Qed.

Lemma filled_terminator_iff (e : Edge) :
  filled_terminator e = true ↔
  occurs_nocase "endfill=1" (style e)
  ∨ (occurs_nocase "startarrow=oval" (style e)
     ∧ (occurs_nocase "endfill" (style e) ∨ occurs_nocase "startfill=1" (style e))).
Proof.
  rewrite <- !contains_lower. unfold filled_terminator, in_style.
  assert (Hsub : contains "endfill=1" (lower (style e)) = true →
                 contains "endfill" (lower (style e)) = true).
  { intros H. eapply contains_trans; [|exact H]. by vm_compute. }
  destruct (contains "endfill=1" (lower (style e))).
  - rewrite (Hsub eq_refl). simpl. tauto.
  - clear Hsub.
    destruct (contains "endfill" (lower (style e))),
             (contains "startfill=1" (lower (style e))),
             (contains "startarrow=oval" (lower (style e))); simpl;
      intuition discriminate.
Qed.

(** X3.  The HAVE rule in plain terms: an edge is HAVE exactly when its
    label contains neither keyword and its style contains "endfill=1", or
    contains "startarrow=oval" together with "endfill" or "startfill=1" (all
    in any letter case); the outer test of the rule adds nothing when
    "endfill=1" is there.  An edge that is HAVE without "endfill=1" has its
    black-circle flag set. *)
Theorem have_rule (e : Edge) :
  (classify e = "HAVE" ↔
   ¬ occurs_nocase "expands" (label e) ∧ ¬ occurs_nocase "depends" (label e)
   ∧ (occurs_nocase "endfill=1" (style e)
      ∨ (occurs_nocase "startarrow=oval" (style e)
         ∧ (occurs_nocase "endfill" (style e) ∨ occurs_nocase "startfill=1" (style e)))))
  ∧ (classify e = "HAVE" ∧ ¬ occurs_nocase "endfill=1" (style e) →
     has_black_circle e = true).
Proof.
  assert (Hiff : classify e = "HAVE" ↔
    ¬ occurs_nocase "expands" (label e) ∧ ¬ occurs_nocase "depends" (label e)
    ∧ (occurs_nocase "endfill=1" (style e)
       ∨ (occurs_nocase "startarrow=oval" (style e)
          ∧ (occurs_nocase "endfill" (style e) ∨ occurs_nocase "startfill=1" (style e))))).
  { rewrite classify_have_iff, filled_terminator_iff.
    unfold label_expands, label_depends, in_label. by rewrite !contains_lower_false. }
  split; [exact Hiff|].
  intros [(_ & _ & [Hfill|[Hoval _]])%Hiff Hno]; [done|].
  unfold has_black_circle. apply contains_lower in Hoval. by rewrite Hoval.
Qed.

(** * More on the parser *)

(** ** [strip] *)

Lemma rstrip_cons_nonspace c (r : string) :
  is_space c = false → rstrip (String c r) = String c (rstrip r).
Proof. intros Hc. simpl. rewrite Hc. by destruct (rstrip r). Qed.

Lemma rstrip_idemp (s : string) : rstrip (rstrip s) = rstrip s.
Proof.
  induction s as [|c r IH]; [done|]. simpl.
  destruct (rstrip r) as [|d r'] eqn:Hr.
  - destruct (is_space c) eqn:Hc; [done|]. simpl. by rewrite Hc.
  - simpl in IH |- *. by rewrite IH.
Qed.

Lemma lstrip_starts (s : string) : starts_nonspace (lstrip s).
Proof.
  induction s as [|c r IH]; [done|]. simpl.
  by destruct (is_space c) eqn:Hc.
Qed.

Lemma lstrip_id (s : string) : starts_nonspace s → lstrip s = s.
Proof. destruct s as [|c r]; [done|]. simpl. by intros ->. Qed.

Lemma rstrip_starts (s : string) : starts_nonspace s → starts_nonspace (rstrip s).
Proof.
  destruct s as [|c r]; [done|]. intros Hc. by rewrite rstrip_cons_nonspace.
Qed.

Lemma strip_stripped (s : string) : stripped (strip s).
Proof.
  unfold strip. split; [apply rstrip_starts, lstrip_starts | apply rstrip_idemp].
Qed.

Lemma stripped_strip (s : string) : stripped s → strip s = s.
Proof. intros [Hs Hr]. unfold strip. by rewrite lstrip_id. Qed.

Lemma rstrip_all_space (s : string) : remove_spaces s = "" → rstrip s = "".
Proof.
  induction s as [|c r IH]; [done|]. simpl.
  destruct (is_space c); [|done]. by intros ->%IH.
Qed.

Lemma split_nil_rstrip (s : string) : split s = [] → rstrip s = "".
Proof. intros H. apply rstrip_all_space. by rewrite <- join_split, H. Qed.

(** A text without white space at its ends and with at most one word has no
    white space at all. *)
Lemma one_word_no_space (s : string) :
  stripped s → (length (split s) ≤ 1)%nat → no_space s.
Proof.
  induction s as [|c r IH]; [constructor|].
  intros [Hc Hr] Hlen. simpl in Hc.
  rewrite rstrip_cons_nonspace in Hr by done. injection Hr as Hr.
  apply Forall_cons. split; [done|].
  destruct r as [|d r']; [constructor|].
  unfold split in Hlen. rewrite split_scan_cons, Hc, split_scan_inside in Hlen.
  fold (split (String d r')) in Hlen.
  destruct (is_space d) eqn:Hd; simpl in Hlen.
  - destruct (split (String d r')) eqn:Hs; [|simpl in Hlen; lia].
    apply split_nil_rstrip in Hs. congruence.
  - apply IH; [by split|].
    destruct (split (String d r')); simpl in *; lia.
Qed.

(** ** Class names *)

Lemma is_lower_upper_char c : is_lower (upper_char c) = false.
Proof. by destruct c as [[] [] [] [] [] [] [] []]. Qed.

Lemma sanitize_first_char (x : string) c (r : string) :
  sanitize_class_name x = String c r → is_lower c = false.
Proof.
  destruct (Nat.ltb_spec 1 (length (split x))) as [Hlt|Hle].
  - rewrite (sanitize_words x Hlt). pose proof (split_tokens x) as Htok.
    destruct (split x) as [|w ws]; [simpl in Hlt; lia|].
    apply Forall_cons in Htok as [[Hw _] _]. destruct w as [|d w]; [done|].
    simpl. rewrite app_cons. intros [= <- _]. apply is_lower_upper_char.
  - rewrite (sanitize_one_word x Hle). destruct x as [|d x]; [done|].
    intros [= <- _]. apply is_lower_upper_char.
Qed.

Lemma sanitize_shape (v : string) :
  v ≠ "" → stripped v → class_name_shape (sanitize_class_name v).
Proof.
  intros Hv Hs. split; [|split; [|split]].
  - destruct (Nat.ltb_spec 1 (length (split v))) as [Hlt|Hle].
    + apply (sanitize_words_token v Hlt).
    + rewrite (sanitize_one_word v Hle). by destruct v.
  - destruct (Nat.ltb_spec 1 (length (split v))) as [Hlt|Hle].
    + apply (sanitize_words_token v Hlt).
    + rewrite (sanitize_one_word v Hle).
      pose proof (one_word_no_space v Hs Hle) as Hn.
      destruct v as [|c r]; [done|]. apply Forall_cons in Hn as [Hc Hr].
      apply Forall_cons. by rewrite is_space_upper_char.
  - intros c r. apply sanitize_first_char.
  - apply sanitize_idemp.
Qed.

(** ** The label dict and the box list *)

Lemma labels_set_Forall_snd (P : string → Prop) (d : Labels) k (v : string) :
  Forall (λ l, P l.2) d → P v → Forall (λ l, P l.2) (labels_set d k v).
Proof.
  intros Hd Hv. induction Hd as [|[k' v'] d Hk' Hd IH]; simpl.
  - by repeat constructor.
  - destruct (key_eqb k' k); by constructor.
Qed.

Lemma labels_set_Forall_fst (P : float * float → Prop) (d : Labels) k (v : string) :
  Forall (λ l, P l.1) d → P k → Forall (λ l, P l.1) (labels_set d k v).
Proof.
  intros Hd Hv. induction Hd as [|[k' v'] d Hk' Hd IH]; simpl.
  - by repeat constructor.
  - destruct (key_eqb k' k); by constructor.
Qed.

Lemma labels_set_distinct (d : Labels) k (v : string) :
  distinct_keys d → distinct_keys (labels_set d k v).
Proof.
  induction d as [|[k' v'] d IH]; simpl; [by split|].
  intros [Hk' Hd]. destruct (key_eqb k' k) eqn:Hk; simpl; [done|].
  split; [|by apply IH].
  by apply (labels_set_Forall_fst (λ x, key_eqb k' x = false)).
Qed.

(** Assignment to a key that is present replaces the text where it stands. *)
Lemma labels_set_present (d1 d2 : Labels) k' (v' : string) k (v : string) :
  Forall (λ l, key_eqb l.1 k = false) d1 → key_eqb k' k = true →
  labels_set (d1 ++ (k', v') :: d2) k v = d1 ++ (k', v) :: d2.
Proof.
  intros Hd1 Hk. induction Hd1 as [|[k1 v1] d1 Hk1 Hd1 IH]; simpl in *.
  - by rewrite Hk.
  - by rewrite Hk1, IH.
Qed.

(** Assignment to a key that is absent adds the entry at the end. *)
Lemma labels_set_absent (d : Labels) k (v : string) :
  Forall (λ l, key_eqb l.1 k = false) d → labels_set d k v = d ++ [(k, v)].
Proof.
  intros Hd. induction Hd as [|[k1 v1] d Hk1 Hd IH]; simpl in *; [done|].
  by rewrite Hk1, IH.
Qed.

Lemma scan_cell_inv acc (cell : Cell) : scan_inv acc → scan_inv (scan_cell acc cell).
Proof.
  destruct acc as [d bs]. unfold scan_inv, scan_cell. simpl. intros (Hd & Hk & Hb).
  destruct (cell_geometry cell); [|done].
  destruct (cell_source cell), (cell_target cell); try done.
  destruct (contains "text;" _ && truthy (strip _)) eqn:Htext; simpl.
  - apply andb_true_iff in Htext as [_ Hv%truthy_true].
    split; [|split; [by apply labels_set_distinct|done]].
    apply (labels_set_Forall_snd (λ t, t ≠ "" ∧ stripped t)); [done|].
    split; [done|apply strip_stripped].
  - destruct (contains "whiteSpace=wrap" _); [|done]. simpl.
    split; [done|]. split; [done|].
    apply Forall_app. split; [done|]. apply Forall_singleton. simpl.
    apply strip_stripped.
Qed.

Lemma scan_cells_inv (cells : list Cell) : scan_inv (scan_cells cells).
Proof.
  unfold scan_cells.
  assert (H : ∀ acc, scan_inv acc → scan_inv (foldl scan_cell acc cells)).
  { induction cells as [|c cells IH]; intros acc Hacc; [done|].
    simpl. apply IH. by apply scan_cell_inv. }
  apply H. split; [constructor|]. split; [done|constructor].
Qed.

Lemma scan_cells_snoc (cells : list Cell) (cell : Cell) :
  scan_cells (cells ++ [cell]) = scan_cell (scan_cells cells) cell.
Proof. unfold scan_cells. by rewrite foldl_app. Qed.

Lemma scan_label_cell acc (cell : Cell) k (v : string) :
  label_cell cell k v → scan_cell acc cell = (labels_set acc.1 k v, acc.2).
Proof.
  intros ((geometry & Hg & ->) & Hs & Ht & Htext & -> & Hv). destruct acc as [d bs].
  unfold scan_cell. by rewrite Hg, Hs, Ht, Htext, (truthy_ne _ Hv).
Qed.

(** X4.  The label dict of [parse] never holds two labels with equal
    origins, and every text in it is non-empty and has no white space at its
    ends.  A further text cell whose origin is already a key replaces that
    key's text where it stands in the dict order; a text cell with a new
    origin goes to the end; the box list is the same in both cases. *)
Theorem text_labels_dict (cells : list Cell) (cell : Cell) k (v : string) :
  label_cell cell k v →
  let d := (scan_cells cells).1 in
  let d' := (scan_cells (cells ++ [cell])).1 in
  distinct_keys d ∧ clean_labels d ∧ distinct_keys d' ∧ clean_labels d'
  ∧ (scan_cells (cells ++ [cell])).2 = (scan_cells cells).2
  ∧ (∀ d1 k' v' d2, d = d1 ++ (k', v') :: d2 → key_eqb k' k = true →
       Forall (λ l, key_eqb l.1 k = false) d1 → d' = d1 ++ (k', v) :: d2)
  ∧ (Forall (λ l, key_eqb l.1 k = false) d → d' = d ++ [(k, v)]).
Proof.
  intros Hcell. simpl.
  destruct (scan_cells_inv cells) as (Hc & Hd & _).
  destruct (scan_cells_inv (cells ++ [cell])) as (Hc' & Hd' & _).
  rewrite scan_cells_snoc, (scan_label_cell _ cell k v Hcell) in *. simpl in *.
  repeat split; try done.
  - intros d1 k' v' d2 -> Hk Hd1. by apply labels_set_present.
  - apply labels_set_absent.
Qed.

Lemma text_labels_dict_witness :
  (scan_cells (account_cells ++ [moved_label])).1 = [((10%float, 10%float), "customer")].
Proof.
  assert (Hcell : label_cell moved_label (10%float, 10%float) "customer").
  { split; [eexists; split; reflexivity|]. repeat split. by vm_compute. }
  pose proof (text_labels_dict account_cells moved_label _ _ Hcell)
    as (_ & _ & _ & _ & _ & H & _).
  refine (H [] (10%float, 10%float) "user account" [] _ _ _).
  - vm_compute. reflexivity.
  - vm_compute. reflexivity.
  - constructor.
Defined.

(** ** The shape of the class names *)

Lemma find_label_elem (text_labels : Labels) (b : Box) (text : string) :
  find_label text_labels b = Some text → ∃ pos, (pos, text) ∈ text_labels.
Proof.
  induction text_labels as [|[pos t] r IH]; [done|]. simpl.
  destruct (in_box b pos).
  - intros [= ->]. exists pos. by left.
  - intros (pos' & H)%IH. exists pos'. by right.
Qed.

Lemma resolve_box_shape (text_labels : Labels) (b : Box) (n : string) :
  clean_labels text_labels → stripped (box_value b) →
  resolve_box text_labels b = Some n → class_name_shape n.
Proof.
  intros Hd Hb. unfold resolve_box.
  destruct (truthy (box_value b)) eqn:Hv; simpl.
  - repeat (rewrite Hv; simpl). intros [= <-].
    apply sanitize_shape; [by apply truthy_true|done].
  - destruct (find_label text_labels b) as [text|] eqn:Hf; [|done].
    apply find_label_elem in Hf as [pos Hin].
    unfold clean_labels in Hd. rewrite Forall_forall in Hd.
    destruct (Hd _ Hin) as [Hne Hs]. simpl in *.
    rewrite (truthy_ne _ Hne). simpl. intros [= <-]. by apply sanitize_shape.
Qed.

Lemma record_boxes_shape (text_labels : Labels) (bs : list Box)
    (m : gmap (option string) string) :
  clean_labels text_labels → clean_boxes bs →
  map_Forall (λ _ n, class_name_shape n) m →
  map_Forall (λ _ n, class_name_shape n) (foldl (record_box text_labels) m bs).
Proof.
  intros Hd Hbs. revert m. induction Hbs as [|b bs Hb Hbs IH]; intros m Hm; [done|].
  simpl. apply IH. unfold record_box.
  destruct (resolve_box text_labels b) as [n|] eqn:Hr; [|done].
  apply map_Forall_insert_2; [|done]. by eapply resolve_box_shape.
Qed.

Lemma parse_shape (cells : list Cell) (k : option string) (n : string) :
  id_to_class (parse cells) !! k = Some n → class_name_shape n.
Proof.
  unfold parse. destruct (scan_cells_inv cells) as (Hd & _ & Hb).
  destruct (scan_cells cells) as [d bs]. simpl in *. intros Hk.
  by apply (record_boxes_shape d bs ∅ Hd Hb (map_Forall_empty _) k n).
Qed.

Lemma ascii_text_lstrip (s : string) : ascii_text s → ascii_text (lstrip s).
Proof.
  induction s as [|c s IH]; [done|]. simpl. intros Hs.
  destruct (is_space c); [|done]. apply IH. by apply ascii_text_cons in Hs as [_ ?].
Qed.

Lemma ascii_text_rstrip (s : string) : ascii_text s → ascii_text (rstrip s).
Proof.
  induction s as [|c s IH]; [done|]. intros [Hc Hs]%ascii_text_cons. simpl.
  specialize (IH Hs). destruct (rstrip s) as [|d r].
  - destruct (is_space c); [constructor|]. by apply ascii_text_cons.
  - by apply ascii_text_cons.
Qed.

Lemma ascii_text_strip (s : string) : ascii_text s → ascii_text (strip s).
Proof. intros Hs. by apply ascii_text_rstrip, ascii_text_lstrip. Qed.

Lemma scan_cell_ascii acc (cell : Cell) :
  ascii_text (get_or_empty (cell_value cell)) →
  Forall (λ l, ascii_text l.2) acc.1 ∧ Forall (λ b, ascii_text (box_value b)) acc.2 →
  Forall (λ l, ascii_text l.2) (scan_cell acc cell).1
  ∧ Forall (λ b, ascii_text (box_value b)) (scan_cell acc cell).2.
Proof.
  destruct acc as [d bs]. unfold scan_cell. simpl. intros Hv%ascii_text_strip [Hd Hb].
  destruct (cell_geometry cell); [|done].
  destruct (cell_source cell), (cell_target cell); try done.
  destruct (contains "text;" _ && truthy (strip _)); simpl.
  - split; [|done]. by apply (labels_set_Forall_snd ascii_text).
  - destruct (contains "whiteSpace=wrap" _); [|done]. simpl. split; [done|].
    apply Forall_app. split; [done|]. by apply Forall_singleton.
Qed.

Lemma scan_cells_ascii (cells : list Cell) :
  ascii_cells cells →
  Forall (λ l, ascii_text l.2) (scan_cells cells).1
  ∧ Forall (λ b, ascii_text (box_value b)) (scan_cells cells).2.
Proof.
  unfold scan_cells. intros Hcells.
  assert (H : ∀ acc,
    Forall (λ l, ascii_text l.2) acc.1 ∧ Forall (λ b, ascii_text (box_value b)) acc.2 →
    Forall (λ l, ascii_text l.2) (foldl scan_cell acc cells).1
    ∧ Forall (λ b, ascii_text (box_value b)) (foldl scan_cell acc cells).2).
  { induction Hcells as [|c cells Hc _ IH]; intros acc Hacc; [done|].
    simpl. apply IH. by apply scan_cell_ascii. }
  apply H. split; constructor.
Qed.

Lemma resolve_box_ascii (text_labels : Labels) (b : Box) (n : string) :
  Forall (λ l, ascii_text l.2) text_labels → ascii_text (box_value b) →
  resolve_box text_labels b = Some n → ascii_text n.
Proof.
  intros Hd Hb. unfold resolve_box.
  destruct (truthy (box_value b)) eqn:Hv; simpl.
  - repeat (rewrite Hv; simpl). intros [= <-]. by apply ascii_text_sanitize.
  - destruct (find_label text_labels b) as [text|] eqn:Hf; [|done].
    apply find_label_elem in Hf as [pos Hin].
    rewrite Forall_forall in Hd. specialize (Hd _ Hin). simpl in Hd.
    destruct (truthy text); [|done]. intros [= <-]. by apply ascii_text_sanitize.
Qed.

Lemma parse_ascii (cells : list Cell) (k : option string) (n : string) :
  ascii_cells cells → id_to_class (parse cells) !! k = Some n → ascii_text n.
Proof.
  intros Hcells. unfold parse. destruct (scan_cells_ascii cells Hcells) as [Hd Hb].
  destruct (scan_cells cells) as [d bs]. simpl in *. revert k n.
  change (map_Forall (λ _ n, ascii_text n) (foldl (record_box d) ∅ bs)).
  generalize (map_Forall_empty (M:=gmap (option string)) (λ _ (n : string), ascii_text n)).
  generalize (∅ : gmap (option string) string).
  induction Hb as [|b bs Hb _ IH]; intros m Hm; [done|].
  simpl. apply IH. unfold record_box.
  destruct (resolve_box d b) as [n|] eqn:Hr; [|done].
  apply map_Forall_insert_2; [|done]. by eapply resolve_box_ascii.
Qed.

(** X5.  In a diagram whose cell values are ASCII text, every class name
    that [parse] records is ASCII text, is non-empty, contains no white
    space, does not start with a lower-case letter, and is left as it is by
    a further sanitization. *)
Theorem parse_class_names (cells : list Cell) (k : option string) (n : string) :
  ascii_cells cells → id_to_class (parse cells) !! k = Some n →
  ascii_text n ∧ n ≠ "" ∧ no_space n ∧ (∀ c r, n = String c r → is_lower c = false)
  ∧ sanitize_class_name n = n.
Proof.
  intros Hcells Hk. split; [by apply (parse_ascii cells k)|].
  by apply (parse_shape cells k).
Qed.

Lemma parse_class_names_witness :
  ascii_text "UserAccount" ∧ "UserAccount" ≠ "" ∧ no_space "UserAccount"
  ∧ (∀ c r, "UserAccount" = String c r → is_lower c = false)
  ∧ sanitize_class_name "UserAccount" = "UserAccount".
Proof.
  apply (parse_class_names account_cells (Some "1")).
  - repeat constructor.
  - vm_compute. reflexivity.
Defined.

(** ** Which cells count *)

Lemma scan_edges_from (cells : list Cell) (acc : list Edge) :
  foldl scan_edge acc cells = acc ++ omap edge_of_cell cells.
Proof.
  revert acc. induction cells as [|c cells IH]; intros acc; simpl.
  - by rewrite app_nil_r.
  - rewrite IH. unfold scan_edge, edge_of_cell.
    destruct (cell_source c) as [s|], (cell_target c) as [t|]; try done.
    destruct (truthy s && truthy t); [|done]. by rewrite <- app_assoc.
Qed.

Lemma parse_edges_omap (cells : list Cell) :
  edges (parse cells) = omap edge_of_cell cells.
Proof.
  unfold parse. destruct (scan_cells cells) as [d bs]. simpl.
  by rewrite scan_edges_from.
Qed.

Lemma omap_length_le {A B} (f : A → option B) (l : list A) :
  (length (omap f l) ≤ length l)%nat.
Proof.
  induction l as [|a l IH]; [done|]. cbn [omap list_omap length].
  destruct (f a); cbn [length]; lia.
Qed.

Lemma strip_idemp (s : string) : strip (strip s) = strip s.
Proof. apply stripped_strip, strip_stripped. Qed.

(** X6.  The edges of [parse] are the cells that have a non-empty source
    and a non-empty target, in document order, each with its stripped value
    as label and its style as it is; geometry and identifier play no part.
    So the edges of two cell lists put end to end are the edges of the first
    followed by those of the second, and no edge has an empty end or a label
    with white space around it. *)
Theorem parse_edges (cells cells' : list Cell) :
  edges (parse cells) = omap edge_of_cell cells
  ∧ edges (parse (cells ++ cells')) = edges (parse cells) ++ edges (parse cells')
  ∧ (length (edges (parse cells)) ≤ length cells)%nat
  ∧ (∀ e, e ∈ edges (parse cells) →
       source_id e ≠ "" ∧ target_id e ≠ "" ∧ strip (label e) = label e
       ∧ ∃ cell, cell ∈ cells ∧ cell_source cell = Some (source_id e)
              ∧ cell_target cell = Some (target_id e)
              ∧ style e = get_or_empty (cell_style cell)).
Proof.
  rewrite !parse_edges_omap. split; [done|]. split; [apply omap_app|].
  split; [apply omap_length_le|].
  intros e (cell & Hin & He)%list_elem_of_omap. unfold edge_of_cell in He.
  destruct (cell_source cell) as [s|] eqn:Hs, (cell_target cell) as [t|] eqn:Ht;
    try done.
  destruct (truthy s && truthy t) eqn:Hst; [|done].
  apply andb_true_iff in Hst as [Hs'%truthy_true Ht'%truthy_true].
  injection He as <-. simpl. repeat split; try done; [apply strip_idemp|].
  exists cell. by rewrite Hs, Ht.
Qed.

Lemma scan_cell_not_shape acc (cell : Cell) : not_shape cell → scan_cell acc cell = acc.
Proof.
  destruct acc as [d bs]. unfold not_shape, scan_cell.
  destruct (cell_geometry cell); [|done].
  destruct (cell_source cell), (cell_target cell); try done.
  intros [?|[?|?]]; done.
Qed.

Lemma scan_cells_app (cells cells' : list Cell) :
  scan_cells (cells ++ cells') = foldl scan_cell (scan_cells cells) cells'.
Proof. unfold scan_cells. by rewrite foldl_app. Qed.

Lemma scan_cells_skip (cells cells' : list Cell) (cell : Cell) :
  not_shape cell → scan_cells (cells ++ cell :: cells') = scan_cells (cells ++ cells').
Proof.
  intros H. rewrite !scan_cells_app. simpl. by rewrite scan_cell_not_shape.
Qed.

Lemma edge_of_cell_not_edge (cell : Cell) : not_edge cell → edge_of_cell cell = None.
Proof.
  unfold not_edge, edge_of_cell.
  destruct (cell_source cell) as [s|], (cell_target cell) as [t|]; try done.
  simpl. by intros ->.
Qed.

Lemma parse_eq (cells cells' : list Cell) :
  scan_cells cells = scan_cells cells' →
  omap edge_of_cell cells = omap edge_of_cell cells' → parse cells = parse cells'.
Proof.
  intros Hs He. unfold parse. rewrite Hs. destruct (scan_cells cells') as [d bs].
  f_equal. by rewrite !scan_edges_from, He.
Qed.

(** X7.  A cell without geometry, or with a source or a target attribute
    (even an empty one), is neither a label nor a box: removing it changes
    no class name, whatever its style and value.  If moreover its source or
    its target is missing or empty, it is no edge either, and [parse]
    returns the same result without it. *)
Theorem parse_skips_cell (cells cells' : list Cell) (cell : Cell) :
  not_shape cell →
  scan_cells (cells ++ cell :: cells') = scan_cells (cells ++ cells')
  ∧ id_to_class (parse (cells ++ cell :: cells')) = id_to_class (parse (cells ++ cells'))
  ∧ (not_edge cell → parse (cells ++ cell :: cells') = parse (cells ++ cells')).
Proof.
  intros Hshape. pose proof (scan_cells_skip cells cells' cell Hshape) as Hscan.
  split; [done|]. split.
  - unfold parse. rewrite Hscan. by destruct (scan_cells (cells ++ cells')).
  - intros Hedge. apply parse_eq; [done|].
    rewrite !omap_app. simpl. by rewrite edge_of_cell_not_edge.
Qed.

Lemma parse_skips_cell_witness :
  parse (account_cells ++ dead_cell :: []) = parse (account_cells ++ []).
Proof.
  apply (parse_skips_cell account_cells [] dead_cell).
  - right. left. discriminate.
  - reflexivity.
Defined.

(** ** Boxes that share an identifier *)

Lemma record_boxes_snoc (text_labels : Labels) (bs : list Box) (b : Box)
    (m : gmap (option string) string) :
  foldl (record_box text_labels) m (bs ++ [b])
  = record_box text_labels (foldl (record_box text_labels) m bs) b.
Proof. by rewrite foldl_app. Qed.

Lemma record_boxes_lookup (text_labels : Labels) (bs : list Box)
    (k : option string) (n : string) :
  foldl (record_box text_labels) ∅ bs !! k = Some n ↔
  ∃ bs1 b bs2, bs = bs1 ++ b :: bs2 ∧ box_id b = k
    ∧ resolve_box text_labels b = Some n
    ∧ Forall (λ b', box_id b' = k → resolve_box text_labels b' = None) bs2.
Proof.
  induction bs as [|x bs IH] using rev_ind.
  - simpl. rewrite lookup_empty. split; [done|].
    intros (bs1 & b & bs2 & H & _). by destruct bs1.
  - rewrite record_boxes_snoc. unfold record_box at 1.
    destruct (resolve_box text_labels x) as [n'|] eqn:Hx;
      [destruct (decide (box_id x = k)) as [Hk|Hk]|].
    + rewrite Hk, lookup_insert_eq. split.
      * intros [= <-]. exists bs, x, []. by repeat split.
      * intros (bs1 & b & bs2 & Hsplit & _ & Hb & Hlater).
        destruct bs2 as [|y bs2 _] using rev_ind.
        { apply app_inj_tail in Hsplit as [_ <-]. congruence. }
        rewrite app_comm_cons, app_assoc in Hsplit.
        apply app_inj_tail in Hsplit as [_ <-].
        apply Forall_app in Hlater as [_ Hy%Forall_inv].
        specialize (Hy Hk). congruence.
    + rewrite lookup_insert_ne by done. rewrite IH. split.
      * intros (bs1 & b & bs2 & -> & Hid & Hb & Hlater).
        exists bs1, b, (bs2 ++ [x]). rewrite <- app_assoc. repeat split; try done.
        apply Forall_app. split; [done|]. by apply Forall_singleton.
      * intros (bs1 & b & bs2 & Hsplit & Hid & Hb & Hlater).
        destruct bs2 as [|y bs2 _] using rev_ind.
        { apply app_inj_tail in Hsplit as [_ <-]. congruence. }
        rewrite app_comm_cons, app_assoc in Hsplit.
        apply app_inj_tail in Hsplit as [-> <-].
        apply Forall_app in Hlater as [Hlater _]. by exists bs1, b, bs2.
    + rewrite IH. split.
      * intros (bs1 & b & bs2 & -> & Hid & Hb & Hlater).
        exists bs1, b, (bs2 ++ [x]). rewrite <- app_assoc. repeat split; try done.
        apply Forall_app. split; [done|]. by apply Forall_singleton.
      * intros (bs1 & b & bs2 & Hsplit & Hid & Hb & Hlater).
        destruct bs2 as [|y bs2 _] using rev_ind.
        { apply app_inj_tail in Hsplit as [_ <-]. congruence. }
        rewrite app_comm_cons, app_assoc in Hsplit.
        apply app_inj_tail in Hsplit as [-> <-].
        apply Forall_app in Hlater as [Hlater _]. by exists bs1, b, bs2.
Qed.

(** X8.  When several boxes carry the same identifier, the class name kept
    for it is that of the last box, in document order, that gets a name at
    all: a later box that gets a name overwrites it, a later box that gets
    none leaves it.  An identifier has a class name exactly when some box
    carrying it gets one. *)
Theorem id_to_class_last_named_box (cells : list Cell) (k : option string) (n : string) :
  let text_labels := (scan_cells cells).1 in
  let boxes := (scan_cells cells).2 in
  (id_to_class (parse cells) !! k = Some n ↔
   ∃ bs1 b bs2, boxes = bs1 ++ b :: bs2 ∧ box_id b = k
     ∧ resolve_box text_labels b = Some n
     ∧ Forall (λ b', box_id b' = k → resolve_box text_labels b' = None) bs2)
  ∧ (is_Some (id_to_class (parse cells) !! k) ↔
     ∃ b, b ∈ boxes ∧ box_id b = k ∧ is_Some (resolve_box text_labels b)).
Proof.
  simpl. unfold parse. destruct (scan_cells cells) as [d bs]. simpl.
  split; [apply record_boxes_lookup|].
  split.
  - intros [n' (bs1 & b & bs2 & -> & Hid & Hb & _)%record_boxes_lookup].
    exists b. split; [|by rewrite Hb]. apply elem_of_app. right. by left.
  - intros (b & Hin & Hid & Hb). revert Hin.
    induction bs as [|x bs IH] using rev_ind; [by intros ?%elem_of_nil|].
    rewrite record_boxes_snoc. unfold record_box at 1.
    intros [Hin | ->%list_elem_of_singleton]%elem_of_app.
    + destruct (resolve_box d x) as [n'|]; [|by apply IH].
      destruct (decide (box_id x = k)) as [->|Hk].
      * rewrite lookup_insert_eq. by eexists.
      * rewrite lookup_insert_ne by done. by apply IH.
    + destruct Hb as [n' Hb]. rewrite Hb, Hid, lookup_insert_eq. by eexists.
Qed.

(** * Boxes and their names *)

Lemma scan_cell_boxes acc (cell : Cell) :
  (scan_cell acc cell).2 = acc.2 ++ option_list (box_of_cell cell).
Proof.
  destruct acc as [d bs]. unfold scan_cell, box_of_cell. simpl.
  destruct (cell_geometry cell); [|by rewrite app_nil_r].
  destruct (cell_source cell), (cell_target cell); try by rewrite app_nil_r.
  destruct (contains "text;" _ && truthy (strip _)); simpl; [by rewrite app_nil_r|].
  destruct (contains "whiteSpace=wrap" _); simpl; [done|by rewrite app_nil_r].
Qed.

Lemma scan_cells_boxes (cells : list Cell) :
  (scan_cells cells).2 = omap box_of_cell cells.
Proof.
  unfold scan_cells.
  assert (H : ∀ acc, (foldl scan_cell acc cells).2 = acc.2 ++ omap box_of_cell cells).
  { induction cells as [|c cells IH]; intros acc; simpl; [by rewrite app_nil_r|].
    rewrite IH, scan_cell_boxes, <- app_assoc. f_equal.
    cbn [omap list_omap]. by destruct (box_of_cell c). }
  apply H.
Qed.

Lemma box_of_cell_wrap (cell : Cell) (b : Box) :
  box_of_cell cell = Some b → wrap_shape cell ∧ box_id b = cell_id cell.
Proof.
  unfold box_of_cell, wrap_shape.
  destruct (cell_geometry cell) as [geo|]; [|done].
  destruct (cell_source cell), (cell_target cell); try done.
  destruct (contains "text;" _ && truthy (strip _)); [done|].
  destruct (contains "whiteSpace=wrap" _); [|done].
  intros [= <-]. by repeat split.
Qed.

Lemma box_of_titled (cell : Cell) (v : string) :
  titled_box cell v →
  ∃ b, box_of_cell cell = Some b ∧ box_id b = cell_id cell ∧ box_value b = v.
Proof.
  intros (([geo Hg] & Hs & Ht & Hw) & Htext & -> & Hv).
  unfold box_of_cell. rewrite Hg, Hs, Ht, Htext, Hw. simpl. by eexists.
Qed.

Lemma resolve_box_titled (text_labels : Labels) (b : Box) :
  box_value b ≠ "" → resolve_box text_labels b = Some (sanitize_class_name (box_value b)).
Proof.
  intros Hv%truthy_ne. unfold resolve_box. by repeat (rewrite Hv; simpl).
Qed.

(** X9.  A box with a text of its own is named by that text, sanitized,
    whatever labels lie in it or anywhere else in the diagram, provided no
    later cell carries its identifier. *)
Theorem box_named_by_its_value (cells1 cells2 : list Cell) (cell : Cell) (v : string) :
  titled_box cell v →
  (∀ c', c' ∈ cells2 → cell_id c' ≠ cell_id cell) →
  id_to_class (parse (cells1 ++ cell :: cells2)) !! cell_id cell
  = Some (sanitize_class_name v)
  ∧ sanitize_class_name v ∈ get_classes (parse (cells1 ++ cell :: cells2)).
Proof.
  intros Htitled Hlater.
  destruct (box_of_titled cell v Htitled) as (b & Hb & Hid & Hval).
  assert (Hv : box_value b ≠ "") by (rewrite Hval; apply Htitled).
  assert (Hk : id_to_class (parse (cells1 ++ cell :: cells2)) !! cell_id cell
               = Some (sanitize_class_name v)).
  { pose proof (scan_cells_boxes (cells1 ++ cell :: cells2)) as Hboxes.
    unfold parse. destruct (scan_cells (cells1 ++ cell :: cells2)) as [d bs].
    simpl in *. apply record_boxes_lookup.
    exists (omap box_of_cell cells1), b, (omap box_of_cell cells2).
    split; [|split; [done|split]].
    - rewrite Hboxes, omap_app. cbn [omap list_omap]. by rewrite Hb.
    - rewrite <- Hval. by apply resolve_box_titled.
    - apply Forall_forall. intros b' (c' & Hin & Hb')%list_elem_of_omap Hid'.
      apply box_of_cell_wrap in Hb' as [_ Hid'']. destruct (Hlater c' Hin). congruence. }
  split; [done|]. unfold get_classes. apply elem_of_map_img. by eexists.
Qed.

Lemma box_named_by_its_value_witness :
  id_to_class (parse labelled_order) !! Some "7" = Some "OrderItem"
  ∧ "OrderItem" ∈ get_classes (parse labelled_order).
Proof.
  assert (Hbox : titled_box (plain_box "7" " order item ") "order item").
  { split; [|split; [by vm_compute|split; [by vm_compute|done]]].
    split; [by eexists|]. split; [done|]. split; [done|by vm_compute]. }
  assert (Hlater : ∀ c' : Cell, c' ∈ [] → cell_id c' ≠ cell_id (plain_box "7" " order item ")).
  { intros c' Hin. by apply elem_of_nil in Hin. }
  exact (box_named_by_its_value
           [mkCell (Some "7") (Some "sales") (Some "text;html=1")
                   (Some (mkGeometry 5 5 0 0)) None None]
           [] (plain_box "7" " order item ") "order item" Hbox Hlater).
Defined.

(** X10.  A class name is only ever recorded for the identifier of a shape
    with the wrap marker in its style: a cell with geometry, without source
    and target.  The name is the sanitized text of that cell when it has
    one, and the sanitized text of a stored label when its own text is
    blank.  Labels name boxes, never themselves; a diagram without such a
    shape has no class. *)
Theorem class_needs_box (cells : list Cell) (k : option string) (n : string) :
  id_to_class (parse cells) !! k = Some n →
  ∃ cell, cell ∈ cells ∧ cell_id cell = k ∧ wrap_shape cell
    ∧ (titled_box cell (strip (get_or_empty (cell_value cell)))
       ∧ n = sanitize_class_name (strip (get_or_empty (cell_value cell)))
       ∨ strip (get_or_empty (cell_value cell)) = ""
         ∧ ∃ pos text, (pos, text) ∈ (scan_cells cells).1
                       ∧ n = sanitize_class_name text).
Proof.
  pose proof (scan_cells_boxes cells) as Hboxes. unfold parse.
  destruct (scan_cells cells) as [d bs] eqn:Hscan. simpl in *.
  intros (bs1 & b & bs2 & Hsplit & Hid & Hres & _)%record_boxes_lookup.
  assert (Hin : b ∈ omap box_of_cell cells).
  { rewrite <- Hboxes, Hsplit. apply elem_of_app. right. by left. }
  apply list_elem_of_omap in Hin as (cell & Hcell & Hb).
  destruct (box_of_cell_wrap cell b Hb) as [Hwrap Hid'].
  exists cell. split; [done|]. split; [congruence|]. split; [done|].
  revert Hb Hres. unfold box_of_cell, titled_box.
  destruct Hwrap as ([geo Hg] & Hs & Ht & Hw). rewrite Hg, Hs, Ht, Hw. simpl.
  destruct (contains "text;" _) eqn:Htext; simpl.
  - destruct (truthy (strip _)) eqn:Hv; [done|]. apply truthy_false in Hv.
    intros [= <-] Hres. right. split; [done|].
    revert Hres. unfold resolve_box. simpl. rewrite Hv. simpl.
    destruct (find_label d _) as [text|] eqn:Hf; [|done].
    apply find_label_elem in Hf as [pos Hin]. destruct (truthy text); [|done].
    intros [= <-]. by exists pos, text.
  - intros [= <-] Hres.
    destruct (truthy (strip (get_or_empty (cell_value cell)))) eqn:Hv.
    + left. split.
      * split; [by repeat split; try eexists|]. split; [done|]. split; [done|].
        by apply truthy_true.
      * revert Hres. unfold resolve_box. simpl. repeat (rewrite Hv; simpl).
        by intros [= <-].
    + apply truthy_false in Hv. right. split; [done|].
      revert Hres. unfold resolve_box. simpl. rewrite Hv. simpl.
      destruct (find_label d _) as [text|] eqn:Hf; [|done].
      apply find_label_elem in Hf as [pos Hin]. destruct (truthy text); [|done].
      intros [= <-]. by exists pos, text.
Qed.

Lemma class_needs_box_witness :
  ∃ cell, cell ∈ account_cells ∧ cell_id cell = Some "1" ∧ wrap_shape cell
    ∧ (titled_box cell (strip (get_or_empty (cell_value cell)))
       ∧ "UserAccount" = sanitize_class_name (strip (get_or_empty (cell_value cell)))
       ∨ strip (get_or_empty (cell_value cell)) = ""
         ∧ ∃ pos text, (pos, text) ∈ (scan_cells account_cells).1
                       ∧ "UserAccount" = sanitize_class_name text).
Proof.
  apply (class_needs_box account_cells (Some "1") "UserAccount").
  vm_compute. reflexivity.
Defined.

(** * More on the class model builder *)

Lemma resolves_fun (g : CodeGenerator) (e : Edge) (s t s' t' : string) :
  resolves g e s t → resolves g e s' t' → s' = s ∧ t' = t.
Proof. intros (Hs & Ht & _) (Hs' & Ht' & _). split; congruence. Qed.

Lemma resolves_not_unresolved (g : CodeGenerator) (e : Edge) (s t : string) :
  resolves g e s t → ¬ unresolved g e.
Proof.
  intros (Hs & Ht & Hsne & Htne) [H|H].
  - rewrite Hs in H. simpl in H. by rewrite truthy_ne in H.
  - rewrite Ht in H. simpl in H. by rewrite truthy_ne in H.
Qed.

Lemma resolves_or_unresolved (g : CodeGenerator) (e : Edge) :
  (∃ s t, resolves g e s t) ∨ unresolved g e.
Proof.
  unfold resolves, unresolved.
  destruct (id_to_class (parser g) !! Some (source_id e)) as [s|]; [|right; by left].
  destruct (id_to_class (parser g) !! Some (target_id e)) as [t|]; [|right; by right].
  simpl. destruct (truthy s) eqn:Hs; [|right; by left].
  destruct (truthy t) eqn:Ht; [|right; by right].
  left. exists s, t. repeat split; by apply truthy_true.
Qed.

(** One call on an edge that resolves, whether or not the classes exist *)
Lemma process_resolved_raw (g : CodeGenerator) (e : Edge) (s t : string) :
  resolves g e s t →
  let m := get_multiplicity e in
  let g1 := print g (relationship_line s (classify e) t m) in
  _process_relationship g e =
    if String.eqb (classify e) "EXPANDS" then
      cd ← getitem (classes g) s; Ok (set_class g1 s (set_extends cd t))
    else if String.eqb (classify e) "DEPENDS" then
      cd ← getitem (classes g) s;
      Ok (set_class g1 s (add_field cd t (lower_camel_name t) false))
    else if String.eqb (classify e) "HAVE" then
      cd ← getitem (classes g) s;
      Ok (set_class g1 s (add_field cd t (plural_name m t) (String.eqb m "*")))
    else if String.eqb (classify e) "PART_OF" then
      cd ← getitem (classes g) t;
      Ok (set_class g1 t (add_field cd s (plural_name m s) (String.eqb m "*")))
    else Ok g1.
Proof.
  intros (Hs & Ht & Hsne & Htne). unfold _process_relationship, plural_name.
  rewrite Hs, Ht, (truthy_ne s Hsne), (truthy_ne t Htne). simpl.
  rewrite !(lower_camel_ok s Hsne), !(lower_camel_ok t Htne). simpl.
  repeat (destruct (String.eqb (classify e) _); [done|]). done.
Qed.

(** ** The printed lines *)

Lemma line_of_resolved (g : CodeGenerator) (e : Edge) (s t : string) :
  resolves g e s t →
  line_of (parser g) e = Some (relationship_line s (classify e) t (get_multiplicity e)).
Proof.
  intros (Hs & Ht & Hsne & Htne). unfold line_of.
  by rewrite Hs, Ht, (truthy_ne s Hsne), (truthy_ne t Htne).
Qed.

Lemma line_of_unresolved (g : CodeGenerator) (e : Edge) :
  unresolved g e → line_of (parser g) e = None.
Proof.
  unfold unresolved, line_of.
  destruct (id_to_class (parser g) !! Some (source_id e)) as [s|],
           (id_to_class (parser g) !! Some (target_id e)) as [t|]; simpl; try done.
  intros [-> | ->]; simpl; [done|]. by rewrite andb_false_r.
Qed.

Lemma process_printed (g g' : CodeGenerator) (e : Edge) :
  _process_relationship g e = Ok g' →
  printed g' = printed g ++ option_list (line_of (parser g) e).
Proof.
  destruct (resolves_or_unresolved g e) as [(s & t & Hres)|Hun].
  - rewrite (line_of_resolved g e s t Hres). intros Hrun.
    by apply (process_resolved_printed g g' e s t).
  - rewrite (process_unresolved g e Hun), (line_of_unresolved g e Hun).
    intros [= <-]. simpl. by rewrite app_nil_r.
Qed.

Lemma process_all_printed (g g' : CodeGenerator) (es : list Edge) :
  process_all g es = Ok g' →
  printed g' = printed g ++ omap (line_of (parser g)) es.
Proof.
  revert g. induction es as [|e es IH]; intros g.
  - intros [= <-]. simpl. by rewrite app_nil_r.
  - intros (g1 & H1 & Hrest)%process_all_cons.
    rewrite (IH g1 Hrest), (process_printed g g1 e H1), (process_parser g g1 e H1).
    rewrite <- app_assoc. f_equal. cbn [omap list_omap].
    by destruct (line_of (parser g) e).
Qed.

(** X11.  The edge loop prints one line per edge whose two ends name a
    class, in edge order, and nothing for the other edges; the line shows
    the two class names, the kind (UNKNOWN included) and the multiplicity.
    Whatever the edges do to the model, the lines depend only on the
    parser's result. *)
Theorem printed_lines (g g' : CodeGenerator) (es : list Edge) :
  process_all g es = Ok g' →
  printed g' = printed g ++ omap (line_of (parser g)) es
  ∧ (length (printed g') ≤ length (printed g) + length es)%nat
  ∧ (∀ e, e ∈ es → unresolved g e → line_of (parser g) e = None)
  ∧ (∀ e s t, e ∈ es → resolves g e s t →
       relationship_line s (classify e) t (get_multiplicity e) ∈ printed g').
Proof.
  intros Hrun. pose proof (process_all_printed g g' es Hrun) as Hp.
  split; [done|]. split; [|split].
  - rewrite Hp, length_app. pose proof (omap_length_le (line_of (parser g)) es). lia.
  - intros e _. apply line_of_unresolved.
  - intros e s t Hin Hres. rewrite Hp. apply elem_of_app. right.
    apply list_elem_of_omap. exists e. split; [done|]. by apply line_of_resolved.
Qed.

Lemma printed_lines_witness :
  printed (shop_after two_parents)
  = printed shop ++ omap (line_of (parser shop)) two_parents.
Proof.
  assert (Hrun : process_all shop two_parents = Ok (shop_after two_parents))
    by (vm_compute; reflexivity).
  pose proof (printed_lines shop _ two_parents Hrun) as [H _]. clear Hrun.
  exact H.
Defined.

(** ** Exceptions *)

Lemma process_raises (g : CodeGenerator) (e : Edge) (x : exn) :
  _process_relationship g e = Raise x ↔
  ∃ s t, resolves g e s t
    ∧ ((x = KeyError s ∧ classes g !! s = None
        ∧ (classify e = "EXPANDS" ∨ classify e = "DEPENDS" ∨ classify e = "HAVE"))
       ∨ (x = KeyError t ∧ classes g !! t = None ∧ classify e = "PART_OF")).
Proof.
  destruct (resolves_or_unresolved g e) as [(s & t & Hres)|Hun].
  - rewrite (process_resolved_raw g e s t Hres). simpl.
    unfold getitem, mbind, result_bind. split.
    + intros Hraise. exists s, t. split; [done|]. revert Hraise.
      destruct (String.eqb_spec (classify e) "EXPANDS") as [Hk|_].
      { destruct (classes g !! s); [done|]. intros [= <-]. left. auto. }
      destruct (String.eqb_spec (classify e) "DEPENDS") as [Hk|_].
      { destruct (classes g !! s); [done|]. intros [= <-]. left. auto. }
      destruct (String.eqb_spec (classify e) "HAVE") as [Hk|_].
      { destruct (classes g !! s); [done|]. intros [= <-]. left. auto. }
      destruct (String.eqb_spec (classify e) "PART_OF") as [Hk|_]; [|done].
      destruct (classes g !! t); [done|]. intros [= <-]. right. auto.
    + intros (s' & t' & Hres' & H).
      destruct (resolves_fun g e s t s' t' Hres Hres') as [-> ->].
      destruct H as [(-> & -> & [Hk|[Hk|Hk]]) | (-> & -> & Hk)]; by rewrite Hk.
  - rewrite (process_unresolved g e Hun). split; [done|].
    intros (s & t & Hres & _). by apply (resolves_not_unresolved g e s t) in Hun.
Qed.

(** X12.  A call raises only on an edge whose two ends name classes, and
    only [KeyError], for the class that would be changed and is missing from
    the model: the source class for EXPANDS, DEPENDS and HAVE, the target
    class for PART_OF.  It never raises on an UNKNOWN edge, and the indexing
    [name[0]] never raises, the name being non-empty by then. *)
Theorem process_relationship_raises (g : CodeGenerator) (e : Edge) (x : exn) :
  (_process_relationship g e = Raise x ↔
   ∃ s t, resolves g e s t
     ∧ ((x = KeyError s ∧ classes g !! s = None
         ∧ (classify e = "EXPANDS" ∨ classify e = "DEPENDS" ∨ classify e = "HAVE"))
        ∨ (x = KeyError t ∧ classes g !! t = None ∧ classify e = "PART_OF")))
  ∧ _process_relationship g e ≠ Raise IndexError
  ∧ (classify e = "UNKNOWN" → ∃ g', _process_relationship g e = Ok g').
Proof.
  split; [apply process_raises|]. split.
  - intros (s & t & _ & [(H & _)|(H & _)])%process_raises; discriminate H.
  - intros Hk. destruct (_process_relationship g e) as [g'|y] eqn:Hrun; [by exists g'|].
    apply process_raises in Hrun as (s & t & _ & [(_ & _ & [H|[H|H]])|(_ & _ & H)]);
      rewrite Hk in H; discriminate H.
Qed.

(** ** Edges without effect *)

Lemma same_model_refl (g : CodeGenerator) : same_model g g.
Proof. by split. Qed.

Lemma same_outcome_refl (r : result CodeGenerator) : same_outcome r r.
Proof. destruct r; simpl; [apply same_model_refl|done]. Qed.

Lemma same_outcome_trans (r1 r2 r3 : result CodeGenerator) :
  same_outcome r1 r2 → same_outcome r2 r3 → same_outcome r1 r3.
Proof.
  destruct r1, r2, r3; simpl; try done.
  - intros [? ?] [? ?]. split; congruence.
  - congruence.
Qed.

Lemma resolves_same_model (g1 g2 : CodeGenerator) (e : Edge) (s t : string) :
  same_model g1 g2 → resolves g1 e s t → resolves g2 e s t.
Proof. intros [Hp _]. unfold resolves. by rewrite Hp. Qed.

Lemma unresolved_same_model (g1 g2 : CodeGenerator) (e : Edge) :
  same_model g1 g2 → unresolved g1 e → unresolved g2 e.
Proof. intros [Hp _]. unfold unresolved. by rewrite Hp. Qed.

Lemma process_same_model (g1 g2 : CodeGenerator) (e : Edge) :
  same_model g1 g2 →
  same_outcome (_process_relationship g1 e) (_process_relationship g2 e).
Proof.
  intros Hsame. destruct (resolves_or_unresolved g1 e) as [(s & t & Hres)|Hun].
  - rewrite (process_resolved_raw g1 e s t Hres).
    rewrite (process_resolved_raw g2 e s t (resolves_same_model _ _ _ _ _ Hsame Hres)).
    destruct Hsame as [Hp Hc]. simpl. rewrite Hc.
    unfold getitem, mbind, result_bind.
    repeat (destruct (String.eqb (classify e) _);
            [repeat case_match; simpl; try done; split; simpl; congruence|]).
    split; simpl; congruence.
  - rewrite (process_unresolved g1 e Hun).
    by rewrite (process_unresolved g2 e (unresolved_same_model _ _ _ Hsame Hun)).
Qed.

Lemma process_all_same_model (g1 g2 : CodeGenerator) (es : list Edge) :
  same_model g1 g2 → same_outcome (process_all g1 es) (process_all g2 es).
Proof.
  revert g1 g2. induction es as [|e es IH]; intros g1 g2 Hsame; [done|].
  simpl. pose proof (process_same_model g1 g2 e Hsame) as H.
  unfold mbind, result_bind.
  destruct (_process_relationship g1 e), (_process_relationship g2 e); try done.
  by apply IH.
Qed.

Lemma process_inert (g : CodeGenerator) (e : Edge) :
  inert (parser g) e = true →
  ∃ g', _process_relationship g e = Ok g' ∧ same_model g' g.
Proof.
  intros Hin. destruct (resolves_or_unresolved g e) as [(s & t & Hres)|Hun].
  - rewrite (process_resolved_raw g e s t Hres). simpl.
    destruct Hres as (Hs & Ht & Hsne & Htne). unfold inert in Hin.
    rewrite Hs, Ht in Hin. simpl in Hin.
    rewrite (truthy_ne s Hsne), (truthy_ne t Htne) in Hin. simpl in Hin.
    apply String.eqb_eq in Hin. rewrite Hin. simpl. eexists. by split.
  - exists g. split; [by apply process_unresolved|apply same_model_refl].
Qed.

(** X13.  Edges with an end that names no class and edges of kind UNKNOWN
    have no part in the result: the edge loop run without them ends with the
    same classes, or with the same exception. *)
Theorem inert_edges_have_no_effect (g : CodeGenerator) (es : list Edge) :
  same_outcome (process_all g es)
               (process_all g (List.filter (λ e, negb (inert (parser g) e)) es)).
Proof.
  revert g. induction es as [|e es IH]; intros g; [apply same_outcome_refl|].
  cbn [List.filter]. destruct (inert (parser g) e) eqn:Hin; cbn [negb].
  - destruct (process_inert g e Hin) as (g1 & H1 & Hsame).
    cbn [process_all]. rewrite H1. unfold mbind, result_bind.
    eapply same_outcome_trans; [apply (process_all_same_model g1 g es Hsame)|].
    apply IH.
  - cbn [process_all]. unfold mbind, result_bind.
    destruct (_process_relationship g e) as [g1|x] eqn:H1; [|done].
    rewrite <- (process_parser g g1 e H1). apply IH.
Qed.

(** ** What the loop keeps of each class *)

Lemma process_keyed (g g' : CodeGenerator) (e : Edge) :
  _process_relationship g e = Ok g' → keyed_by_name g → keyed_by_name g'.
Proof.
  intros Hrun Hkey n cd' Hn.
  destruct (process_effect _ _ _ Hrun)
    as [_ Hcl | s t cs _ _ Hcs Hcl | s t owner other cd fname l _ _ _ Hcd Hcl];
    rewrite Hcl in Hn; [by apply Hkey| |];
    rewrite lookup_insert in Hn; (case_decide; [|by apply Hkey]); injection Hn as <-;
    subst n.
  - by apply (Hkey _ _ Hcs).
  - rewrite add_field_name. by apply (Hkey _ _ Hcd).
Qed.

Lemma process_all_keyed (g g' : CodeGenerator) (es : list Edge) :
  process_all g es = Ok g' → keyed_by_name g → keyed_by_name g'.
Proof.
  revert g. induction es as [|e es IH]; intros g; [by intros [= <-]|].
  intros (g1 & H1 & Hrest)%process_all_cons Hkey.
  apply (IH g1 Hrest). by apply (process_keyed g g1 e).
Qed.

Lemma generate_invariants (cells : list Cell) (g : CodeGenerator) :
  generate cells = Ok g →
  parser g = parse cells ∧ keyed_by_name g ∧ closed_model g
  ∧ (∀ n, known g n ↔ n ∈ get_classes (parse cells)).
Proof.
  unfold generate. intros Hrun.
  destruct (init_generator_closed cells) as [Hcov Hclosed].
  destruct (process_all_closed _ (edges (parser (init_generator cells))) Hcov Hclosed)
    as (g0 & Hrun0 & Hc & _ & Hk).
  rewrite Hrun in Hrun0. injection Hrun0 as <-.
  split; [by apply process_all_parser in Hrun|]. split; [|split; [done|]].
  - apply (process_all_keyed _ _ _ Hrun).
    by intros n cd [_ ->]%init_generator_lookup.
  - intros n. etrans; [apply Hk|]. apply init_generator_known.
Qed.

Lemma known_shape (cells : list Cell) (g : CodeGenerator) (n : string) :
  generate cells = Ok g → known g n → class_name_shape n.
Proof.
  intros (_ & _ & _ & Hk)%generate_invariants Hn.
  apply Hk in Hn. unfold get_classes in Hn.
  apply elem_of_map_img in Hn as [k Hn]. by apply (parse_shape cells k).
Qed.

Lemma known_ascii (cells : list Cell) (g : CodeGenerator) (n : string) :
  ascii_cells cells → generate cells = Ok g → known g n → ascii_text n.
Proof.
  intros Hcells (_ & _ & _ & Hk)%generate_invariants Hn.
  apply Hk in Hn. unfold get_classes in Hn.
  apply elem_of_map_img in Hn as [k Hn]. by apply (parse_ascii cells k).
Qed.

(** X14.  For a diagram whose cell values are ASCII text, in the model
    [generate] hands to the emitter every class definition sits under its
    own name, and that name, the parent if one is set and the type of every
    field are ASCII text with the shape of a class name: not empty, no
    white space, no lower-case first letter. *)
Theorem generate_class_names (cells : list Cell) (g : CodeGenerator)
    (n : string) (cd : ClassDef) :
  ascii_cells cells → generate cells = Ok g → classes g !! n = Some cd →
  name cd = n ∧ class_name_shape n ∧ ascii_text n
  ∧ (∀ p, extends cd = Some p → class_name_shape p ∧ ascii_text p)
  ∧ (∀ f, f ∈ fields cd → class_name_shape (field_type f) ∧ ascii_text (field_type f)).
Proof.
  intros Hcells Hrun Hn.
  pose proof (generate_invariants cells g Hrun) as (_ & Hkey & Hcl & _).
  destruct (Hcl n cd Hn) as [Hp Hf].
  assert (Hboth : ∀ m, known g m → class_name_shape m ∧ ascii_text m).
  { intros m Hm. split; [by apply (known_shape cells g m) | by apply (known_ascii cells g m)]. }
  split; [by apply Hkey|].
  destruct (Hboth n) as [Hshape Hascii]; [by exists cd|].
  split; [done|]. split; [done|]. split.
  - intros p Hext. by apply Hboth, Hp.
  - intros f Hin. by apply Hboth, Hf.
Qed.

Lemma generate_class_names_witness :
  name customer_class = "Customer" ∧ class_name_shape "Customer" ∧ ascii_text "Customer"
  ∧ (∀ p, extends customer_class = Some p → class_name_shape p ∧ ascii_text p)
  ∧ (∀ f, f ∈ fields customer_class →
       class_name_shape (field_type f) ∧ ascii_text (field_type f)).
Proof.
  apply (generate_class_names shop_diagram shop_model).
  - repeat constructor.
  - vm_compute. reflexivity.
  - vm_compute. reflexivity.
Defined.

(** ** Fields are only ever added *)

Lemma process_grows (g g' : CodeGenerator) (e : Edge) (n : string) (cd : ClassDef) :
  _process_relationship g e = Ok g' → classes g !! n = Some cd →
  ∃ cd', classes g' !! n = Some cd' ∧ name cd' = name cd
    ∧ fields cd `prefix_of` fields cd'
    ∧ (is_Some (extends cd) → is_Some (extends cd')).
Proof.
  intros Hrun Hn.
  destruct (process_effect _ _ _ Hrun)
    as [_ Hcl | s t cs _ _ Hcs Hcl | s t owner other cd0 fname l _ _ _ Hcd Hcl];
    rewrite Hcl.
  - by exists cd.
  - rewrite lookup_insert. case_decide as Hk; [|by exists cd]. subst n.
    rewrite Hcs in Hn. injection Hn as ->. eexists. split; [done|]. simpl.
    repeat split; [done|]. intros _. by eexists.
  - rewrite lookup_insert. case_decide as Hk; [|by exists cd]. subst n.
    rewrite Hcd in Hn. injection Hn as ->. eexists. split; [done|].
    rewrite add_field_name, add_field_extends. repeat split; [|done].
    destruct (add_field_fields cd other fname l) as [-> | ->]; [done|].
    by apply prefix_app_r.
Qed.

(** X15.  The edge loop never removes a class, never renames it, never
    removes, reorders or changes a field it has, and never clears a parent:
    a class of the model before the loop is there after it, under the same
    name, its earlier fields are the first fields of the later list, and if
    it had a parent it has one. *)
Theorem process_all_grows (g g' : CodeGenerator) (es : list Edge)
    (n : string) (cd : ClassDef) :
  process_all g es = Ok g' → classes g !! n = Some cd →
  ∃ cd', classes g' !! n = Some cd' ∧ name cd' = name cd
    ∧ (∃ added, fields cd' = fields cd ++ added)
    ∧ (is_Some (extends cd) → is_Some (extends cd')).
Proof.
  revert g cd. induction es as [|e es IH]; intros g cd.
  - intros [= <-] Hn. exists cd. repeat split; try done. exists []. by rewrite app_nil_r.
  - intros (g1 & H1 & Hrest)%process_all_cons Hn.
    destruct (process_grows g g1 e n cd H1 Hn) as (cd1 & Hn1 & Hname1 & [k1 Hf1] & He1).
    destruct (IH g1 cd1 Hrest Hn1) as (cd' & Hn' & Hname' & [k' Hf'] & He').
    exists cd'. split; [done|]. split; [congruence|]. split; [|tauto].
    exists (k1 ++ k'). by rewrite Hf', Hf1, <- app_assoc.
Qed.

Lemma process_all_grows_witness :
  ∃ cd', classes (shop_after two_haves) !! "Customer" = Some cd'
    ∧ name cd' = name (new_class "Customer")
    ∧ (∃ added, fields cd' = fields (new_class "Customer") ++ added)
    ∧ (is_Some (extends (new_class "Customer")) → is_Some (extends cd')).
Proof.
  apply (process_all_grows shop _ two_haves).
  - vm_compute. reflexivity.
  - vm_compute. reflexivity.
Defined.

(** * The Java emitter *)

Lemma foldl_append {A B} (h : A → list B) (acc : list B) (l : list A) :
  foldl (λ lines f, lines ++ h f) acc l = acc ++ flat_map h l.
Proof.
  revert acc. induction l as [|a l IH]; intros acc; simpl.
  - by rewrite app_nil_r.
  - by rewrite IH, <- app_assoc.
Qed.

Lemma foldl_initialisers (acc : list string) (l : list Field) :
  foldl (λ lines f, if field_is_list f then lines ++ [initialiser_line f] else lines) acc l
  = acc ++ flat_map initialiser_lines l.
Proof.
  revert acc. induction l as [|a l IH]; intros acc; simpl.
  - by rewrite app_nil_r.
  - rewrite IH. unfold initialiser_lines at 2.
    destruct (field_is_list a); simpl; [by rewrite <- app_assoc|done].
Qed.

Lemma foldl_accessors (acc : list string) (l : list Field) :
  foldl (λ lines f,
           let lines := lines ++ [getter_line f] in
           let lines := lines ++ [return_line f] in
           let lines := lines ++ ["    }"] in
           let lines := lines ++ [""] in
           let lines := lines ++ [setter_line f] in
           let lines := lines ++ [assign_line f] in
           let lines := lines ++ ["    }"] in
           lines ++ [""]) acc l
  = acc ++ flat_map accessor_lines l.
Proof.
  revert acc. induction l as [|a l IH]; intros acc; simpl.
  - by rewrite app_nil_r.
  - rewrite IH. by rewrite <- !app_assoc.
Qed.

(** The lines of a class, section by section *)
Lemma class_lines_sections (cd : ClassDef) :
  class_lines cd =
    [header_line cd; ""]
    ++ (if truthy_list (fields cd) then map declaration_line (fields cd) ++ [""] else [])
    ++ [constructor_line cd] ++ flat_map initialiser_lines (fields cd) ++ ["    }"; ""]
    ++ flat_map accessor_lines (fields cd) ++ ["}"].
Proof.
  unfold class_lines. rewrite foldl_initialisers.
  destruct (fields cd) as [|f fs] eqn:Hf; [done|].
  cbn [truthy_list]. rewrite foldl_accessors, (foldl_append (λ f, [declaration_line f])).
  rewrite <- !app_assoc. simpl. repeat f_equal.
Qed.

(** ** Names of the accessors *)

Lemma upper_lower_char c : is_lower c = false → upper_char (lower_char c) = c.
Proof. destruct c as [[] [] [] [] [] [] [] []]; by vm_compute. Qed.

Lemma capitalize_field_name (t : string) (l : bool) :
  class_name_shape t →
  _capitalize (field_name_for t l) = if l then t +:+ "s" else t.
Proof.
  intros (Hne & _ & Hc & _). destruct t as [|c r]; [done|].
  specialize (Hc c r eq_refl). unfold field_name_for, lower_camel_name. simpl.
  destruct l; rewrite ?app_cons; unfold _capitalize; simpl; by rewrite upper_lower_char.
Qed.

Lemma well_named_print (g : CodeGenerator) (line : string) :
  well_named g → well_named (print g line).
Proof. done. Qed.

Lemma well_named_add (g : CodeGenerator) (owner : string) (cd : ClassDef)
    (other : string) (l : bool) :
  well_named g → classes g !! owner = Some cd →
  well_named (set_class g owner (add_field cd other (field_name_for other l) l)).
Proof.
  intros Hw Hcd n cd' f Hn Hf. simpl in Hn. rewrite lookup_insert in Hn.
  case_decide; [|by eapply Hw]. injection Hn as <-.
  apply add_field_elem in Hf as [Hf| ->]; [by eapply Hw|done].
Qed.

Lemma well_named_extends (g : CodeGenerator) (s t : string) (cs : ClassDef) :
  well_named g → classes g !! s = Some cs →
  well_named (set_class g s (set_extends cs t)).
Proof.
  intros Hw Hcs n cd' f Hn Hf. simpl in Hn. rewrite lookup_insert in Hn.
  case_decide; [|by eapply Hw]. injection Hn as <-. by eapply Hw.
Qed.

Lemma process_well_named (g g' : CodeGenerator) (e : Edge) :
  _process_relationship g e = Ok g' → well_named g → well_named g'.
Proof.
  intros Hrun Hw. destruct (resolves_or_unresolved g e) as [(s & t & Hres)|Hun].
  - rewrite (process_resolved_raw g e s t Hres) in Hrun. simpl in Hrun.
    unfold getitem, mbind, result_bind in Hrun.
    set (g1 := print g _) in Hrun.
    assert (Hw1 : well_named g1) by (by apply well_named_print).
    destruct (String.eqb (classify e) "EXPANDS").
    { destruct (classes g !! s) as [cs|] eqn:Hcs; [|done]. injection Hrun as <-.
      by apply well_named_extends. }
    destruct (String.eqb (classify e) "DEPENDS").
    { destruct (classes g !! s) as [cs|] eqn:Hcs; [|done]. injection Hrun as <-.
      by apply (well_named_add g1 s cs t false). }
    destruct (String.eqb (classify e) "HAVE").
    { destruct (classes g !! s) as [cs|] eqn:Hcs; [|done]. injection Hrun as <-.
      by apply (well_named_add g1 s cs t (String.eqb (get_multiplicity e) "*")). }
    destruct (String.eqb (classify e) "PART_OF").
    { destruct (classes g !! t) as [ct|] eqn:Hct; [|done]. injection Hrun as <-.
      by apply (well_named_add g1 t ct s (String.eqb (get_multiplicity e) "*")). }
    by injection Hrun as <-.
  - rewrite (process_unresolved g e Hun) in Hrun. by injection Hrun as <-.
Qed.

Lemma process_all_well_named (g g' : CodeGenerator) (es : list Edge) :
  process_all g es = Ok g' → well_named g → well_named g'.
Proof.
  revert g. induction es as [|e es IH]; intros g; [by intros [= <-]|].
  intros (g1 & H1 & Hrest)%process_all_cons Hw.
  apply (IH g1 Hrest). by apply (process_well_named g g1 e).
Qed.

Lemma generate_well_named (cells : list Cell) (g : CodeGenerator) :
  generate cells = Ok g → well_named g.
Proof.
  intros Hrun. apply (process_all_well_named _ _ _ Hrun).
  intros n cd f [_ ->]%init_generator_lookup Hf. by apply elem_of_nil in Hf.
Qed.

(** ** Lines of the class text *)

Lemma accessor_in_class_lines (cd : ClassDef) (f : Field) (line : string) :
  f ∈ fields cd → line ∈ accessor_lines f → line ∈ class_lines cd.
Proof.
  intros Hf Hl. rewrite class_lines_sections.
  do 5 (apply elem_of_app; right). apply elem_of_app; left.
  apply list_elem_of_In, in_flat_map. exists f. split; by apply list_elem_of_In.
Qed.

Lemma declaration_in_class_lines (cd : ClassDef) (f : Field) :
  f ∈ fields cd → declaration_line f ∈ class_lines cd.
Proof.
  intros Hf. rewrite class_lines_sections.
  apply elem_of_app; right. apply elem_of_app; left.
  destruct (fields cd) as [|f0 fs]; [by apply elem_of_nil in Hf|]. cbn [truthy_list].
  apply elem_of_app; left. apply list_elem_of_In, in_map. by apply list_elem_of_In.
Qed.

Lemma initialiser_in_class_lines (cd : ClassDef) (f : Field) :
  f ∈ fields cd → field_is_list f = true → initialiser_line f ∈ class_lines cd.
Proof.
  intros Hf Hl. rewrite class_lines_sections.
  do 3 (apply elem_of_app; right). apply elem_of_app; left.
  apply list_elem_of_In, in_flat_map. exists f. split; [by apply list_elem_of_In|].
  unfold initialiser_lines. rewrite Hl. by left.
Qed.

Lemma prefix_app (p r : string) : String.prefix p (p +:+ r) = true.
Proof.
  induction p as [|c p IH]; [apply prefix_empty|].
  rewrite app_cons. simpl. by destruct (ascii_dec c c).
Qed.

Lemma join_with_cons (sep x y : string) (r : list string) :
  join_with sep (x :: y :: r) = x +:+ sep +:+ join_with sep (y :: r).
Proof. done. Qed.

Lemma header_line_public (cd : ClassDef) :
  ∃ rest, header_line cd = "public class " +:+ rest.
Proof. unfold header_line. destruct (truthy_opt (extends cd)); by eexists. Qed.

Lemma class_text_public (cd : ClassDef) :
  ∃ rest, join_with nl (class_lines cd) = "public class " +:+ rest.
Proof.
  rewrite class_lines_sections. cbn [app]. rewrite join_with_cons.
  destruct (header_line_public cd) as [rest ->]. rewrite app_assoc3. by eexists.
Qed.

Lemma content_imports (cd : ClassDef) :
  String.prefix "import java.util.List;" (class_content cd)
  = existsb field_is_list (fields cd)
  ∧ String.prefix "public class " (class_content cd)
  = negb (existsb field_is_list (fields cd)).
Proof.
  unfold class_content, class_imports.
  destruct (existsb field_is_list (fields cd)); cbn [app truthy_list negb].
  - rewrite join_with_cons, !app_assoc3. split; [apply prefix_app|reflexivity].
  - destruct (class_text_public cd) as [rest ->]. split; [reflexivity|apply prefix_app].
Qed.

(** X16.  The text of a class starts with the two [java.util] import lines
    exactly when some field of the class is a collection; otherwise it starts
    with the class header.  A collection field thus never comes without
    the imports, nor without its initialiser in the constructor. *)
Theorem imports_iff_collection (cd : ClassDef) :
  String.prefix "import java.util.List;" (class_content cd)
  = existsb field_is_list (fields cd)
  ∧ String.prefix "public class " (class_content cd)
  = negb (existsb field_is_list (fields cd))
  ∧ (existsb field_is_list (fields cd) = true →
     class_content cd =
       "import java.util.List;" +:+ nl +:+ "import java.util.ArrayList;" +:+ nl +:+ nl
       +:+ join_with nl (class_lines cd))
  ∧ (∀ f, f ∈ fields cd → field_is_list f = true →
       String.prefix "import java.util.List;" (class_content cd) = true
       ∧ initialiser_line f ∈ class_lines cd).
Proof.
  destruct (content_imports cd) as [Hi Hp]. split; [done|]. split; [done|].
  split.
  - intros Hl. unfold class_content, class_imports. rewrite Hl. cbn [app truthy_list].
    by rewrite join_with_cons, !app_assoc3.
  - intros f Hf Hl. split; [|by apply initialiser_in_class_lines].
    rewrite Hi. apply existsb_exists. exists f. split; [by apply list_elem_of_In|done].
Qed.

(** X17.  For a diagram whose cell values are ASCII text, in the model
    [generate] hands to the emitter a field of type T is named
    lower-camel(T), with an "s" when it is a collection, and its accessors
    are named after the type again: getT and setT, or getTs and setTs for a
    collection.  Its declaration, its getter and its setter are lines of
    the class, and so is its initialiser when it is a collection. *)
Theorem emitted_accessors (cells : list Cell) (g : CodeGenerator)
    (n : string) (cd : ClassDef) (f : Field) :
  ascii_cells cells →
  generate cells = Ok g → classes g !! n = Some cd → f ∈ fields cd →
  let T := field_type f in
  ascii_text T
  ∧ field_name f = (if field_is_list f then lower_camel_name T +:+ "s" else lower_camel_name T)
  ∧ _capitalize (field_name f) = (if field_is_list f then T +:+ "s" else T)
  ∧ getter_line f =
      (if field_is_list f
       then "    public List<" +:+ T +:+ "> get" +:+ (T +:+ "s") +:+ "() {"
       else "    public " +:+ T +:+ " get" +:+ T +:+ "() {")
  ∧ setter_line f =
      (if field_is_list f
       then "    public void set" +:+ (T +:+ "s") +:+ "(List<" +:+ T +:+ "> "
            +:+ field_name f +:+ ") {"
       else "    public void set" +:+ T +:+ "(" +:+ T +:+ " " +:+ field_name f +:+ ") {")
  ∧ declaration_line f ∈ class_lines cd
  ∧ getter_line f ∈ class_lines cd ∧ setter_line f ∈ class_lines cd
  ∧ (field_is_list f = true → initialiser_line f ∈ class_lines cd).
Proof.
  intros Hcells Hrun Hn Hf. simpl.
  pose proof (generate_well_named cells g Hrun n cd f Hn Hf) as Hname.
  pose proof (generate_invariants cells g Hrun) as (_ & _ & Hcl & _).
  destruct (Hcl n cd Hn) as [_ Hknown].
  pose proof (known_shape cells g _ Hrun (Hknown f Hf)) as Hshape.
  split; [by apply (known_ascii cells g _ Hcells Hrun), Hknown|].
  pose proof (capitalize_field_name (field_type f) (field_is_list f) Hshape) as Hcap.
  rewrite <- Hname in Hcap. split; [done|]. split; [done|].
  split; [unfold getter_line; rewrite Hcap; by destruct (field_is_list f)|].
  split; [unfold setter_line; rewrite Hcap; by destruct (field_is_list f)|].
  split; [by apply declaration_in_class_lines|].
  split; [apply (accessor_in_class_lines cd f); [done|]; by left|].
  split; [apply (accessor_in_class_lines cd f); [done|]; do 4 right; by left|].
  by apply initialiser_in_class_lines.
Qed.

Lemma emitted_accessors_witness :
  getter_line ("Order", "orders", true) = "    public List<Order> getOrders() {"
  ∧ setter_line ("Order", "orders", true)
    = "    public void setOrders(List<Order> orders) {".
Proof.
  assert (Hf : ("Order", "orders", true) ∈ fields customer_class) by (by left).
  assert (Hn : classes shop_model !! "Customer" = Some customer_class)
    by (vm_compute; reflexivity).
  assert (Hrun : generate shop_diagram = Ok shop_model) by (vm_compute; reflexivity).
  assert (Hcells : ascii_cells shop_diagram) by (repeat constructor).
  pose proof (emitted_accessors shop_diagram shop_model "Customer" customer_class
                ("Order", "orders", true) Hcells Hrun Hn Hf) as (_ & _ & _ & Hg & Hs & _).
  clear Hrun Hn Hf Hcells. split; [exact Hg|exact Hs].
Defined.

(** ** Header, constructor and file *)

Lemma head_class_lines (cd : ClassDef) : head (class_lines cd) = Some (header_line cd).
Proof. by rewrite class_lines_sections. Qed.

Lemma last_class_lines (cd : ClassDef) : last (class_lines cd) = Some "}".
Proof.
  rewrite class_lines_sections, !app_assoc. apply last_snoc.
Qed.

(** X18.  In the model [generate] hands to the emitter, the class declared
    in a file, its constructor and the file itself all carry the name under
    which the class is kept, and a parent that is set always shows in the
    header: the first line is "public class N extends P {" when the parent
    is P and "public class N {" when there is none; the last line is "}". *)
Theorem emitted_header (cells : list Cell) (g : CodeGenerator)
    (n : string) (cd : ClassDef) :
  generate cells = Ok g → classes g !! n = Some cd →
  (_generate_class cd).1 = n +:+ ".java"
  ∧ head (class_lines cd) =
      Some (match extends cd with
            | Some p => "public class " +:+ n +:+ " extends " +:+ p +:+ " {"
            | None => "public class " +:+ n +:+ " {"
            end)
  ∧ constructor_line cd = "    public " +:+ n +:+ "() {"
  ∧ constructor_line cd ∈ class_lines cd
  ∧ last (class_lines cd) = Some "}".
Proof.
  intros Hrun Hn.
  pose proof (generate_invariants cells g Hrun) as (_ & Hkey & Hcl & _).
  destruct (Hcl n cd Hn) as [Hparent _]. pose proof (Hkey n cd Hn) as Hname.
  split; [simpl; by rewrite Hname|]. split; [|split; [|split]].
  - rewrite head_class_lines. f_equal. unfold header_line. rewrite Hname.
    destruct (extends cd) as [p|] eqn:Hp; [|done]. simpl.
    destruct (known_shape cells g p Hrun (Hparent p eq_refl)) as (Hne & _).
    by rewrite (truthy_ne p Hne).
  - unfold constructor_line. by rewrite Hname.
  - rewrite class_lines_sections. do 2 (apply elem_of_app; right).
    apply elem_of_app; left. by left.
  - apply last_class_lines.
Qed.

Lemma emitted_header_witness :
  head (class_lines (mkClassDef "Invoice" (Some "Document") [])) =
    Some "public class Invoice extends Document {".
Proof.
  assert (Hn : classes shop_model !! "Invoice" = Some (mkClassDef "Invoice" (Some "Document") []))
    by (vm_compute; reflexivity).
  assert (Hrun : generate shop_diagram = Ok shop_model) by (vm_compute; reflexivity).
  pose proof (emitted_header shop_diagram shop_model "Invoice" _ Hrun Hn)
    as (_ & H & _).
  clear Hrun Hn. exact H.
Defined.
